(* ===== verification/_CoqProject ===== *)
-Q . S2P
Prelude.v
PyStr.v
PyDict.v
PyObj.v
PyTime.v
PyFormat.v
BaseResult.v
ImportResult.v
Base64.v
Zip.v
Json.v
Xml.v
PosixPath.v
Payload.v
XmlRead.v
ExportResult.v
Render.v
Credential.v
Dispatcher.v
Session.v
Flow.v
Example.v
