(* ===== verification/Prelude.v ===== *)
(** * A verification development for pyrelatics2

    The repository is a Python client for the Relatics SOAP data-exchange
    webservice.  Its parts under [src/]:

    - [src/pyrelatics_webservices/client.py]
      - [ClientCredential] keeps OAuth2 client credentials and a per-host
        cache of bearer tokens ([get_token], [retrieve_token]);
      - [AddParametersPlugin.marshalled] adds custom parameters to the
        SOAP envelope;
      - [RelaticsWebservices.get_result] and [run_import] build the
        authentication block and, for imports, the payload (XML of the
        rows, an optional zip with attached documents, base64), and call
        the remote operations through the suds SOAP client.
    - [src/pyrelatics2/result_classes.py]
      - [BaseResult.handle_suds_response_errors] classifies error
        responses;
      - [ExportResult.from_suds] extracts the base64 zip of documents of
        an export response and deletes it from the response;
      - [ImportResult.from_suds] folds the import log with a sticky
        current-row counter and collects the changed elements; filter
        accessors select messages by status and elements by action.
    - [ExportResult.__str__], [ImportResult.__str__] and the [__str__]
      of [ImportMessage] and [ImportElement] print a result with
      colorama's colour codes.
    - [src/example.py] is a usage script: it builds a credential and a
      [RelaticsWebservices], calls [get_result] with an entry code and
      prints the truth value of the response and the response.

    The caller invokes [get_result] or [run_import]; these take a token
    from [ClientCredential] when the authentication is a client
    credential and, for imports, build the payload; the transport returns
    a raw object tree, which the caller hands to [ExportResult.from_suds]
    or [ImportResult.from_suds].  One [ClientCredential] object may serve
    many calls and hosts: its per-host token cache is shared by them.

    ** Files, in dependency order

    - [Prelude] (this file): the Python exceptions [pyexc], the result
      monad [res] with [let!] in [py_scope], [fold_res] and [res_mapM]
      for loops that may raise, the hint databases [pyrel], the tactics
      [res_inv], [py_simp], [res_crush] and [str_assoc], and their
      lemmas, and the string lemmas shared by the files.
    - [PyStr]: [needle in s], [s[n:]] and CPython's base-10 [int(s)]
      (whitespace, sign, underscores, the 4300-digit limit).
    - [PyDict]: a dict with str keys as its items in insertion order
      ([d[k] = v], lookup, keys), with the extensionality of dicts.
    - [PyObj]: the suds object tree ([Object], [Text], lists, [None]) and
      the probes the sources apply to it: [hasattr], [getattr], [len],
      [x[0]], iteration, [==], [in], [str]/[repr], and [del] done in place.
    - [PyTime]: timedelta and naive datetime as microseconds, with
      [timedelta.seconds] (the seconds field, taken modulo a day) and the
      range checks that raise [OverflowError].
    - [PyFormat]: the f-string formats the renderings use ([<w], [w],
      [>w], [0w]), [str] of an int ([pretty]), of a [datetime.time] and
      of a [datetime.timedelta], and that [int()] reads back what is
      printed.
    - [BaseResult]: the interface [ResultFields] (a class with the
      [has_error] and [error_msg] fields of [BaseResult]) and, against it,
      [handle_suds_response_errors] and [__bool__]; an unassigned field
      reads as the class attribute, a truthy [dataclasses.Field].
    - [ImportResult] (Module [ImportResult]): [from_suds] with its message
      and element loops, the filters and [__bool__]; the log
      specification [log_messages] the loop is proved against, and the
      abstract fold [import_spec] of the design notes it refines.
    - [Base64]: CPython's [b2a_base64] (a 32-bit bit-buffer loop) and
      non-strict [a2b_base64] (a state machine), [b64encode],
      [b64decode], and [bytes(s, "utf-8")].
    - [Zip]: the interface [ZipArchive] (read after write gives the
      entries back; [read(name)] is the last entry of that name) and one
      instance of it.
    - [Json]: the decoded token reply, with Python's [in], [x[k]] and
      [str]/[repr] on it.
    - [Xml]: the part of [suds.sax] the sources use: elements, [set]
      (which finds the attribute to replace as [getAttribute] does, by
      the local name after an optional [prefix:] and the namespace the
      prefix resolves to), [append], [getChild], [findPrefix], [str]
      with the entity encoder, and the replacement of the predefined
      entities.
    - [PosixPath]: [os.path.split], [splitext], [join] and [normpath].
    - [Payload] (Module [Payload]): the data preparation of [run_import]
      over an explicit file system: argument checks, XML rows, the
      extension check, the base name, the zip in the temporary directory
      and the base64 payload.
    - [XmlRead]: the reading side of a rows payload, as the Relatics
      server or any XML parser does it, modelled from the UTF-8 and XML
      standards (it is not code of the repository): UTF-8 decoding, the
      attribute-value normalisation (tab, newline, carriage return read
      as a space) and the entity decoding, and the valid rows (keys that
      are XML names, no duplicate keys, values without entity-like text).
    - [ExportResult] (Module [ExportResult]): [from_suds] against
      [ZipArchive], returning the result with the caller's response after
      the in-place deletion; [documents] is an insertion-ordered dict.
    - [Render] (Module [Render]): the four [__str__] methods; what suds
      prints for a node ([obj_str], [obj_repr]) and the repr of an
      unassigned [dataclasses.Field] ([field_repr]) are section
      variables.
    - [Credential] (Module [Credential]): [get_token] and
      [retrieve_token] with the clock readings and the token endpoint as
      inputs, and the reachable credentials as an inductive relation.
    - [Dispatcher] (Module [Dispatcher]): [RelaticsWebservices],
      [get_result] and [run_import] as the list of requests they make
      with replies from an explicit environment (a token request is
      recorded also when its reply then raises), and the plugin's edit
      of the envelope.
    - [Session] (Module [Session]): a program's sequence of [get_result]
      and [run_import] calls passing the same [ClientCredential] object,
      whose token cache [get_token] mutates in place; the credential,
      the file system and the requests are threaded through the calls,
      and the first exception ends the program.
    - [Flow] (Module [Flow]): the caller's flow of the specification,
      [run_import] or [get_result] followed by the normaliser
      [from_suds], composed in the result monad.
    - [Example] (Module [Example]): the statements of [src/example.py]
      that run, with the [config] values as section variables and
      standard output as a string.

    ** What the theorems show

    - [ImportResult]: [has_error] is always assigned, the row each
      message carries (updated before the message is appended), the
      messages, totals and elapsed time against the log specification,
      every error path (a number or time that does not convert, the
      4300-digit limit, the timedelta range, Export nodes with and
      without [_Error], unrecognised responses), the first element group,
      that the status filters partition the messages, and that the
      message loop refines the fold of the design notes.
    - [ExportResult]: the documents of a zip (the last member of a name
      wins), the data as the mutated response, the falsy successful
      export without documents, [has_error] reset by documents after an
      Export error, corrupt base64 or zip.
    - [Render]: the rendering of the falsy successful export opens with
      an [ERROR:] banner; the documents table lists each member name
      once in archive order, each line as wide as the header unless the
      name is longer than 45 characters; an import result whose
      statuses are the five literals renders, any other status raises
      [KeyError]; the [Elapsed time] line prints [str(timedelta)], not
      the [(h:mm:ss.mmmmmm)] form its label announces; the row column
      of a message line reads back as the row.
    - [Base64]: the bit-buffer loop equals the group encoder, and
      decoding an encoding gives the bytes back, for all byte strings
      (the per-byte facts are checked over all 256 and 65536 values by
      [vm_compute]); the encoder's inner [while] loop stops by its
      condition within the fuel it is given.
    - [Credential]: the reuse rule, its correct window below a day, the
      reuse of expired tokens and the early refresh of tokens with more
      than a day left (both from [timedelta.seconds]), the reuse window
      of the specification, storing a token, error replies, the frame of
      a call, and liveness:
      a caller polling at least every 301 seconds gets a refresh within
      any day.
    - [Payload], [Xml], [XmlRead], [Dispatcher]: the XML and zip
      payloads and their decoding, that a parser reads the rows of a
      rows payload back when they are valid, that it reads an escaped
      value back with tab, newline and carriage return as spaces, that
      two keys of a row with the same local name (such as [x:b] and
      [y:b]) give one attribute, the temporary file left on disk by a missing attachment
      and removed otherwise, attribute escaping, the requests of
      [get_result] and [run_import] (an empty operation name or empty
      data is refused before any request; the WSDL download precedes
      the extension check; the token request uses the default user
      agent; transport exceptions propagate unchanged), and the
      plugin's insertion of [Parameters].
    - [Session]: whatever the replies and exceptions, the credential a
      session leaves holds for every host the token the last SOAP call
      to that host carried as [Bearer]; when
      the calls to a host fall in a window shorter than its token's
      lifetime, at most one token request goes to that host and every
      SOAP call to it carries that token, whatever the calls to other
      hosts do.
    - [Flow]: the error contract: validation and transport errors are
      raised, an error the service reports comes back in a falsy result.
    - [Example]: the usage script downloads the WSDL and makes one
      [GetResult] call with the entry code and no token request; when
      the call returns it prints the truth value of the response and
      the response, and an exception of the download or of the call
      ends it with nothing printed.

    Every theorem with hypotheses has a witness that applies it to a
    concrete input.  Loops are structural recursions on their input
    ([fold_left], [fold_res]); the decoders that need fuel are given the
    length of their input, which bounds the number of steps ([Zip],
    [Xml], [XmlRead]); the encoder's inner loop in [Base64] is given
    [leftbits / 6 + 1], and [emit_sextets_terminates] shows that any
    more fuel gives the same result; no theorem is stated only for a run
    that returns.

    ** Not modelled

    The network and SOAP transport (suds, http.client), represented by
    the replies and exceptions of an explicit environment, the envelope
    suds builds, the decoding of
    the reply bytes, JSON floats, directories in the file system, the
    zip archive format (abstracted to its contract), logging, the text
    suds prints for a response node and the repr of a
    [dataclasses.Field] (parameters of [Render]), [time.fromisoformat]
    (a parameter of [ImportResult]), the logging set-up and the [config]
    module [src/example.py] imports (not in the repository): they are represented by their inputs
    and outputs. *)

From stdpp Require Export base list strings gmap options.
From Stdlib Require Export ZArith Lia String Ascii Init.Byte.

(** [length] is the length of a list; the length of a string is written
    [String.length]. *)
Abbreviation length := List.length.

#[global] Open Scope string_scope.
#[global] Open Scope list_scope.
#[global] Open Scope nat_scope.

(** ** Python exceptions *)

(** The exceptions the modelled code raises or lets propagate.  The
    message text is kept only where the code builds it from data. *)
Inductive pyexc :=
  | TypeError
  | ValueError (msg : string)
  | AttributeError (name : string)
  | KeyError (key : string)
  | IndexError
  | RuntimeError (msg : string)
  | OverflowError
  | BinasciiError (msg : string)
  | BadZipFile
  | FileNotFoundError (path : string)
  | TransportError.

(** A computation that returns a value or raises a Python exception. *)
Inductive res (A : Type) :=
  | Ok (a : A)
  | Raise (e : pyexc).
Arguments Ok {A} a.
Arguments Raise {A} e.

Definition res_bind {A B} (c : res A) (f : A -> res B) : res B :=
  match c with
  | Ok a => f a
  | Raise e => Raise e
  end.

Definition res_map {A B} (f : A -> B) (c : res A) : res B :=
  res_bind c (fun a => Ok (f a)).

Definition of_option {A} (e : pyexc) (o : option A) : res A :=
  match o with
  | Some a => Ok a
  | None => Raise e
  end.

Declare Scope py_scope.
Delimit Scope py_scope with py.

Notation "'let!' x ':=' c 'in' k" := (res_bind c (fun x => k))
  (at level 20, x name, c at level 100, k at level 200) : py_scope.
Notation "'let!' ' p ':=' c 'in' k" := (res_bind c (fun p => k))
  (at level 20, p pattern, c at level 100, k at level 200) : py_scope.
Notation "'raise' e" := (Raise e) (at level 10) : py_scope.

#[global] Open Scope py_scope.

(** Monadic left fold: the shape of a Python [for] loop that threads
    state and may raise. *)
Fixpoint fold_res {A S} (f : S -> A -> res S) (l : list A) (s : S) : res S :=
  match l with
  | [] => Ok s
  | x :: l' => res_bind (f s x) (fold_res f l')
  end.

(** Monadic map: the first element that raises decides the result. *)
Fixpoint res_mapM {A B} (f : A -> res B) (l : list A) : res (list B) :=
  match l with
  | [] => Ok []
  | x :: l' => res_bind (f x) (fun y => res_bind (res_mapM f l') (fun ys => Ok (y :: ys)))
  end.

Definition is_ok {A} (c : res A) : bool :=
  match c with Ok _ => true | Raise _ => false end.

(** ** The development's automation *)

Create HintDb pyrel discriminated.
Create Rewrite HintDb pyrel.

Lemma res_bind_Ok {A B} (a : A) (f : A -> res B) : res_bind (Ok a) f = f a.
Proof. reflexivity. Qed.

Lemma res_bind_Raise {A B} (e : pyexc) (f : A -> res B) :
  res_bind (Raise e) f = Raise e.
Proof. reflexivity. Qed.

Lemma res_bind_assoc {A B C} (c : res A) (f : A -> res B) (g : B -> res C) :
  res_bind (res_bind c f) g = res_bind c (fun a => res_bind (f a) g).
Proof. by destruct c. Qed.

Lemma res_bind_ret {A} (c : res A) : res_bind c (fun a => Ok a) = c.
Proof. by destruct c. Qed.

Lemma res_bind_Ok_inv {A B} (c : res A) (f : A -> res B) (b : B) :
  res_bind c f = Ok b -> exists a, c = Ok a /\ f a = Ok b.
Proof. destruct c; simpl; [eauto | discriminate]. Qed.

Lemma fold_res_app {A S} (f : S -> A -> res S) l1 l2 s :
  fold_res f (l1 ++ l2) s = res_bind (fold_res f l1 s) (fold_res f l2).
Proof.
  revert s. induction l1 as [|x l1 IH]; intros s; simpl; [done|].
  rewrite res_bind_assoc. destruct (f s x); simpl; [apply IH | done].
Qed.

#[export] Hint Rewrite @res_bind_Ok @res_bind_Raise @res_bind_assoc @res_bind_ret : pyrel.

(** Break a hypothesis [res_bind c f = Ok b] into its two steps. *)
Ltac res_inv :=
  repeat match goal with
  | H : res_bind ?c _ = Ok _ |- _ =>
      let a := fresh "a" in let Ha := fresh "Ha" in
      apply res_bind_Ok_inv in H as [a [Ha H]]
  | H : Ok _ = Ok _ |- _ => injection H as H
  | H : Raise _ = Ok _ |- _ => discriminate H
  end.

(** Simplify the result monad in the goal. *)
Ltac py_simp := autorewrite with pyrel; simpl.

(** A property of the loop state kept by every iteration is kept by the
    loop. *)
Lemma fold_res_inv {A S} (P : S -> Prop) (f : S -> A -> res S) l s s' :
  (forall s x s', P s -> f s x = Ok s' -> P s') ->
  P s -> fold_res f l s = Ok s' -> P s'.
Proof.
  intros Hstep. revert s. induction l as [|x l IH]; intros s Hs; simpl.
  - by intros [= <-].
  - destruct (f s x) eqn:E; simpl; [|discriminate]. eauto.
Qed.

(** Case analysis on every [let!], [if] and pair pattern of the
    hypotheses [c = Ok v], discarding the branches that raise. *)
Ltac res_crush :=
  repeat (simpl in *; match goal with
  | H : res_bind ?c _ = Ok _ |- _ =>
      let E := fresh "E" in destruct c eqn:E; simpl in H; try discriminate H
  | H : (if ?b then _ else _) = Ok _ |- _ => let E := fresh "E" in destruct b eqn:E
  | H : (let '(_, _) := ?p in _) = Ok _ |- _ => destruct p
  | H : Ok _ = Ok _ |- _ => injection H as H
  | H : Raise _ = Ok _ |- _ => discriminate H
  | H : (_, _) = (_, _) |- _ => injection H as H
  | H : ?x = _ |- _ => is_var x; subst x
  | H : _ = ?x |- _ => is_var x; subst x
  end).

Lemma res_mapM_app {A B} (f : A -> res B) l1 l2 :
  res_mapM f (l1 ++ l2) =
  res_bind (res_mapM f l1) (fun ys1 => res_bind (res_mapM f l2) (fun ys2 => Ok (ys1 ++ ys2))).
Proof.
  induction l1 as [|x l1 IH]; simpl.
  - by destruct (res_mapM f l2).
  - destruct (f x); simpl; [|done]. rewrite IH.
    destruct (res_mapM f l1); simpl; [|done]. by destruct (res_mapM f l2).
Qed.

Lemma res_mapM_all_ok {A B} (f : A -> res B) l :
  Forall (fun x => is_ok (f x) = true) l -> exists ys, res_mapM f l = Ok ys.
Proof.
  induction 1 as [|x l Hx _ [ys IH]]; simpl; [eauto|].
  destruct (f x); simpl; [|discriminate]. rewrite IH. eauto.
Qed.

Lemma res_mapM_length {A B} (f : A -> res B) l ys :
  res_mapM f l = Ok ys -> length ys = length l.
Proof.
  revert ys. induction l as [|x l IH]; simpl; intros ys H; [by injection H as <-|].
  res_crush. simpl. f_equal. auto.
Qed.

(** The first element that raises decides the exception. *)
Lemma res_mapM_first_error {A B} (f : A -> res B) pre x post e :
  Forall (fun y => is_ok (f y) = true) pre -> f x = Raise e ->
  res_mapM f (pre ++ x :: post) = Raise e.
Proof.
  intros Hpre Hx. apply res_mapM_all_ok in Hpre as [ys Hys].
  rewrite res_mapM_app, Hys. simpl. by rewrite Hx.
Qed.

(** ** Strings *)

Lemma str_app_assoc s t u : s +:+ (t +:+ u) = (s +:+ t) +:+ u.
Proof. induction s as [|c s IH]; [done|]. unfold "+:+" in *. simpl. by rewrite IH. Qed.

Lemma str_app_nil_r s : s +:+ "" = s.
Proof. induction s as [|c s IH]; [done|]. unfold "+:+" in *. simpl. by rewrite IH. Qed.

Lemma str_length_app s t : String.length (s +:+ t) = (String.length s + String.length t)%nat.
Proof. induction s as [|c s IH]; [done|]. unfold "+:+" in *. simpl. by rewrite IH. Qed.

Lemma list_ascii_of_string_app s t :
  list_ascii_of_string (s +:+ t) = list_ascii_of_string s ++ list_ascii_of_string t.
Proof. induction s as [|c s IH]; [done|]. unfold "+:+" in *. simpl. by rewrite IH. Qed.

(** Reassociate string concatenations to the right and drop [+:+ ""]. *)
Ltac str_assoc := repeat rewrite <- str_app_assoc; rewrite ?str_app_nil_r.

Lemma str_concat_cons x l : String.concat "" (x :: l) = x +:+ String.concat "" l.
Proof. destruct l; simpl; [by rewrite str_app_nil_r|done]. Qed.
