(* ===== verification/PyStr.v ===== *)
(** * Python str operations used by the sources

    [result_classes.py] reads the import log with three str operations:
    the substring test [needle in s] (lines 216, 218, 220), the slice
    [s[n:]] and the conversion [int(...)] (lines 217, 219, 221).  A str is
    modelled as a Stdlib [string] whose characters are code points below
    256.  [int] is CPython's base-10 parser ([PyLong_FromUnicodeObject] /
    [PyLong_FromString]): surrounding whitespace, one optional sign,
    single underscores between digits, and the limit of 4300 digits
    ([sys.int_info.default_max_str_digits]). *)

From S2P Require Import Prelude.

(** ** Substring test and slicing *)

(** [needle in s] for two str values. *)
Fixpoint str_contains (needle s : string) : bool :=
  String.prefix needle s ||
  match s with
  | EmptyString => false
  | String _ s' => str_contains needle s'
  end.

(** [s[n:]] for [n >= 0]; a start past the end gives the empty string. *)
Fixpoint str_drop (n : nat) (s : string) : string :=
  match n, s with
  | O, _ => s
  | S _, EmptyString => EmptyString
  | S n', String _ s' => str_drop n' s'
  end.

(** ** [int(s)] in base 10 *)

Definition char_code (c : ascii) : nat := nat_of_ascii c.

(** [Py_ISSPACE] on the ASCII range (tab to carriage return and space),
    plus the two Latin-1 spaces (U+0085, U+00A0) that
    [_PyUnicode_TransformDecimalAndSpaceToASCII] maps to a space. *)
Definition is_int_space (c : ascii) : bool :=
  let n := char_code c in
  ((9 <=? n) && (n <=? 13)) || (n =? 32) || (n =? 133) || (n =? 160).

Definition is_digit (c : ascii) : bool :=
  let n := char_code c in (48 <=? n) && (n <=? 57).

Definition digit_value (c : ascii) : Z := Z.of_nat (char_code c) - 48.

Fixpoint skip_space (s : string) : string :=
  match s with
  | String c s' => if is_int_space c then skip_space s' else s
  | EmptyString => EmptyString
  end.

(** The result of the digit scan of [PyLong_FromString]: the value, the
    number of digits and the rest of the input, or a misplaced
    underscore. *)
Inductive scan_out :=
  | ScanOk (v : Z) (ndigits : nat) (rest : string)
  | ScanBadUnderscore.

(** [prev_us] records whether the previous character was an
    underscore: two in a row, or one before a non-digit, are errors. *)
Fixpoint scan_digits (s : string) (prev_us : bool) (v : Z) (n : nat) : scan_out :=
  match s with
  | String c s' =>
      if is_digit c then scan_digits s' false (v * 10 + digit_value c) (S n)
      else if Ascii.eqb c "_" then
        if prev_us then ScanBadUnderscore else scan_digits s' true v n
      else if prev_us then ScanBadUnderscore else ScanOk v n s
  | EmptyString => if prev_us then ScanBadUnderscore else ScanOk v n EmptyString
  end.

Definition int_max_str_digits : nat := 4300.

Definition invalid_literal : pyexc := ValueError "invalid literal for int() with base 10".
Definition digits_limit : pyexc := ValueError "Exceeds the limit for integer string conversion".

(** [int(s)] for a str [s]. *)
Definition py_int (s : string) : res Z :=
  let s1 := skip_space s in
  let '(sign, s2) :=
    match s1 with
    | String c r => if Ascii.eqb c "+" then (1%Z, r)
                    else if Ascii.eqb c "-" then ((-1)%Z, r) else (1%Z, s1)
    | EmptyString => (1%Z, s1)
    end in
  let! _ :=
    match s2 with
    | String c _ => if Ascii.eqb c "_" then raise invalid_literal else Ok tt
    | EmptyString => Ok tt
    end in
  match scan_digits s2 false 0 0 with
  | ScanBadUnderscore => raise invalid_literal
  | ScanOk v n rest =>
      if int_max_str_digits <? n then raise digits_limit
      else if n =? 0 then raise invalid_literal
      else match skip_space rest with
           | EmptyString => Ok (sign * v)%Z
           | String _ _ => raise invalid_literal
           end
  end.

(** ** Decimal digit strings *)

Fixpoint all_digits (s : string) : bool :=
  match s with
  | String c s' => is_digit c && all_digits s'
  | EmptyString => true
  end.

(** The value of a digit string read left to right onto [acc]. *)
Fixpoint dec_acc (s : string) (acc : Z) : Z :=
  match s with
  | String c s' => dec_acc s' (acc * 10 + digit_value c)
  | EmptyString => acc
  end.

Definition digits_value (s : string) : Z := dec_acc s 0.

Lemma scan_digits_all s v n :
  all_digits s = true ->
  scan_digits s false v n = ScanOk (dec_acc s v) (n + String.length s) EmptyString.
Proof.
  revert v n. induction s as [|c s IH]; intros v n Hd; simpl in *.
  - by rewrite Nat.add_0_r.
  - apply andb_prop in Hd as [-> Hd]. rewrite IH by done.
    by rewrite Nat.add_succ_r.
Qed.

Lemma is_digit_not_special c :
  is_digit c = true ->
  is_int_space c = false /\ Ascii.eqb c "+" = false /\
  Ascii.eqb c "-" = false /\ Ascii.eqb c "_" = false.
Proof.
  unfold is_digit, is_int_space, char_code. intros H.
  destruct (Ascii.eqb_spec c "+"), (Ascii.eqb_spec c "-"), (Ascii.eqb_spec c "_");
    subst; try discriminate.
  repeat split; try done.
  apply andb_prop in H as [H1 H2]. apply Nat.leb_le in H1, H2.
  repeat (apply orb_false_intro); try apply andb_false_intro2;
    try apply Nat.leb_gt; try apply Nat.eqb_neq; lia.
Qed.

Lemma skip_space_digits s :
  all_digits s = true -> skip_space s = s.
Proof.
  destruct s as [|c s]; simpl; [done|].
  intros [Hc _]%andb_prop. by rewrite (proj1 (is_digit_not_special c Hc)).
Qed.

(** Shared by the two theorems on digit strings: [int] of a digit
    string is decided by its length alone. *)
Lemma py_int_all_digits s :
  all_digits s = true ->
  py_int s = if int_max_str_digits <? String.length s then raise digits_limit
             else if String.length s =? 0 then raise invalid_literal
             else Ok (digits_value s).
Proof.
  intros Hd. unfold py_int. rewrite skip_space_digits by done.
  destruct s as [|c s']; [reflexivity|].
  pose proof Hd as Hd'. simpl in Hd'. apply andb_prop in Hd' as [Hc _].
  destruct (is_digit_not_special c Hc) as (_ & -> & -> & ->).
  cbn [res_bind]. rewrite scan_digits_all by done. cbn [skip_space].
  destruct (int_max_str_digits <? _); [done|]. simpl. by rewrite Z.mul_1_l.
Qed.

(** The sticky-row parser relies on this: a non-empty digit string of
    at most 4300 digits converts to its decimal value. *)
Lemma py_int_digits s :
  all_digits s = true -> 0 < String.length s <= int_max_str_digits ->
  py_int s = Ok (digits_value s).
Proof.
  intros Hd Hl. rewrite py_int_all_digits by done.
  destruct (Nat.ltb_spec int_max_str_digits (String.length s)); [lia|].
  destruct (Nat.eqb_spec (String.length s) 0); [lia|done].
Qed.

Lemma py_int_digits_too_long s :
  all_digits s = true -> int_max_str_digits < String.length s ->
  py_int s = raise digits_limit.
Proof.
  intros Hd Hl. rewrite py_int_all_digits by done.
  by destruct (Nat.ltb_spec int_max_str_digits (String.length s)); [|lia].
Qed.

(** ** Prefixes and slices *)

Lemma str_prefix_nil s : String.prefix "" s = true.
Proof. by destruct s. Qed.

Lemma str_prefix_app p s : String.prefix p (p +:+ s) = true.
Proof.
  induction p as [|c p IH]; simpl; [by destruct s|].
  destruct (ascii_dec c c); [done|congruence].
Qed.

Lemma str_contains_prefix p s : str_contains p (p +:+ s) = true.
Proof.
  pose proof (str_prefix_app p s) as H.
  destruct (p +:+ s); cbn [str_contains]; by rewrite H.
Qed.

Lemma str_drop_app p s : str_drop (String.length p) (p +:+ s) = s.
Proof. induction p as [|c p IH]; simpl; [by destruct s|done]. Qed.

(** A needle that starts with a non-digit does not occur in a digit
    string. *)
Lemma str_contains_digits c rest d :
  is_digit c = false -> all_digits d = true -> str_contains (String c rest) d = false.
Proof.
  intros Hc. induction d as [|c' d IH]; simpl; [done|].
  intros [Hc' Hd]%andb_prop. rewrite IH by done.
  destruct (ascii_dec c c') as [->|]; [congruence|done].
Qed.
