(* ===== verification/PyDict.v ===== *)
(** * Python dicts with str keys, in insertion order

    [ExportResult.documents] is a [dict[str, bytes]] filled by
    [result.documents[name] = ...] and listed by [__str__] through
    [.items()], which yields the keys in the order they were first
    inserted; assigning to a present key replaces its value in place.
    A dict is modelled as the list of its items in that order, with
    [dict_setitem] for [d[k] = v] and [dict_lookup] for [d.get(k)].

    The lemmas: lookup after [setitem], the keys after [setitem] (the
    key appended when new), that the keys stay duplicate-free, and the
    extensionality of dicts with the same keys in the same order and
    the same lookups. *)

From S2P Require Import Prelude.

Abbreviation dict V := (list (string * V)) (only parsing).

Section Dict.
Context {V : Type}.

Fixpoint dict_lookup (k : string) (d : dict V) : option V :=
  match d with
  | [] => None
  | (k', v) :: d' => if String.eqb k k' then Some v else dict_lookup k d'
  end.

(** [d[k] = v]. *)
Fixpoint dict_setitem (k : string) (v : V) (d : dict V) : dict V :=
  match d with
  | [] => [(k, v)]
  | (k', v') :: d' => if String.eqb k k' then (k', v) :: d' else (k', v') :: dict_setitem k v d'
  end.

Definition dict_keys (d : dict V) : list string := map fst d.

Lemma dict_lookup_setitem k v d k' :
  dict_lookup k' (dict_setitem k v d) = if String.eqb k' k then Some v else dict_lookup k' d.
Proof.
  induction d as [|[k0 v0] d IH]; simpl.
  - done.
  - destruct (String.eqb_spec k k0) as [->|Hne]; simpl.
    + by destruct (String.eqb k' k0).
    + rewrite IH. destruct (String.eqb_spec k' k0), (String.eqb_spec k' k); congruence.
Qed.

Lemma dict_lookup_None k d : k ∉ dict_keys d -> dict_lookup k d = None.
Proof.
  induction d as [|[k0 v0] d IH]; simpl; [done|]. intros Hk.
  destruct (String.eqb_spec k k0); [set_solver|]. apply IH. set_solver.
Qed.

Lemma dict_keys_setitem k v d :
  dict_keys (dict_setitem k v d) =
  if bool_decide (k ∈ dict_keys d) then dict_keys d else dict_keys d ++ [k].
Proof.
  induction d as [|[k0 v0] d IH]; simpl; [done|].
  destruct (String.eqb_spec k k0) as [->|Hne]; simpl.
  - rewrite bool_decide_true by set_solver. done.
  - rewrite IH. unfold dict_keys.
    destruct (bool_decide_reflect (k ∈ map fst d)) as [Hin|Hin];
      [rewrite bool_decide_true by set_solver|rewrite bool_decide_false by set_solver]; done.
Qed.

Lemma dict_setitem_NoDup k v d : NoDup (dict_keys d) -> NoDup (dict_keys (dict_setitem k v d)).
Proof.
  rewrite dict_keys_setitem. case_bool_decide; [done|]. intros Hnd.
  apply NoDup_app. split_and!; [done| |apply NoDup_singleton]. set_solver.
Qed.

(** Two dicts with the same keys in the same order and the same values
    are the same dict. *)
Lemma dict_ext d1 d2 :
  NoDup (dict_keys d1) -> dict_keys d1 = dict_keys d2 ->
  (forall k, dict_lookup k d1 = dict_lookup k d2) -> d1 = d2.
Proof.
  revert d2. induction d1 as [|[k v] d1 IH]; intros [|[k2 v2] d2]; simpl; try done.
  intros Hnd [= <- Hk] Hl. apply NoDup_cons in Hnd as [Hnin Hnd].
  pose proof (Hl k) as Hv. rewrite !String.eqb_refl in Hv. injection Hv as <-.
  f_equal. apply IH; [done|done|]. intros k'.
  destruct (String.eqb_spec k' k) as [->|Hne].
  - rewrite !dict_lookup_None; [done|congruence|done].
  - specialize (Hl k'). by rewrite <- String.eqb_neq in Hne; rewrite Hne in Hl.
Qed.
End Dict.

(** The keys a sequence of assignments leaves: each new key appended. *)
Definition keys_after (ks : list string) (ns : list string) : list string :=
  fold_left (fun ks n => if bool_decide (n ∈ ks) then ks else ks ++ [n]) ns ks.

Lemma keys_after_NoDup ks ns : NoDup ks -> NoDup (keys_after ks ns).
Proof.
  revert ks. induction ns as [|n ns IH]; intros ks Hks; simpl; [done|]. apply IH.
  case_bool_decide; [done|]. apply NoDup_app. split_and!; [done| |apply NoDup_singleton]. set_solver.
Qed.

Lemma keys_after_length ks ns : length ks <= length (keys_after ks ns).
Proof.
  revert ks. induction ns as [|n ns IH]; intros ks; simpl; [lia|].
  etrans; [|apply IH]. case_bool_decide; [lia|]. rewrite length_app. simpl. lia.
Qed.
