(* ===== verification/PyObj.v ===== *)
(** * The suds response tree and Python's probes on it

    The suds SOAP client returns a tree of [suds.sudsobject.Object]
    nodes (attribute name to value, in declaration order), text leaves
    of type [suds.sax.text.Text] (a str subclass), Python lists for
    repeated elements ([Message[]]), and [None].  [result_classes.py]
    inspects it only through [hasattr], attribute access, [len],
    indexing with [0], iteration, the [in] operator, [==] against a str
    and [del].  Each is modelled here on the four kinds of node.

    The names the sources probe ([Export], [Report], [Documents],
    [_Error], [Import], [Message], [Elements], [_Result], [_Time],
    [value], [_Action], [_ID], [_ForeignKey]) are not attributes of
    [str], [list] or [None], so [hasattr] is false on every node that is
    not an [Object]. *)

From S2P Require Import Prelude PyStr.

#[local] Set Warnings "-register-all".
Inductive sobj :=
  | SNone
  | SText (s : string)
  | SObj (attrs : list (string * sobj))
  | SList (items : list sobj).

(** ** Attribute access *)

Fixpoint attr_lookup (k : string) (fs : list (string * sobj)) : option sobj :=
  match fs with
  | [] => None
  | (k', v) :: fs' => if String.eqb k k' then Some v else attr_lookup k fs'
  end.

(** [hasattr(o, k)]. *)
Definition hasattr (o : sobj) (k : string) : bool :=
  match o with
  | SObj fs => bool_decide (is_Some (attr_lookup k fs))
  | _ => false
  end.

(** [o.k]: [AttributeError] when absent. *)
Definition getattr (o : sobj) (k : string) : res sobj :=
  match o with
  | SObj fs => of_option (AttributeError k) (attr_lookup k fs)
  | _ => raise (AttributeError k)
  end.

Fixpoint attr_remove (k : string) (fs : list (string * sobj)) : list (string * sobj) :=
  match fs with
  | [] => []
  | (k', v) :: fs' => if String.eqb k k' then fs' else (k', v) :: attr_remove k fs'
  end.

Fixpoint attr_update (k : string) (f : sobj -> sobj) (fs : list (string * sobj))
    : list (string * sobj) :=
  match fs with
  | [] => []
  | (k', v) :: fs' =>
      if String.eqb k k' then (k', f v) :: fs' else (k', v) :: attr_update k f fs'
  end.

(** [del o.k] ([Object.__delattr__] drops the name from [__dict__] and
    from [__keylist__]). *)
Definition delattr (o : sobj) (k : string) : res sobj :=
  match o with
  | SObj fs => if hasattr o k then Ok (SObj (attr_remove k fs))
               else raise (AttributeError k)
  | _ => raise (AttributeError k)
  end.

(** In-place change of the object held in attribute [k] of [o]: every
    reference to [o] sees the change, which is what [del a.b.c] does to
    the tree reachable from [a]. *)
Definition update_attr (o : sobj) (k : string) (f : sobj -> sobj) : sobj :=
  match o with
  | SObj fs => SObj (attr_update k f fs)
  | _ => o
  end.

(** ** Containers *)

(** [iter(o)]: a list yields its items, a str its one-character strs,
    an [Object] its [(name, value)] pairs (modelled as two-item lists);
    [None] is not iterable. *)
Definition py_iter (o : sobj) : res (list sobj) :=
  match o with
  | SList l => Ok l
  | SText s => Ok (map (fun c => SText (String c EmptyString)) (list_ascii_of_string s))
  | SObj fs => Ok (map (fun '(k, v) => SList [SText k; v]) fs)
  | SNone => raise TypeError
  end.

(** [len(o)] ([Object.__len__] is the number of attributes). *)
Definition py_len (o : sobj) : res nat :=
  match o with
  | SList l => Ok (length l)
  | SText s => Ok (String.length s)
  | SObj fs => Ok (length fs)
  | SNone => raise TypeError
  end.

(** [o[0]] ([Object.__getitem__] with an int takes the attribute of
    that position). *)
Definition py_index0 (o : sobj) : res sobj :=
  match o with
  | SList (x :: _) => Ok x
  | SText (String c _) => Ok (SText (String c EmptyString))
  | SObj ((_, v) :: _) => Ok v
  | SList [] | SText EmptyString | SObj [] => raise IndexError
  | SNone => raise TypeError
  end.

(** [o == s] for a str [s]: only a text node with the same characters
    is equal to it. *)
Definition obj_eq_str (s : string) (o : sobj) : bool :=
  match o with
  | SText t => String.eqb t s
  | _ => false
  end.

(** [needle in o] for a str [needle] ([Object.__contains__] tests the
    attribute names). *)
Definition py_contains_str (needle : string) (o : sobj) : res bool :=
  match o with
  | SText s => Ok (str_contains needle s)
  | SList l => Ok (existsb (obj_eq_str needle) l)
  | SObj fs => Ok (existsb (fun '(k, _) => String.eqb k needle) fs)
  | SNone => raise TypeError
  end.

(** [int(o[n:])]: only a str slice converts; a list slice, or slicing an
    [Object] (whose [__getitem__] takes the slice as an attribute name),
    raise [TypeError]. *)
Definition slice_int (n : nat) (o : sobj) : res Z :=
  match o with
  | SText s => py_int (str_drop n s)
  | _ => raise TypeError
  end.

(** ** str() and repr() of a node, kept symbolic *)

(** The error messages of the results are [str(x)] or [repr(x)] of
    parts of the tree; the text of a suds dump is not modelled, the
    node it prints is kept instead. *)
Inductive pystr :=
  | PStr (s : string)
  | PStrOf (o : sobj)
  | PRepr (o : sobj).

(** [str(o)]: a text node is its own str. *)
Definition py_str (o : sobj) : pystr :=
  match o with
  | SText s => PStr s
  | _ => PStrOf o
  end.

(** ** Lemmas *)

Lemma hasattr_getattr o k :
  hasattr o k = true -> exists v, getattr o k = Ok v.
Proof.
  destruct o as [| |fs|]; simpl; try discriminate.
  rewrite bool_decide_eq_true. intros [v Hv]. rewrite Hv. eauto.
Qed.

Lemma getattr_hasattr o k v :
  getattr o k = Ok v -> hasattr o k = true.
Proof.
  destruct o as [| |fs|]; simpl; try discriminate.
  destruct (attr_lookup k fs) eqn:E; simpl; [|discriminate].
  intros _. by rewrite ?bool_decide_eq_true.
Qed.

Lemma getattr_not_hasattr o k :
  hasattr o k = false -> getattr o k = raise (AttributeError k).
Proof.
  destruct o as [| |fs|]; simpl; try done.
  rewrite bool_decide_eq_false. destruct (attr_lookup k fs); [|done].
  intros []; eauto.
Qed.

Lemma attr_lookup_cons_eq k v fs : attr_lookup k ((k, v) :: fs) = Some v.
Proof. simpl. by rewrite String.eqb_refl. Qed.

Lemma attr_lookup_cons_ne k k' v fs :
  k <> k' -> attr_lookup k ((k', v) :: fs) = attr_lookup k fs.
Proof. intros Hne. simpl. by rewrite (proj2 (String.eqb_neq k k') Hne). Qed.

Lemma attr_lookup_elem k fs v : attr_lookup k fs = Some v -> k ∈ map fst fs.
Proof.
  induction fs as [|[k' v'] fs IH]; simpl; [done|].
  destruct (String.eqb_spec k k') as [->|_]; intros H; [left|right; auto].
Qed.

Lemma attr_lookup_remove k fs :
  NoDup (map fst fs) -> attr_lookup k (attr_remove k fs) = None.
Proof.
  induction fs as [|[k' v] fs IH]; simpl; [done|]. intros [Hnin Hnd]%NoDup_cons.
  destruct (String.eqb_spec k k') as [->|Hne]; simpl.
  - destruct (attr_lookup k' fs) eqn:E; [|done].
    by apply attr_lookup_elem in E.
  - rewrite (proj2 (String.eqb_neq k k') Hne). auto.
Qed.

#[export] Hint Rewrite attr_lookup_cons_eq : pyrel.

Lemma attr_lookup_update k f fs k' :
  attr_lookup k' (attr_update k f fs) =
  if String.eqb k k' then option_map f (attr_lookup k' fs) else attr_lookup k' fs.
Proof.
  induction fs as [|[k0 v] fs IH]; simpl; [by destruct (String.eqb k k')|].
  destruct (String.eqb_spec k k0) as [->|Hk]; simpl;
    destruct (String.eqb_spec k' k0) as [->|Hk']; try done.
  - by rewrite String.eqb_refl.
  - by destruct (String.eqb_spec k0 k').
  - by rewrite (proj2 (String.eqb_neq k k0) Hk).
Qed.

(** Updating an attribute in place keeps the set of attribute names. *)
Lemma hasattr_update_attr o k f k' : hasattr (update_attr o k f) k' = hasattr o k'.
Proof.
  destruct o as [| |fs|]; simpl; try done. rewrite attr_lookup_update.
  destruct (String.eqb k k'); [|done]. by destruct (attr_lookup k' fs).
Qed.
