(* ===== verification/PyTime.v ===== *)
(** * datetime, timedelta and time values

    [ImportResult] stores [datetime.timedelta(milliseconds=n)] (line 221
    of [result_classes.py]); [ClientCredential] computes
    [requested_on + timedelta(seconds=expires_in)] and
    [(expires_on - datetime.now()).seconds] (lines 77 and 133 of
    [client.py]).  A timedelta is an exact number of microseconds; a
    naive datetime is the number of microseconds since
    0001-01-01 00:00:00.  Python normalises a timedelta to
    [(days, seconds, microseconds)] with [0 <= seconds < 86400] and
    [0 <= microseconds < 10^6] by floor division, and refuses
    [|days| > 999999999] and datetimes outside years 1 to 9999 with
    [OverflowError]. *)

From S2P Require Import Prelude.

#[local] Open Scope Z_scope.

Definition us_per_second : Z := 1000000.
Definition us_per_day : Z := 86400 * us_per_second.
Definition max_delta_days : Z := 999999999.

(** A timedelta, in microseconds. *)
Abbreviation timedelta := Z (only parsing).

Definition td_days (d : timedelta) : Z := d / us_per_day.

(** [timedelta.seconds]: the seconds field of the normalised triple, not
    the total number of seconds. *)
Definition td_seconds (d : timedelta) : Z := (d mod us_per_day) / us_per_second.

Definition td_microseconds (d : timedelta) : Z := d mod us_per_second.

(** The range check of [timedelta.__new__]. *)
Definition mk_timedelta (us : Z) : res timedelta :=
  if Z.abs (td_days us) <=? max_delta_days then Ok us else raise OverflowError.

(** [timedelta(milliseconds=n)] for an int [n]. *)
Definition timedelta_of_ms (n : Z) : res timedelta := mk_timedelta (n * 1000).

(** [timedelta(seconds=n)] for an int [n]. *)
Definition timedelta_of_seconds (n : Z) : res timedelta := mk_timedelta (n * us_per_second).

(** A naive datetime, in microseconds since 0001-01-01 00:00:00;
    [datetime.max] is 9999-12-31 23:59:59.999999, day 3652058 after
    [datetime.min]. *)
Abbreviation datetime := Z (only parsing).

Definition datetime_max : datetime := 3652059 * us_per_day - 1.

(** [dt + td]: [OverflowError] outside [datetime.min .. datetime.max]. *)
Definition dt_add (t : datetime) (d : timedelta) : res datetime :=
  if (0 <=? t + d) && (t + d <=? datetime_max) then Ok (t + d) else raise OverflowError.

(** [dt1 - dt2] is a timedelta (always in range for two datetimes). *)
Definition dt_sub (t1 t2 : datetime) : timedelta := t1 - t2.

(** A [datetime.time] value. *)
Record time_of_day := {
  tod_hour : Z; tod_minute : Z; tod_second : Z; tod_microsecond : Z
}.

(** ** Normalisation *)

Lemma td_normalise d :
  d = td_days d * us_per_day + td_seconds d * us_per_second + td_microseconds d.
Proof.
  unfold td_days, td_seconds, td_microseconds, us_per_day, us_per_second.
  pose proof (Z.div_mod d (86400 * 1000000)) as H1.
  pose proof (Z.div_mod (d mod (86400 * 1000000)) 1000000) as H2.
  rewrite (Z.mod_mod_divide d _ 1000000) in H2 by (exists 86400; lia).
  lia.
Qed.

Lemma td_seconds_range d : 0 <= td_seconds d < 86400.
Proof.
  unfold td_seconds, us_per_day, us_per_second.
  pose proof (Z.mod_pos_bound d (86400 * 1000000)). split.
  - apply Z.div_pos; lia.
  - apply Z.div_lt_upper_bound; lia.
Qed.

(** For a non-negative delta of less than a day, [.seconds] is the
    whole number of seconds. *)
Lemma td_seconds_small d :
  0 <= d < us_per_day -> td_seconds d = d / us_per_second.
Proof. intros H. unfold td_seconds. by rewrite Z.mod_small. Qed.

(** [.seconds] is periodic in whole days. *)
Lemma td_seconds_shift k r : td_seconds (k * us_per_day + r) = td_seconds r.
Proof. unfold td_seconds. f_equal. rewrite Z.add_comm. apply Z_mod_plus_full. Qed.

(** Below a day, [.seconds <= 300] exactly when less than 301 whole
    seconds are left. *)
Lemma td_seconds_le_300 r :
  0 <= r < us_per_day -> (td_seconds r <=? 300) = (r <? 301 * us_per_second).
Proof.
  intros Hr. rewrite td_seconds_small by done. unfold us_per_day, us_per_second in *.
  pose proof (Z.div_mod r 1000000) as Hd. pose proof (Z.mod_pos_bound r 1000000) as Hm.
  destruct (Z.leb_spec (r / 1000000) 300), (Z.ltb_spec r (301 * 1000000)); lia.
Qed.

Lemma dt_add_Ok t d t' :
  dt_add t d = Ok t' -> t' = t + d /\ 0 <= t' <= datetime_max.
Proof.
  unfold dt_add. destruct (Z.leb_spec 0 (t + d)), (Z.leb_spec (t + d) datetime_max);
    simpl; intros Hr; try discriminate Hr. injection Hr as <-. lia.
Qed.

Lemma dt_add_in_range t d :
  0 <= t + d <= datetime_max -> dt_add t d = Ok (t + d).
Proof.
  intros H. unfold dt_add. by rewrite (proj2 (Z.leb_le _ _)), (proj2 (Z.leb_le _ _)) by lia.
Qed.

(** A delta between two datetimes is within the range of a timedelta. *)
Lemma timedelta_of_seconds_small n :
  Z.abs (n * us_per_second) <= datetime_max -> timedelta_of_seconds n = Ok (n * us_per_second).
Proof.
  intros H. unfold timedelta_of_seconds, mk_timedelta, td_days.
  rewrite (proj2 (Z.leb_le _ _)); [done|].
  unfold datetime_max, us_per_day, us_per_second, max_delta_days in *.
  pose proof (Z.div_mod (n * 1000000) (86400 * 1000000)) as Hd.
  pose proof (Z.mod_pos_bound (n * 1000000) (86400 * 1000000)) as Hm. lia.
Qed.

