(* ===== verification/PyFormat.v ===== *)
(** * The str formatting the renderings use

    The [__str__] methods of [result_classes.py] build their text with
    f-strings.  The format specifications they use are modelled here:
    - [str(n)] and [f"{n}"] of an int: stdpp's [pretty] on [Z] (a [-]
      sign, then the decimal digits without leading zeros);
    - [f"{n:05}"] and ["%02d" % n] of an int: the sign, then the digits
      padded with zeros to the width ([int_zpad]);
    - [f"{n:>12}"] of an int: padded on the left with spaces ([rjust]);
    - [f"{s:45}"] and [f"{s:<8}"] of a str: padded on the right with
      spaces ([ljust]); a longer str is not cut;
    - [str(t)] of a [datetime.time] without tzinfo ([time_str]) and
      [str(d)] of a [datetime.timedelta] ([timedelta_str]), from
      CPython's [datetime.py].

    The lemmas show that the digits [pretty] prints read back through
    [int()] (the [PyStr] parser) as the same number, with and without
    zero padding. *)

From S2P Require Import Prelude PyStr PyTime.
From stdpp Require Export pretty.

#[local] Open Scope Z_scope.

Fixpoint spaces (n : nat) : string :=
  match n with O => EmptyString | S n' => String " " (spaces n') end.

Fixpoint zeros (n : nat) : string :=
  match n with O => EmptyString | S n' => String "0" (zeros n') end.

(** [f"{s:<w}"] and [f"{s:w}"] of a str. *)
Definition ljust (w : nat) (s : string) : string := s +:+ spaces (w - String.length s).

(** [f"{s:>w}"]. *)
Definition rjust (w : nat) (s : string) : string := spaces (w - String.length s) +:+ s.

(** [str(n)] of an int. *)
Definition int_str (n : Z) : string := pretty n.

(** [f"{n:0w}"] and ["%0wd" % n]: the sign, then zeros up to the
    width. *)
Definition int_zpad (w : nat) (n : Z) : string :=
  if n <? 0 then
    let d := pretty (Z.to_N (- n)) in "-" +:+ zeros (w - 1 - String.length d) +:+ d
  else
    let d := pretty (Z.to_N n) in zeros (w - String.length d) +:+ d.

(** [time.__str__] is [isoformat()]: [HH:MM:SS], with [.ffffff] when
    the microseconds are not zero. *)
Definition time_str (t : time_of_day) : string :=
  int_zpad 2 (tod_hour t) +:+ ":" +:+ int_zpad 2 (tod_minute t) +:+ ":" +:+
  int_zpad 2 (tod_second t) +:+
  (if tod_microsecond t =? 0 then "" else "." +:+ int_zpad 6 (tod_microsecond t)).

(** [timedelta.__str__]: [H:MM:SS] from the seconds field, preceded by
    [N day, ] or [N days, ] when the days field is not zero, followed by
    [.ffffff] when the microseconds field is not zero. *)
Definition timedelta_str (d : timedelta) : string :=
  let secs := td_seconds d in
  let hh := secs / 3600 in
  let mm := (secs / 60) mod 60 in
  let ss := secs mod 60 in
  let days := td_days d in
  (if days =? 0 then ""
   else int_str days +:+ " day" +:+ (if Z.abs days =? 1 then "" else "s") +:+ ", ") +:+
  int_str hh +:+ ":" +:+ int_zpad 2 mm +:+ ":" +:+ int_zpad 2 ss +:+
  (if td_microseconds d =? 0 then "" else "." +:+ int_zpad 6 (td_microseconds d)).

(** ** Strings *)

Lemma spaces_length n : String.length (spaces n) = n.
Proof. induction n; simpl; auto. Qed.

Lemma zeros_length n : String.length (zeros n) = n.
Proof. induction n; simpl; auto. Qed.

#[export] Hint Rewrite str_length_app spaces_length zeros_length : pyrel.

Lemma ljust_length w s : String.length (ljust w s) = Nat.max w (String.length s).
Proof. unfold ljust. autorewrite with pyrel. lia. Qed.

Lemma rjust_length w s : String.length (rjust w s) = Nat.max w (String.length s).
Proof. unfold rjust. autorewrite with pyrel. lia. Qed.

Lemma all_digits_app s t : all_digits (s +:+ t) = all_digits s && all_digits t.
Proof.
  induction s as [|c s IH]; [done|]. unfold "+:+" in *. simpl. by rewrite IH, andb_assoc.
Qed.

Lemma dec_acc_app s t a : dec_acc (s +:+ t) a = dec_acc t (dec_acc s a).
Proof. revert a. induction s as [|c s IH]; intros a; [done|]. apply IH. Qed.

Lemma all_digits_zeros n : all_digits (zeros n) = true.
Proof. induction n; simpl; auto. Qed.

Lemma dec_acc_zeros n a : dec_acc (zeros n) a = a * 10 ^ Z.of_nat n.
Proof.
  revert a. induction n as [|n IH]; intros a; simpl; [lia|].
  rewrite IH. change (digit_value "0") with 0. rewrite Nat2Z.inj_succ, Z.pow_succ_r by lia. lia.
Qed.

(** ** The digits of [pretty] *)

Lemma pretty_N_go_app x s : pretty_N_go x s = pretty_N_go x "" +:+ s.
Proof.
  revert s. induction (N.lt_wf_0 x) as [x _ IH]; intros s.
  destruct (decide (x = 0)%N) as [->|Hx]; [done|].
  rewrite !(pretty_N_go_step x) by lia.
  assert (Hlt : (x `div` 10 < x)%N) by (apply N.div_lt; lia).
  rewrite (IH _ Hlt (String _ s)), (IH _ Hlt (String _ "")).
  by rewrite <- str_app_assoc.
Qed.

Lemma pretty_N_char_digit x : (x < 10)%N ->
  is_digit (pretty_N_char x) = true /\ digit_value (pretty_N_char x) = Z.of_N x.
Proof.
  intros Hx. assert (x = 0 \/ x = 1 \/ x = 2 \/ x = 3 \/ x = 4 \/ x = 5 \/ x = 6 \/ x = 7 \/
    x = 8 \/ x = 9)%N as Hc by lia.
  repeat destruct Hc as [->|Hc]; [..|subst x]; split; reflexivity.
Qed.

(** The digits of [pretty_N_go x ""]: decimal digits, of value [x],
    at most [k] of them when [x < 10^k]. *)
Lemma pretty_N_go_digits x :
  all_digits (pretty_N_go x "") = true /\ dec_acc (pretty_N_go x "") 0 = Z.of_N x /\
  forall k, (x < 10 ^ k)%N -> (String.length (pretty_N_go x "") <= N.to_nat k)%nat.
Proof.
  induction (N.lt_wf_0 x) as [x _ IH].
  destruct (decide (x = 0)%N) as [->|Hx]; [split_and!; simpl; lia|].
  rewrite pretty_N_go_step, pretty_N_go_app by lia.
  assert (Hlt : (x `div` 10 < x)%N) by (apply N.div_lt; lia).
  destruct (IH _ Hlt) as (Hd & Hv & Hl).
  destruct (pretty_N_char_digit (x `mod` 10)) as [Hc Hcv]; [apply N.mod_lt; lia|].
  split_and!.
  - by rewrite all_digits_app, Hd; simpl; rewrite Hc.
  - rewrite dec_acc_app, Hv. simpl. rewrite Hcv.
    pose proof (N.div_mod x 10 ltac:(lia)). lia.
  - intros k Hk. rewrite str_length_app. simpl.
    destruct (decide (k = 0)%N) as [->|Hk0]; [simpl in Hk; lia|].
    assert (x `div` 10 < 10 ^ (k - 1))%N.
    { apply N.Div0.div_lt_upper_bound. rewrite <- N.pow_succ_r'.
      by replace (N.succ (k - 1)) with k by lia. }
    specialize (Hl (k - 1)%N ltac:(done)). lia.
Qed.

(** [pretty] of a natural number: a non-empty digit string of its
    value, of at most [k] digits below [10^k]. *)
Lemma pretty_N_digits x :
  all_digits (pretty x) = true /\ digits_value (pretty x) = Z.of_N x /\
  (0 < String.length (pretty x))%nat /\
  forall k, (0 < k)%N -> (x < 10 ^ k)%N -> (String.length (pretty x) <= N.to_nat k)%nat.
Proof.
  unfold pretty, pretty_N, digits_value. case_decide as Hx.
  - subst x. split_and!; simpl; try done; lia.
  - destruct (pretty_N_go_digits x) as (Hd & Hv & Hl).
    split_and!; [done|done| |intros k _ Hk; by apply Hl].
    rewrite pretty_N_go_step by lia. rewrite pretty_N_go_app, str_length_app. simpl. lia.
Qed.

(** [int()] of a minus sign and a digit string. *)
Lemma py_int_neg_digits s :
  all_digits s = true -> (0 < String.length s <= int_max_str_digits)%nat ->
  py_int ("-" +:+ s) = Ok (- digits_value s).
Proof.
  intros Hd Hl. unfold py_int. change ("-" +:+ s) with (String "-" s). cbn [skip_space]. change (is_int_space "-") with false.
  cbv iota. change (Ascii.eqb "-" "+") with false. change (Ascii.eqb "-" "-") with true.
  cbv iota. destruct s as [|c s']; [simpl in Hl; lia|].
  pose proof Hd as Hd'. simpl in Hd'. apply andb_prop in Hd' as [Hc _].
  destruct (is_digit_not_special c Hc) as (_ & _ & _ & ->). cbn [res_bind].
  rewrite scan_digits_all by done. cbn [skip_space].
  destruct (Nat.ltb_spec int_max_str_digits (0 + String.length (String c s'))); [lia|].
  destruct (Nat.eqb_spec (0 + String.length (String c s')) 0); [lia|]. reflexivity.
Qed.

(** The digit string of [int_zpad w n] after its sign. *)
Lemma zpad_digits k x :
  let s := zeros k +:+ pretty x in
  all_digits s = true /\ digits_value s = Z.of_N x /\
  String.length s = (k + String.length (pretty x))%nat.
Proof.
  destruct (pretty_N_digits x) as (Hd & Hv & _ & _). unfold digits_value in *.
  split_and!.
  - by rewrite all_digits_app, all_digits_zeros, Hd.
  - by rewrite dec_acc_app, dec_acc_zeros, Z.mul_0_l.
  - by rewrite str_length_app, zeros_length.
Qed.

Lemma pretty_N_length_bound x :
  (Z.of_N x < 10 ^ Z.of_nat int_max_str_digits) ->
  (0 < String.length (pretty x) <= int_max_str_digits)%nat.
Proof.
  intros Hx. destruct (pretty_N_digits x) as (_ & _ & Hpos & Hk).
  split; [done|]. specialize (Hk (N.of_nat int_max_str_digits) ltac:(done)).
  rewrite Nat2N.id in Hk. apply Hk. apply N2Z.inj_lt. by rewrite N2Z.inj_pow, nat_N_Z.
Qed.

(** [int(f"{n:0w}")] is [n], for a width and a number of at most 4300
    digits. *)
Lemma py_int_zpad w n :
  (w <= int_max_str_digits)%nat -> Z.abs n < 10 ^ Z.of_nat int_max_str_digits ->
  py_int (int_zpad w n) = Ok n.
Proof.
  intros Hw Hn. unfold int_zpad. destruct (Z.ltb_spec n 0) as [Hneg|Hpos].
  - destruct (zpad_digits (w - 1 - String.length (pretty (Z.to_N (- n)))) (Z.to_N (- n)))
      as (Hd & Hv & Hl).
    pose proof (pretty_N_length_bound (Z.to_N (- n)) ltac:(lia)).
    rewrite py_int_neg_digits, Hv by (try done; rewrite Hl; lia). f_equal. lia.
  - destruct (zpad_digits (w - String.length (pretty (Z.to_N n))) (Z.to_N n)) as (Hd & Hv & Hl).
    pose proof (pretty_N_length_bound (Z.to_N n) ltac:(lia)).
    rewrite py_int_digits, Hv by (try done; rewrite Hl; lia). f_equal. lia.
Qed.

(** The width of [f"{n:0w}"]: at least [w] characters. *)
Lemma int_zpad_length w n : (w <= String.length (int_zpad w n))%nat.
Proof.
  unfold int_zpad. case_match; autorewrite with pyrel; simpl; lia.
Qed.
