(* ===== verification/BaseResult.v ===== *)
(** * BaseResult: the error fields shared by both result classes

    [BaseResult] (lines 20-42 of [result_classes.py]) declares
    [has_error] and [error_msg] and the method
    [handle_suds_response_errors].  [BaseResult] is not itself a
    dataclass, so the two declarations are not dataclass fields of its
    subclasses: they stay class attributes holding [dataclasses.Field]
    objects, and an instance that never assigns [has_error] reads that
    [Field] object, which is truthy.  The fields are therefore modelled
    as a [slot]: [Unset] (the class-level [Field]) or a value.

    The class [ResultFields] is the interface the two result records
    implement: read and write access to the two fields, with the laws of
    independent record fields.  [handle_suds_response_errors] and
    [__bool__] are defined once against it. *)

From S2P Require Import Prelude PyStr PyObj.

(** An instance attribute of the result: not assigned yet, or set. *)
Inductive slot (A : Type) :=
  | Unset
  | SetTo (a : A).
Arguments Unset {A}.
Arguments SetTo {A} a.

(** Truth value of [has_error]: the unassigned attribute is a
    [dataclasses.Field], which is truthy. *)
Definition slot_truthy (s : slot bool) : bool :=
  match s with
  | Unset => true
  | SetTo b => b
  end.

Class ResultFields (R : Type) := {
  has_error : R -> slot bool;
  error_msg : R -> slot pystr;
  set_has_error : bool -> R -> R;
  set_error_msg : pystr -> R -> R;
  has_error_set b r : has_error (set_has_error b r) = SetTo b;
  error_msg_set m r : error_msg (set_error_msg m r) = SetTo m;
  has_error_set_msg m r : has_error (set_error_msg m r) = has_error r;
  error_msg_set_has b r : error_msg (set_has_error b r) = error_msg r
}.

#[export] Hint Rewrite @has_error_set @error_msg_set @has_error_set_msg
  @error_msg_set_has : pyrel.

Section BaseResult.
Context `{ResultFields R}.

(** [BaseResult.handle_suds_response_errors] (lines 28-42).  Line 41
    calls [repr()] with no argument, which raises [TypeError]. *)
Definition handle_suds_response_errors (r : R) (resp : sobj) : res R :=
  let r := match resp with
           | SNone => set_error_msg (PStr "") (set_has_error true r)
           | _ => r
           end in
  if hasattr resp "Export" then
    let r := set_has_error true r in
    let! exp := getattr resp "Export" in
    if hasattr exp "_Error" then
      let! e := getattr exp "_Error" in
      Ok (set_error_msg (py_str e) r)
    else raise TypeError
  else Ok r.

(** [__bool__] of both result classes: [not self.has_error]. *)
Definition result_bool (r : R) : bool := negb (slot_truthy (has_error r)).

Lemma handle_none r :
  handle_suds_response_errors r SNone =
  Ok (set_error_msg (PStr "") (set_has_error true r)).
Proof. reflexivity. Qed.

Lemma handle_no_export r resp :
  resp <> SNone -> hasattr resp "Export" = false ->
  handle_suds_response_errors r resp = Ok r.
Proof.
  intros Hn He. unfold handle_suds_response_errors. rewrite He.
  by destruct resp.
Qed.

Lemma handle_export_error r fs exp e :
  attr_lookup "Export" fs = Some exp -> getattr exp "_Error" = Ok e ->
  handle_suds_response_errors r (SObj fs) =
  Ok (set_error_msg (py_str e) (set_has_error true r)).
Proof.
  intros Hx He. unfold handle_suds_response_errors. simpl.
  rewrite Hx. simpl. by rewrite (getattr_hasattr _ _ _ He), He.
Qed.

Lemma handle_export_no_error r fs exp :
  attr_lookup "Export" fs = Some exp -> hasattr exp "_Error" = false ->
  handle_suds_response_errors r (SObj fs) = raise TypeError.
Proof.
  intros Hx He. unfold handle_suds_response_errors. simpl.
  rewrite Hx. simpl. by rewrite He.
Qed.

Lemma handle_export_sets r resp r' :
  hasattr resp "Export" = true ->
  handle_suds_response_errors r resp = Ok r' -> has_error r' = SetTo true.
Proof.
  unfold handle_suds_response_errors. intros ->.
  destruct (getattr resp "Export") as [exp|]; simpl; [|discriminate].
  destruct (hasattr exp "_Error"); simpl; [|discriminate].
  destruct (getattr exp "_Error"); simpl; [|discriminate].
  intros [= <-]. by rewrite has_error_set_msg, has_error_set.
Qed.

Lemma result_bool_set r b : result_bool (set_has_error b r) = negb b.
Proof. unfold result_bool. by rewrite has_error_set. Qed.

Lemma result_bool_unset r : has_error r = Unset -> result_bool r = false.
Proof. unfold result_bool. by intros ->. Qed.
End BaseResult.
