(* ===== verification/ImportResult.v ===== *)
(** * ImportResult: parsing the response of an import

    Models [ImportMessage], [ImportElement] and [ImportResult] of
    [src/pyrelatics2/result_classes.py] (lines 132-323):
    - [from_suds] runs [handle_suds_response_errors], then walks
      [Import.Message] with the sticky row counter ([message_step] is
      the body of the [for] loop, lines 213-225), then
      [Import.Elements[0]] ([element_step], lines 229-232), and finally
      the unrecognised-response check (lines 234-237);
    - [filter_messages] / [filter_elements] and the named properties.

    The conversion [datetime.time.fromisoformat] of [ImportMessage]'s
    [__post_init__] is a library parser whose result is only stored; it
    is the section variable [fromisoformat].

    The theorems show: the result is falsy exactly when the response has
    no [Import] node; the error messages of each error shape; that for a
    well-formed log the loop computes the pure fold [log_fold] over
    (row, total rows, elapsed time), whose rows are the last
    "Processing row" value seen up to and including each message; that
    only the first element group is read; the bounds behaviour of the
    integer conversions; and the filter laws. *)

From S2P Require Import Prelude PyStr PyObj PyTime BaseResult.

Module ImportResult.

(** The [typing.Literal] aliases of lines 14-15. *)
Inductive ImportMessageStatus := Progress | Comment | Success | Warning | Error.
Inductive ImportElementActions := Add | Update.

Definition status_name (s : ImportMessageStatus) : string :=
  match s with
  | Progress => "Progress" | Comment => "Comment" | Success => "Success"
  | Warning => "Warning" | Error => "Error"
  end.

Definition action_name (a : ImportElementActions) : string :=
  match a with Add => "Add" | Update => "Update" end.

(** [ImportMessage] (lines 132-159): the literal types are annotations
    only, so [status] and [message] hold whatever node the response
    carried. *)
Record ImportMessage := mkImportMessage {
  time : time_of_day;
  status : sobj;
  message : sobj;
  row : Z
}.

(** [ImportElement] (lines 162-173). *)
Record ImportElement := mkImportElement {
  action : sobj;
  id : sobj;
  foreign_key : sobj
}.

(** [ImportResult] (lines 177-188). *)
Record ImportResult := mkImportResult {
  ir_has_error : slot bool;
  ir_error_msg : slot pystr;
  messages : list ImportMessage;
  elements : list ImportElement;
  total_rows : option Z;
  elapsed_time : option timedelta
}.

(** [ImportResult()]: the list fields are fresh empty lists, the
    optional ones [None], the [BaseResult] attributes unassigned. *)
Definition empty_result : ImportResult := mkImportResult Unset Unset [] [] None None.

Definition with_has_error (b : bool) (r : ImportResult) : ImportResult :=
  mkImportResult (SetTo b) (ir_error_msg r) (messages r) (elements r) (total_rows r) (elapsed_time r).
Definition with_error_msg (m : pystr) (r : ImportResult) : ImportResult :=
  mkImportResult (ir_has_error r) (SetTo m) (messages r) (elements r) (total_rows r) (elapsed_time r).
Definition with_total_rows (n : Z) (r : ImportResult) : ImportResult :=
  mkImportResult (ir_has_error r) (ir_error_msg r) (messages r) (elements r) (Some n) (elapsed_time r).
Definition with_elapsed_time (d : timedelta) (r : ImportResult) : ImportResult :=
  mkImportResult (ir_has_error r) (ir_error_msg r) (messages r) (elements r) (total_rows r) (Some d).
Definition push_message (m : ImportMessage) (r : ImportResult) : ImportResult :=
  mkImportResult (ir_has_error r) (ir_error_msg r) (messages r ++ [m]) (elements r) (total_rows r) (elapsed_time r).
Definition push_element (e : ImportElement) (r : ImportResult) : ImportResult :=
  mkImportResult (ir_has_error r) (ir_error_msg r) (messages r) (elements r ++ [e]) (total_rows r) (elapsed_time r).

#[export] Instance ImportResult_fields : ResultFields ImportResult.
Proof.
  refine {| has_error := ir_has_error; error_msg := ir_error_msg;
            set_has_error := with_has_error; set_error_msg := with_error_msg |};
    reflexivity.
Defined.

Section Parse.
Variable fromisoformat : string -> option time_of_day.

(** [ImportMessage(time=t, status=s, message=v, row=n)] with its
    [__post_init__] converting the time (lines 151-155). *)
Definition ImportMessage_new (t s v : sobj) (n : Z) : res ImportMessage :=
  match t with
  | SText ts =>
      let! tm := of_option (ValueError "Invalid isoformat string") (fromisoformat ts) in
      Ok (mkImportMessage tm s v n)
  | _ => raise TypeError
  end.

(** One iteration of the message loop (lines 213-225); the state is
    the local [row] and the result object. *)
Definition message_step (st : Z * ImportResult) (msg : sobj) : res (Z * ImportResult) :=
  let '(row, r) := st in
  let! status := getattr msg "_Result" in
  let! '(row, r) :=
    if obj_eq_str "Progress" status then
      let! v := getattr msg "value" in
      let! c1 := py_contains_str "Processing row :" v in
      if c1 then let! n := slice_int 17 v in Ok (n, r) else
      let! c2 := py_contains_str "Total rows imported:" v in
      if c2 then let! n := slice_int 21 v in Ok (row, with_total_rows n r) else
      let! c3 := py_contains_str "Total time (ms):" v in
      if c3 then
        let! n := slice_int 17 v in
        let! d := timedelta_of_ms n in
        Ok (row, with_elapsed_time d r)
      else Ok (row, r)
    else Ok (row, r) in
  let! t := getattr msg "_Time" in
  let! s := getattr msg "_Result" in
  let! v := getattr msg "value" in
  let! m := ImportMessage_new t s v row in
  Ok (row, push_message m r).

(** One iteration of the element loop (lines 229-232). *)
Definition element_step (r : ImportResult) (elem : sobj) : res ImportResult :=
  let! a := getattr elem "_Action" in
  let! i := getattr elem "_ID" in
  let! f := getattr elem "_ForeignKey" in
  Ok (push_element (mkImportElement a i f) r).

(** Lines 211-225: the messages, when [Import] has a [Message]. *)
Definition parse_messages (imp : sobj) (r : ImportResult) : res ImportResult :=
  if hasattr imp "Message" then
    let! ms := getattr imp "Message" in
    let! items := py_iter ms in
    let! '(_, r) := fold_res message_step items (0%Z, r) in
    Ok r
  else Ok r.

(** Lines 228-232: the elements of the first group, when [Elements]
    is present and not empty. *)
Definition parse_elements (imp : sobj) (r : ImportResult) : res ImportResult :=
  if hasattr imp "Elements" then
    let! es := getattr imp "Elements" in
    let! n := py_len es in
    if 0 <? n then
      let! g := py_index0 es in
      let! items := py_iter g in
      fold_res element_step items r
    else Ok r
  else Ok r.

(** [ImportResult.from_suds] (lines 192-239). *)
Definition from_suds (resp : sobj) : res ImportResult :=
  let! r := handle_suds_response_errors empty_result resp in
  let! r :=
    if hasattr resp "Import" then
      let r := with_has_error false r in
      let! imp := getattr resp "Import" in
      let! r := parse_messages imp r in
      parse_elements imp r
    else Ok r in
  if negb (hasattr resp "Export") && negb (hasattr resp "Import") then
    Ok (with_error_msg (PRepr resp) (with_has_error true r))
  else Ok r.
End Parse.

(** [filter_messages] (lines 270-277): [_.status == status]. *)
Definition filter_messages (r : ImportResult) (status_ : string) : list ImportMessage :=
  List.filter (fun m => obj_eq_str status_ (status m)) (messages r).

Definition progress_messages (r : ImportResult) := filter_messages r "Progress".
Definition comment_messages (r : ImportResult) := filter_messages r "Comment".
Definition success_messages (r : ImportResult) := filter_messages r "Success".
Definition warning_messages (r : ImportResult) := filter_messages r "Warning".
Definition error_messages (r : ImportResult) := filter_messages r "Error".

(** [filter_elements] (lines 305-312). *)
Definition filter_elements (r : ImportResult) (action_ : string) : list ImportElement :=
  List.filter (fun e => obj_eq_str action_ (action e)) (elements r).

Definition added_elements (r : ImportResult) := filter_elements r "Add".
Definition updated_elements (r : ImportResult) := filter_elements r "Update".

(** [ImportResult.__bool__] (lines 241-242). *)
Definition ImportResult_bool (r : ImportResult) : bool := result_bool r.


(** ** The import log as a pure fold

    The design notes of the spec ask for the sticky row to be an
    explicit fold over the ordered messages carrying (current row, total
    rows, elapsed time).  [log_entry] is a [Message] node whose three
    attributes are text; [entry_marker] is what a message contributes to
    the fold. *)

Record log_entry := mkEntry { le_value : string; le_time : string; le_result : string }.

Definition message_node (e : log_entry) : sobj :=
  SObj [("value", SText (le_value e)); ("_Time", SText (le_time e));
        ("_Result", SText (le_result e))].

(** An import response carrying a message log and nothing else. *)
Definition import_response (es : list log_entry) : sobj :=
  SObj [("Import", SObj [("Message", SList (map message_node es))])].

Inductive marker :=
  | RowMarker (n : Z)
  | TotalMarker (n : Z)
  | TimeMarker (d : timedelta)
  | NoMarker.

Definition entry_marker (e : log_entry) : res marker :=
  let v := le_value e in
  if String.eqb (le_result e) "Progress" then
    if str_contains "Processing row :" v then res_map RowMarker (py_int (str_drop 17 v))
    else if str_contains "Total rows imported:" v then
      res_map TotalMarker (py_int (str_drop 21 v))
    else if str_contains "Total time (ms):" v then
      let! n := py_int (str_drop 17 v) in res_map TimeMarker (timedelta_of_ms n)
    else Ok NoMarker
  else Ok NoMarker.

Definition marker_row (m : marker) (row : Z) : Z :=
  match m with RowMarker n => n | _ => row end.

Definition marker_total (m : marker) (t : option Z) : option Z :=
  match m with TotalMarker n => Some n | _ => t end.

Definition marker_time (m : marker) (t : option timedelta) : option timedelta :=
  match m with TimeMarker d => Some d | _ => t end.

(** What one entry does to the row, the total and the time, when its
    marker converts. *)
Definition next_row (row : Z) (e : log_entry) : Z :=
  match entry_marker e with Ok m => marker_row m row | Raise _ => row end.
Definition next_total (t : option Z) (e : log_entry) : option Z :=
  match entry_marker e with Ok m => marker_total m t | Raise _ => t end.
Definition next_time (t : option timedelta) (e : log_entry) : option timedelta :=
  match entry_marker e with Ok m => marker_time m t | Raise _ => t end.

(** The row in force after the entries [es]: the value of the last
    "Processing row" message, 0 before any. *)
Definition last_row (es : list log_entry) : Z := fold_left next_row es 0%Z.

(** The last "Total rows imported" and "Total time (ms)" values. *)
Definition last_total (es : list log_entry) : option Z := fold_left next_total es None.
Definition last_time (es : list log_entry) : option timedelta := fold_left next_time es None.

(** The row each entry is tagged with, in order. *)
Fixpoint row_trace (row : Z) (es : list log_entry) : list Z :=
  match es with
  | [] => []
  | e :: es' => next_row row e :: row_trace (next_row row e) es'
  end.

Section Log.
Variable fromisoformat : string -> option time_of_day.

(** What the loop body does with a well-shaped message: its marker,
    then its time. *)
Definition entry_parse (e : log_entry) : res (marker * time_of_day) :=
  let! m := entry_marker e in
  let! t := of_option (ValueError "Invalid isoformat string") (fromisoformat (le_time e)) in
  Ok (m, t).

Definition entry_ok (e : log_entry) : bool :=
  match entry_parse e with Ok _ => true | Raise _ => false end.

End Log.

(** The pure part of one iteration, once the marker and the time of the
    message are known. *)
Definition log_apply (st : Z * ImportResult) (e : log_entry) (mt : marker * time_of_day)
    : Z * ImportResult :=
  let '(row, r) := st in
  let '(m, t) := mt in
  let row := marker_row m row in
  let r := match m with
           | TotalMarker n => with_total_rows n r
           | TimeMarker d => with_elapsed_time d r
           | _ => r
           end in
  (row, push_message (mkImportMessage t (SText (le_result e)) (SText (le_value e)) row) r).

(** The messages the fold appends. *)
Fixpoint log_messages (row : Z) (es : list log_entry) (ps : list (marker * time_of_day))
    : list ImportMessage :=
  match es, ps with
  | e :: es', (m, t) :: ps' =>
      let row' := marker_row m row in
      mkImportMessage t (SText (le_result e)) (SText (le_value e)) row' :: log_messages row' es' ps'
  | _, _ => []
  end.

(** The fold of the design notes over the parsed entries. *)
Fixpoint log_fold (st : Z * ImportResult) (es : list log_entry)
    (ps : list (marker * time_of_day)) : Z * ImportResult :=
  match es, ps with
  | e :: es', p :: ps' => log_fold (log_apply st e p) es' ps'
  | _, _ => st
  end.

(** The abstract specification of the message loop, in the terms of
    the design notes of the spec: a fold over the entries carrying
    (current row, total rows, elapsed time, messages); each entry's
    marker and time convert, or the fold stops with the exception. *)
Definition spec_state : Type := Z * option Z * option timedelta * list ImportMessage.

Definition spec_step (fi : string -> option time_of_day) (st : spec_state) (e : log_entry)
    : res spec_state :=
  let '(row, tot, tim, ms) := st in
  let! m := entry_marker e in
  let! t := of_option (ValueError "Invalid isoformat string") (fi (le_time e)) in
  let row := marker_row m row in
  Ok (row, marker_total m tot, marker_time m tim,
      ms ++ [mkImportMessage t (SText (le_result e)) (SText (le_value e)) row]).

Definition import_spec (fi : string -> option time_of_day) (es : list log_entry) : res spec_state :=
  fold_res (spec_step fi) es (0%Z, None, None, []).

(** An element node with text attributes, and a response whose
    [Elements] holds the groups [gs]. *)
Definition element_node (a i f : string) : sobj :=
  SObj [("_Action", SText a); ("_ID", SText i); ("_ForeignKey", SText f)].

Definition elements_response (gs : list sobj) : sobj :=
  SObj [("Import", SObj [("Elements", SList gs)])].


(** ** The loops leave the error fields alone *)

Section Fields.
Variable fromisoformat : string -> option time_of_day.

Definition same_errors (r r' : ImportResult) : Prop :=
  ir_has_error r' = ir_has_error r /\ ir_error_msg r' = ir_error_msg r.

Lemma message_step_fields row r x row' r' :
  message_step fromisoformat (row, r) x = Ok (row', r') ->
  same_errors r r' /\ elements r' = elements r.
Proof.
  unfold message_step, same_errors. intros H. res_crush; simpl; tauto.
Qed.

Lemma element_step_fields r x r' :
  element_step r x = Ok r' -> same_errors r r'.
Proof. unfold element_step, same_errors. intros H. res_crush. simpl. tauto. Qed.

Lemma parse_messages_fields imp r r' :
  parse_messages fromisoformat imp r = Ok r' -> same_errors r r'.
Proof.
  unfold parse_messages.
  destruct (hasattr imp "Message"); simpl; [|intros [= <-]; split; done].
  destruct (getattr imp "Message") as [ms|]; simpl; [|discriminate].
  destruct (py_iter ms) as [items|]; simpl; [|discriminate].
  destruct (fold_res _ items (0%Z, r)) as [[row2 r2]|] eqn:Ef; simpl; [|discriminate].
  intros [= <-].
  refine (fold_res_inv (fun '(_, x) => same_errors r x) _ _ _ _ _ _ Ef); [|split; done].
  intros [row1 r1] y [row3 r3] [Hh Hm] Hs.
  apply message_step_fields in Hs as [[Hh' Hm'] _]. split; congruence.
Qed.

Lemma parse_elements_fields imp r r' :
  parse_elements imp r = Ok r' -> same_errors r r'.
Proof.
  unfold parse_elements.
  destruct (hasattr imp "Elements"); simpl; [|intros [= <-]; split; done].
  destruct (getattr imp "Elements") as [es|]; simpl; [|discriminate].
  destruct (py_len es) as [n|]; simpl; [|discriminate].
  destruct (0 <? n); [|intros [= <-]; split; done].
  destruct (py_index0 es) as [g|]; simpl; [|discriminate].
  destruct (py_iter g) as [items|]; simpl; [|discriminate].
  apply fold_res_inv; [|split; done].
  intros r1 y r2 [Hh Hm] Hs. apply element_step_fields in Hs as [Hh' Hm'].
  split; congruence.
Qed.
End Fields.



(** ** Concrete inputs for the witnesses *)

(** A parser of "HH:MM:SS", standing for [time.fromisoformat] on the
    times the service sends. *)
Definition hms_time (s : string) : option time_of_day :=
  if String.length s =? 8 then
    match py_int (substring 0 2 s), py_int (substring 3 2 s), py_int (substring 6 2 s) with
    | Ok h, Ok m, Ok sec => Some {| tod_hour := h; tod_minute := m; tod_second := sec;
                                    tod_microsecond := 0 |}
    | _, _, _ => None
    end
  else None.

(** The import log quoted in the comment of [run_import] (client.py,
    lines 407-435), extended with the closing progress messages. *)
Definition sample_log : list log_entry :=
  [mkEntry "Successfully created ImportLog." "21:52:34" "Progress";
   mkEntry "Processing row : 00001" "21:52:34" "Progress";
   mkEntry "Actie: Reference not found" "21:52:34" "Warning";
   mkEntry "Processing row : 00002" "21:52:35" "Progress";
   mkEntry "Total rows imported: 2" "21:52:35" "Progress";
   mkEntry "Total time (ms): 1500" "21:52:35" "Progress"].

Fixpoint zeros (n : nat) : string :=
  match n with O => EmptyString | S n' => String "0" (zeros n') end.

Definition sample_elements : ImportResult :=
  mkImportResult (SetTo false) Unset []
    [mkImportElement (SText "Add") (SText "1") (SText "k1");
     mkImportElement (SText "Update") (SText "2") (SText "k2")] None None.

(** ** The message loop refines the fold *)

Lemma message_step_node fi st e :
  message_step fi st (message_node e) = res_map (log_apply st e) (entry_parse fi e).
Proof.
  destruct st as [row r].
  unfold message_step, entry_parse, entry_marker, message_node, res_map. simpl.
  destruct (String.eqb (le_result e) "Progress"); simpl.
  - destruct (str_contains "Processing row :" (le_value e)); simpl.
    + destruct (py_int _); simpl; [|done]. by destruct (fi (le_time e)).
    + destruct (str_contains "Total rows imported:" (le_value e)); simpl.
      * destruct (py_int _); simpl; [|done]. by destruct (fi (le_time e)).
      * destruct (str_contains "Total time (ms):" (le_value e)); simpl.
        -- destruct (py_int _); simpl; [|done].
           destruct (timedelta_of_ms _); simpl; [|done]. by destruct (fi (le_time e)).
        -- by destruct (fi (le_time e)).
  - by destruct (fi (le_time e)).
Qed.

Lemma message_loop_fold fi es st :
  fold_res (message_step fi) (map message_node es) st =
  res_map (log_fold st es) (res_mapM (entry_parse fi) es).
Proof.
  revert st. induction es as [|e es IH]; intros st; [done|].
  simpl. rewrite message_step_node. unfold res_map in *.
  destruct (entry_parse fi e) as [p|]; simpl; [|done].
  rewrite IH. by destruct (res_mapM _ es).
Qed.

(** [from_suds] on a message log is "parse every entry, then fold". *)
Lemma from_suds_import_response fi es :
  from_suds fi (import_response es) =
  res_map (fun ps => snd (log_fold (0%Z, with_has_error false empty_result) es ps))
          (res_mapM (entry_parse fi) es).
Proof.
  unfold from_suds, parse_messages, parse_elements. simpl.
  rewrite message_loop_fold. unfold res_map.
  destruct (res_mapM _ es); simpl; [|done]. by destruct (log_fold _ _ _).
Qed.

Lemma entry_parse_marker fi e m t :
  entry_parse fi e = Ok (m, t) ->
  entry_marker e = Ok m /\ fi (le_time e) = Some t.
Proof.
  unfold entry_parse. destruct (entry_marker e); simpl; [|discriminate].
  destruct (fi (le_time e)); simpl; by intros [= -> ->].
Qed.

Lemma res_mapM_Forall2 {A B} (f : A -> res B) l ys :
  res_mapM f l = Ok ys -> Forall2 (fun x y => f x = Ok y) l ys.
Proof.
  revert ys. induction l as [|x l IH]; simpl; intros ys H; [by injection H as <-|].
  res_crush. constructor; auto.
Qed.

Section FoldSpec.
Variable fromisoformat : string -> option time_of_day.

Definition parsed (es : list log_entry) (ps : list (marker * time_of_day)) : Prop :=
  Forall2 (fun e p => entry_parse fromisoformat e = Ok p) es ps.

(** Everything the fold does to the result, field by field. *)
Lemma log_fold_fields es ps row r :
  parsed es ps ->
  let '(row', r') := log_fold (row, r) es ps in
  row' = fold_left next_row es row /\ same_errors r r' /\ elements r' = elements r /\
  total_rows r' = fold_left next_total es (total_rows r) /\
  elapsed_time r' = fold_left next_time es (elapsed_time r) /\
  messages r' = messages r ++ log_messages row es ps.
Proof.
  intros Hp. revert row r. induction Hp as [|e [m t] es ps He Hp IH]; intros row r.
  { simpl. rewrite app_nil_r. unfold same_errors. tauto. }
  apply entry_parse_marker in He as [Hm _]. simpl.
  specialize (IH (marker_row m row)
    (push_message (mkImportMessage t (SText (le_result e)) (SText (le_value e))
       (marker_row m row)) (match m with TotalMarker n => with_total_rows n r
                           | TimeMarker d => with_elapsed_time d r | _ => r end))).
  destruct (log_fold _ es ps) as [row' r'].
  unfold next_row at 2, next_total at 2, next_time at 2. rewrite Hm.
  unfold same_errors in *. destruct m; simpl in IH |- *; rewrite <- app_assoc in IH; tauto.
Qed.

Lemma log_messages_rows es ps row0 :
  parsed es ps -> map row (log_messages row0 es ps) = row_trace row0 es.
Proof.
  intros Hp. revert row0. induction Hp as [|e [m t] es ps He Hp IH]; intros row0; [done|].
  apply entry_parse_marker in He as [Hm _]. simpl. unfold next_row at 1 2. rewrite Hm.
  f_equal. apply IH.
Qed.

Lemma log_messages_lookup es ps row i e :
  parsed es ps -> es !! i = Some e ->
  exists m, log_messages row es ps !! i = Some m /\ status m = SText (le_result e) /\
    message m = SText (le_value e) /\ fromisoformat (le_time e) = Some (time m).
Proof.
  intros Hp. revert row i. induction Hp as [|e' [m t] es ps He Hp IH]; intros row i Hi;
    [done|].
  destruct i as [|i]; simpl in Hi |- *.
  - injection Hi as <-. apply entry_parse_marker in He as [_ Ht]. eauto.
  - apply IH, Hi.
Qed.

Lemma log_messages_length es ps row :
  parsed es ps -> length (log_messages row es ps) = length es.
Proof.
  intros Hp. revert row. induction Hp as [|e [m t] es ps He Hp IH]; intros row; simpl; auto.
Qed.
End FoldSpec.

Lemma row_trace_lookup row es i :
  i < length es -> row_trace row es !! i = Some (fold_left next_row (take (S i) es) row).
Proof.
  revert row i. induction es as [|e es IH]; intros row i Hi; simpl in *; [lia|].
  destruct i as [|i]; simpl; [done|]. apply IH. lia.
Qed.

(** The parse of a well-formed log, and the result it gives. *)
Lemma from_suds_log_ok fi es :
  Forall (fun e => entry_ok fi e = true) es ->
  exists ps, parsed fi es ps /\
    from_suds fi (import_response es) =
    Ok (snd (log_fold (0%Z, with_has_error false empty_result) es ps)).
Proof.
  intros Hok. destruct (res_mapM_all_ok (entry_parse fi) es) as [ps Hps].
  { eapply Forall_impl; [exact Hok|]. intros e. unfold entry_ok. by destruct (entry_parse fi e). }
  exists ps. split; [by apply res_mapM_Forall2|].
  by rewrite from_suds_import_response, Hps.
Qed.


Lemma spec_step_parse fi row tot tim ms e :
  spec_step fi (row, tot, tim, ms) e =
  res_map (fun '(m, t) => (marker_row m row, marker_total m tot, marker_time m tim,
                           ms ++ [mkImportMessage t (SText (le_result e)) (SText (le_value e))
                                    (marker_row m row)]))
          (entry_parse fi e).
Proof.
  unfold spec_step, entry_parse, res_map. destruct (entry_marker e); simpl; [|done].
  by destruct (fi (le_time e)).
Qed.

(** The spec's fold and the parse-then-fold of the loop agree, from
    any state. *)
Lemma spec_fold_log fi es row r :
  fold_res (spec_step fi) es (row, total_rows r, elapsed_time r, messages r) =
  res_map (fun ps => let '(row', r') := log_fold (row, r) es ps in
                     (row', total_rows r', elapsed_time r', messages r'))
          (res_mapM (entry_parse fi) es).
Proof.
  revert row r. induction es as [|e es IH]; intros row r; [done|]. cbn [fold_res res_mapM].
  rewrite spec_step_parse. destruct (entry_parse fi e) as [[m t]|ex]; simpl; [|done].
  set (r1 := push_message (mkImportMessage t (SText (le_result e)) (SText (le_value e))
                             (marker_row m row))
               (match m with TotalMarker n => with_total_rows n r
                        | TimeMarker d => with_elapsed_time d r | _ => r end)).
  assert (Hst : (marker_row m row, marker_total m (total_rows r), marker_time m (elapsed_time r),
                 messages r ++ [mkImportMessage t (SText (le_result e)) (SText (le_value e))
                                  (marker_row m row)]) =
                (marker_row m row, total_rows r1, elapsed_time r1, messages r1))
    by (unfold r1; destruct m; reflexivity).
  rewrite Hst, IH. unfold res_map. destruct (res_mapM (entry_parse fi) es); simpl; [|done].
  by destruct m.
Qed.

(** The markers of the three progress messages the service sends. *)
Lemma entry_marker_row d t :
  entry_marker (mkEntry ("Processing row : " +:+ d) t "Progress") = res_map RowMarker (py_int d).
Proof. reflexivity. Qed.

Lemma entry_marker_time d t :
  all_digits d = true ->
  entry_marker (mkEntry ("Total time (ms): " +:+ d) t "Progress") =
  let! n := py_int d in res_map TimeMarker (timedelta_of_ms n).
Proof.
  intros Hd. unfold entry_marker. simpl.
  by rewrite !str_contains_digits by done.
Qed.

(** The fields of the result of a well-formed log. *)
Lemma from_suds_log_fields fi es :
  Forall (fun e => entry_ok fi e = true) es ->
  exists ps r, parsed fi es ps /\ from_suds fi (import_response es) = Ok r /\
    messages r = log_messages 0 es ps /\ total_rows r = last_total es /\
    elapsed_time r = last_time es.
Proof.
  intros Hok. destruct (from_suds_log_ok fi es Hok) as (ps & Hp & ->).
  pose proof (log_fold_fields fi es ps 0%Z (with_has_error false empty_result) Hp) as Hf.
  destruct (log_fold _ es ps) as [row' r']. exists ps, r'.
  destruct Hf as (_ & _ & _ & Ht & He & Hm). repeat split; done.
Qed.


Definition element_of (x : string * string * string) : ImportElement :=
  let '(a, i, f) := x in mkImportElement (SText a) (SText i) (SText f).

Definition element_node_of (x : string * string * string) : sobj :=
  let '(a, i, f) := x in element_node a i f.

Lemma element_loop_nodes els r :
  fold_res element_step (map element_node_of els) r =
  Ok (mkImportResult (ir_has_error r) (ir_error_msg r) (messages r)
        (elements r ++ map element_of els) (total_rows r) (elapsed_time r)).
Proof.
  revert r. induction els as [|[[a i] f] els IH]; intros r; simpl.
  - rewrite app_nil_r. by destruct r.
  - rewrite IH. simpl. by rewrite <- app_assoc.
Qed.

(** The message statuses and element actions the service sends. *)
Definition known_status (m : ImportMessage) : bool :=
  existsb (fun s => obj_eq_str (status_name s) (status m))
    [Progress; Comment; Success; Warning; Error].

Definition known_action (e : ImportElement) : bool :=
  existsb (fun a => obj_eq_str (action_name a) (action e)) [Add; Update].

Lemma obj_eq_str_unique s1 s2 o :
  s1 <> s2 -> obj_eq_str s1 o = true -> obj_eq_str s2 o = false.
Proof.
  destruct o; simpl; try done. intros Hne H1%String.eqb_eq.
  apply String.eqb_neq. congruence.
Qed.

(** Distinct literal names. *)
Ltac names_nodup :=
  apply NoDup_ListNoDup; repeat constructor; simpl; intuition discriminate.

Section Cover.
Context {A : Type} (key : A -> sobj).

Definition filter_lengths (names : list string) (l : list A) : nat :=
  foldr (fun n acc => length (List.filter (fun x => obj_eq_str n (key x)) l) + acc) 0 names.

(** An element matched by exactly one of the names adds one to the
    sum of the filter lengths. *)
Lemma filter_lengths_cons names n0 x l :
  NoDup names -> n0 ∈ names -> obj_eq_str n0 (key x) = true ->
  filter_lengths names (x :: l) = S (filter_lengths names l).
Proof.
  unfold filter_lengths. intros Hnd Hn0 Hx.
  induction Hnd as [|n names Hnin Hnd IHn]; [by apply not_elem_of_nil in Hn0|].
  cbn [foldr]. apply elem_of_cons in Hn0 as [<-|Hn0].
  - cbn [List.filter]. rewrite Hx. simpl. f_equal. f_equal. clear IHn.
    induction names as [|n' names IH]; simpl; [done|].
    apply not_elem_of_cons in Hnin as [Hne Hnin]. apply NoDup_cons in Hnd as [_ Hnd].
    rewrite (obj_eq_str_unique n0 n') by done. f_equal. auto.
  - rewrite IHn by done. cbn [List.filter].
    rewrite (obj_eq_str_unique n0 n); [lia|intros ->; by apply Hnin|done].
Qed.

(** Filtering by pairwise distinct names that cover every element
    splits the list: the lengths add up. *)
Lemma filter_cover_length (names : list string) (l : list A) :
  NoDup names ->
  Forall (fun x => existsb (fun n => obj_eq_str n (key x)) names = true) l ->
  filter_lengths names l = length l.
Proof.
  intros Hnd. induction 1 as [|x l Hx _ IH].
  { unfold filter_lengths. clear. induction names; simpl; auto. }
  apply existsb_exists in Hx as (n0 & Hn0%list_elem_of_In & Hx).
  rewrite (filter_lengths_cons _ n0) by done. simpl. by rewrite IH.
Qed.
End Cover.

(** C1 *)
(** [ImportResult.from_suds] always assigns [has_error], to [False]
    exactly when the response has an [Import] node; hence the result is
    truthy exactly when the response has an [Import] node, whatever
    else it holds. *)
Theorem from_suds_has_error fromisoformat resp r :
  from_suds fromisoformat resp = Ok r ->
  ir_has_error r = SetTo (negb (hasattr resp "Import")) /\
  ImportResult_bool r = hasattr resp "Import".
Proof.
  unfold ImportResult_bool, result_bool, from_suds. intros H.
  destruct (handle_suds_response_errors empty_result resp) as [r1|] eqn:Eh;
    simpl in H; [|discriminate].
  destruct (hasattr resp "Import") eqn:Ei; simpl in H.
  - destruct (getattr resp "Import") as [imp|]; simpl in H; [|discriminate].
    destruct (parse_messages _ imp _) as [r2|] eqn:Em; simpl in H; [|discriminate].
    apply parse_messages_fields in Em as [Hm _].
    rewrite andb_false_r, res_bind_ret in H. apply parse_elements_fields in H as [He _]. simpl.
    rewrite He, Hm. done.
  - rewrite andb_true_r in H.
    destruct (hasattr resp "Export") eqn:Ex; simpl in H; injection H as <-; [|done].
    pose proof (handle_export_sets _ _ _ Ex Eh) as Hs. simpl in *. by rewrite Hs.
Qed.


(** C2 *)
(** The sticky row: when every message of the log converts, [from_suds]
    keeps one message per log entry, and the message at position [i]
    carries the value of the last "Processing row : n" progress message
    among the entries [0..i], that entry included (0 before any). *)
Theorem from_suds_rows fromisoformat es :
  Forall (fun e => entry_ok fromisoformat e = true) es ->
  exists r, from_suds fromisoformat (import_response es) = Ok r /\
    length (messages r) = length es /\
    forall i, i < length es -> map row (messages r) !! i = Some (last_row (take (S i) es)).
Proof.
  intros Hok. destruct (from_suds_log_fields _ es Hok) as (ps & r & Hp & Hr & Hm & _).
  exists r. rewrite Hm. split; [done|]. split; [by eapply log_messages_length|].
  intros i Hi. rewrite (log_messages_rows fromisoformat) by done. by apply row_trace_lookup.
Qed.

(** C3 *)
(** Every log entry becomes one [ImportMessage], in order, holding the
    entry's status node, its text node and its converted time. *)
Theorem from_suds_messages fromisoformat es :
  Forall (fun e => entry_ok fromisoformat e = true) es ->
  exists r, from_suds fromisoformat (import_response es) = Ok r /\
    forall i e, es !! i = Some e ->
      exists m, messages r !! i = Some m /\ status m = SText (le_result e) /\
        message m = SText (le_value e) /\ fromisoformat (le_time e) = Some (time m).
Proof.
  intros Hok. destruct (from_suds_log_fields _ es Hok) as (ps & r & Hp & Hr & Hm & _).
  exists r. rewrite Hm. split; [done|]. intros i e Hi. by eapply log_messages_lookup.
Qed.

(** C4 *)
(** [total_rows] and [elapsed_time] are the values of the last
    "Total rows imported:" and "Total time (ms):" progress messages
    ([None] when there is none). *)
Theorem from_suds_totals fromisoformat es :
  Forall (fun e => entry_ok fromisoformat e = true) es ->
  exists r, from_suds fromisoformat (import_response es) = Ok r /\
    total_rows r = last_total es /\ elapsed_time r = last_time es.
Proof.
  intros Hok. destruct (from_suds_log_fields _ es Hok) as (ps & r & _ & Hr & _ & Ht & He).
  eauto.
Qed.

(** C14 *)
(** Refinement: on a message log, [from_suds] (the loop over the suds
    tree with its attribute probes) computes exactly the abstract fold
    of the design notes: the same exception when an entry does not
    convert, and otherwise a result with [has_error = False], no
    elements, and the messages, total rows and elapsed time of the
    fold. *)
Theorem from_suds_refines_spec fi es :
  from_suds fi (import_response es) =
  res_map (fun '(_, tot, tim, ms) => mkImportResult (SetTo false) Unset ms [] tot tim)
          (import_spec fi es).
Proof.
  rewrite from_suds_import_response. unfold import_spec.
  change (0%Z, None, None, []) with
    (0%Z, total_rows (with_has_error false empty_result), elapsed_time (with_has_error false empty_result),
     messages (with_has_error false empty_result)).
  rewrite (spec_fold_log fi es 0%Z (with_has_error false empty_result)).
  unfold res_map. destruct (res_mapM (entry_parse fi) es) as [ps|] eqn:Eps; simpl; [|done].
  pose proof (log_fold_fields fi es ps 0%Z (with_has_error false empty_result)
                (res_mapM_Forall2 _ _ _ Eps)) as Hf.
  destruct (log_fold _ es ps) as [row' r']. destruct Hf as (_ & [Hh Hm] & He & _).
  destruct r'; simpl in *. by subst.
Qed.

(** A message whose number or time does not convert aborts the parse:
    [from_suds] raises the exception of the first such message, and no
    result is returned. *)
Theorem from_suds_log_error fromisoformat pre e post ex :
  Forall (fun e => entry_ok fromisoformat e = true) pre ->
  entry_parse fromisoformat e = Raise ex ->
  from_suds fromisoformat (import_response (pre ++ e :: post)) = Raise ex.
Proof.
  intros Hpre He.
  rewrite from_suds_import_response, (res_mapM_first_error (entry_parse fromisoformat) _ _ _ ex);
    [done| |done].
  eapply Forall_impl; [exact Hpre|]. intros x. unfold entry_ok. by destruct (entry_parse _ x).
Qed.

(** A "Processing row : n" message whose number has more than 4300
    digits makes [int()] raise [ValueError] (CPython's limit on
    integer string conversion), and [from_suds] with it. *)
Theorem from_suds_row_digit_limit fromisoformat pre d t post :
  Forall (fun e => entry_ok fromisoformat e = true) pre ->
  all_digits d = true -> int_max_str_digits < String.length d ->
  from_suds fromisoformat
    (import_response (pre ++ mkEntry ("Processing row : " +:+ d) t "Progress" :: post)) =
  raise digits_limit.
Proof.
  intros Hpre Hd Hl.
  rewrite from_suds_import_response,
    (res_mapM_first_error (entry_parse fromisoformat) _ _ _ digits_limit); [done| |].
  - eapply Forall_impl; [exact Hpre|]. intros x. unfold entry_ok. by destruct (entry_parse _ x).
  - unfold entry_parse. by rewrite entry_marker_row, py_int_digits_too_long.
Qed.

(** C35 *)
(** A "Total time (ms): n" message with [n] milliseconds beyond the
    range of [timedelta] (more than 999999999 days) makes [from_suds]
    raise [OverflowError]. *)
Theorem from_suds_time_overflow fromisoformat pre d t post :
  Forall (fun e => entry_ok fromisoformat e = true) pre ->
  all_digits d = true -> 0 < String.length d <= int_max_str_digits ->
  ((max_delta_days + 1) * 86400000 <= digits_value d)%Z ->
  from_suds fromisoformat
    (import_response (pre ++ mkEntry ("Total time (ms): " +:+ d) t "Progress" :: post)) =
  raise OverflowError.
Proof.
  intros Hpre Hd Hl Hv.
  rewrite from_suds_import_response,
    (res_mapM_first_error (entry_parse fromisoformat) _ _ _ OverflowError); [done| |].
  - eapply Forall_impl; [exact Hpre|]. intros x. unfold entry_ok. by destruct (entry_parse _ x).
  - unfold entry_parse. rewrite entry_marker_time, py_int_digits by done. simpl.
    unfold timedelta_of_ms, mk_timedelta, td_days, us_per_day, us_per_second, max_delta_days in *.
    destruct (Z.leb_spec (Z.abs (digits_value d * 1000 / (86400 * 1000000))) 999999999);
      [|done].
    exfalso. rewrite Z.abs_eq in H by (apply Z.div_pos; lia).
    assert (1000000000 <= digits_value d * 1000 / (86400 * 1000000))%Z; [|lia].
    apply Z.div_le_lower_bound; lia.
Qed.


(** C36 *)
(** A response with neither an [Export] nor an [Import] node (including
    [None]) gives a falsy result whose error message is [repr] of the
    response, and nothing else; for [None] the message is therefore
    [repr(None)], not the empty string set on line 32. *)
Theorem from_suds_unrecognized fromisoformat resp :
  hasattr resp "Export" = false -> hasattr resp "Import" = false ->
  from_suds fromisoformat resp =
  Ok (mkImportResult (SetTo true) (SetTo (PRepr resp)) [] [] None None).
Proof.
  intros Hx Hi. unfold from_suds. rewrite Hi.
  assert (handle_suds_response_errors empty_result resp =
          Ok (match resp with
              | SNone => with_error_msg (PStr "") (with_has_error true empty_result)
              | _ => empty_result end)) as ->.
  { destruct resp; [reflexivity| | |]; apply handle_no_export; done. }
  simpl. rewrite Hx. by destruct resp.
Qed.

(** An [Export] node with an [_Error] attribute, and no [Import] node,
    gives a falsy result whose message is [str] of the [_Error] value. *)
Theorem from_suds_export_error fromisoformat fs exp e :
  attr_lookup "Export" fs = Some exp -> getattr exp "_Error" = Ok e ->
  hasattr (SObj fs) "Import" = false ->
  from_suds fromisoformat (SObj fs) =
  Ok (mkImportResult (SetTo true) (SetTo (py_str e)) [] [] None None).
Proof.
  intros Hx He Hi. unfold from_suds.
  rewrite (handle_export_error _ _ _ _ Hx He). simpl in *. by rewrite Hi, Hx.
Qed.

(** C38 *)
(** An [Export] node without [_Error] makes [from_suds] raise
    [TypeError] (the call [repr()] on line 41 has no argument), even when
    the response also has an [Import] node. *)
Theorem from_suds_export_no_error fromisoformat fs exp :
  attr_lookup "Export" fs = Some exp -> hasattr exp "_Error" = false ->
  from_suds fromisoformat (SObj fs) = raise TypeError.
Proof.
  intros Hx He. unfold from_suds. by rewrite (handle_export_no_error _ _ _ Hx He).
Qed.

(** The elements are those of the first group of [Import.Elements], in
    order; the groups after the first are never read.  A successful
    import leaves [error_msg] unassigned. *)
Theorem from_suds_elements fromisoformat els gs :
  from_suds fromisoformat (elements_response (SList (map element_node_of els) :: gs)) =
  Ok (mkImportResult (SetTo false) Unset [] (map element_of els) None None).
Proof.
  unfold from_suds, parse_messages, parse_elements. simpl.
  by rewrite element_loop_nodes.
Qed.

(** The example of the spec: for the log [("Progress", "Processing row :
    00001"), ("Success", "ok")] the rows are [1; 1], not [0; 1]: the row
    is updated before the message that carries it is appended. *)
Theorem spec_example_rows fromisoformat t1 t2 :
  fromisoformat "21:52:34" = Some t1 -> fromisoformat "21:52:35" = Some t2 ->
  exists r,
    from_suds fromisoformat
      (import_response [mkEntry "Processing row : 00001" "21:52:34" "Progress";
                        mkEntry "ok" "21:52:35" "Success"]) = Ok r /\
    map row (messages r) = [1%Z; 1%Z].
Proof.
  intros H1 H2. rewrite from_suds_import_response. unfold entry_parse. simpl.
  rewrite H1, H2. simpl. eauto.
Qed.

(** When every message has one of the five statuses, the five named
    accessors ([progress_messages] ... [error_messages]) split the
    messages: their lengths add up to the number of messages. *)
Theorem status_filters_partition r :
  Forall (fun m => known_status m = true) (messages r) ->
  length (progress_messages r) + length (comment_messages r) + length (success_messages r) +
  length (warning_messages r) + length (error_messages r) = length (messages r).
Proof.
  intros Hall. rewrite <- (filter_cover_length status
    ["Progress"; "Comment"; "Success"; "Warning"; "Error"] (messages r)); [|names_nodup|done].
  unfold filter_lengths, progress_messages, comment_messages, success_messages,
    warning_messages, error_messages, filter_messages. simpl. lia.
Qed.

(** When every element's action is [Add] or [Update], [added_elements]
    and [updated_elements] split the elements. *)
Theorem action_filters_partition r :
  Forall (fun e => known_action e = true) (elements r) ->
  length (added_elements r) + length (updated_elements r) = length (elements r).
Proof.
  intros Hall. rewrite <- (filter_cover_length action ["Add"; "Update"] (elements r));
    [|names_nodup|done].
  unfold filter_lengths, added_elements, updated_elements, filter_elements. simpl. lia.
Qed.


(** ** Witnesses *)

Lemma from_suds_has_error_witness :
  exists r, from_suds hms_time (import_response sample_log) = Ok r /\
    ir_has_error r = SetTo (negb (hasattr (import_response sample_log) "Import")) /\
    ImportResult_bool r = hasattr (import_response sample_log) "Import".
Proof.
  eexists. split; [reflexivity|]. apply (from_suds_has_error hms_time). reflexivity.
Defined.

Lemma from_suds_rows_witness :
  Forall (fun e => entry_ok hms_time e = true) sample_log /\
  exists r, from_suds hms_time (import_response sample_log) = Ok r /\
    length (messages r) = length sample_log /\
    forall i, i < length sample_log ->
      map row (messages r) !! i = Some (last_row (take (S i) sample_log)).
Proof.
  split; [repeat constructor|]. apply (from_suds_rows hms_time). repeat constructor.
Defined.

Lemma from_suds_messages_witness :
  Forall (fun e => entry_ok hms_time e = true) sample_log /\
  exists r, from_suds hms_time (import_response sample_log) = Ok r /\
    forall i e, sample_log !! i = Some e ->
      exists m, messages r !! i = Some m /\ status m = SText (le_result e) /\
        message m = SText (le_value e) /\ hms_time (le_time e) = Some (time m).
Proof.
  split; [repeat constructor|]. apply (from_suds_messages hms_time). repeat constructor.
Defined.

Lemma from_suds_totals_witness :
  Forall (fun e => entry_ok hms_time e = true) sample_log /\
  exists r, from_suds hms_time (import_response sample_log) = Ok r /\
    total_rows r = last_total sample_log /\ elapsed_time r = last_time sample_log.
Proof.
  split; [repeat constructor|]. apply (from_suds_totals hms_time). repeat constructor.
Defined.

Lemma from_suds_log_error_witness :
  entry_parse hms_time (mkEntry "Processing row : 0x1" "21:52:36" "Progress") =
    raise invalid_literal /\
  from_suds hms_time (import_response (take 2 sample_log ++
    mkEntry "Processing row : 0x1" "21:52:36" "Progress" :: drop 2 sample_log)) =
    raise invalid_literal.
Proof.
  split; [reflexivity|]. apply (from_suds_log_error hms_time (take 2 sample_log)); [repeat constructor|reflexivity].
Defined.

Lemma from_suds_row_digit_limit_witness :
  all_digits (zeros 4301) = true /\ int_max_str_digits < String.length (zeros 4301) /\
  from_suds hms_time (import_response ([] ++
    mkEntry ("Processing row : " +:+ zeros 4301) "21:52:36" "Progress" :: sample_log)) =
    raise digits_limit.
Proof.
  assert (int_max_str_digits < String.length (zeros 4301)) as Hl.
  { apply Nat.ltb_lt. vm_compute. reflexivity. }
  split; [vm_compute; reflexivity|]. split; [exact Hl|].
  apply (from_suds_row_digit_limit hms_time [] (zeros 4301) "21:52:36" sample_log);
    [constructor|vm_compute; reflexivity|exact Hl].
Defined.

Lemma from_suds_time_overflow_witness :
  from_suds hms_time (import_response (take 5 sample_log ++
    mkEntry ("Total time (ms): " +:+ "86400000000000000") "21:52:36" "Progress" :: [])) =
    raise OverflowError.
Proof.
  apply (from_suds_time_overflow hms_time (take 5 sample_log) "86400000000000000" "21:52:36" []);
    [cbn; repeat constructor|reflexivity| |vm_compute; congruence].
  split; [apply Nat.ltb_lt|apply Nat.leb_le]; reflexivity.
Defined.

Lemma from_suds_unrecognized_witness :
  hasattr SNone "Export" = false /\ hasattr SNone "Import" = false /\
  from_suds hms_time SNone = Ok (mkImportResult (SetTo true) (SetTo (PRepr SNone)) [] [] None None).
Proof.
  split; [reflexivity|]. split; [reflexivity|]. apply from_suds_unrecognized; reflexivity.
Defined.

Lemma from_suds_export_error_witness :
  from_suds hms_time (SObj [("Export", SObj [("_Error", SText "Error while reading file")])]) =
  Ok (mkImportResult (SetTo true) (SetTo (py_str (SText "Error while reading file")))
        [] [] None None).
Proof.
  apply (from_suds_export_error hms_time _ (SObj [("_Error", SText "Error while reading file")])
           (SText "Error while reading file")); reflexivity.
Defined.

Lemma from_suds_export_no_error_witness :
  from_suds hms_time (SObj [("Export", SObj []); ("Import", SObj [])]) = raise TypeError.
Proof. apply (from_suds_export_no_error hms_time _ (SObj [])); reflexivity. Defined.

Lemma spec_example_rows_witness :
  exists r,
    from_suds hms_time
      (import_response [mkEntry "Processing row : 00001" "21:52:34" "Progress";
                        mkEntry "ok" "21:52:35" "Success"]) = Ok r /\
    map row (messages r) = [1%Z; 1%Z].
Proof. eapply (spec_example_rows hms_time); reflexivity. Defined.

Lemma status_filters_partition_witness :
  exists r, from_suds hms_time (import_response sample_log) = Ok r /\
    length (progress_messages r) + length (comment_messages r) + length (success_messages r) +
    length (warning_messages r) + length (error_messages r) = length (messages r).
Proof.
  eexists. split; [reflexivity|]. apply status_filters_partition. repeat constructor.
Defined.

Lemma action_filters_partition_witness :
  length (added_elements sample_elements) + length (updated_elements sample_elements) =
  length (elements sample_elements).
Proof. apply action_filters_partition. repeat constructor. Defined.

End ImportResult.
