(* ===== verification/Base64.v ===== *)
(** * Base64: [base64.b64encode] and [base64.b64decode]

    The sources base64-encode the import payload ([client.py] lines 358,
    369 and 374, and the Basic credentials on line 103) and decode the
    documents of an export ([result_classes.py] line 84).  Both calls go
    to CPython's [binascii] module:
    - [b64encode(s)] is [b2a_base64(s, newline=False)]: a loop that
      shifts each byte into an [unsigned int] bit buffer [leftchar]
      and emits a character while at least six bits are buffered, then
      pads the last one or two characters with [=];
    - [b64decode(s)] (with [validate=False]) refuses a str with a
      non-ASCII character and runs [a2b_base64] in non-strict mode: a
      state machine over [quad_pos], [leftchar] and [pads] that skips
      characters outside the alphabet, stops at a complete padding, and
      raises [binascii.Error] when the input ends inside a quad.

    [b64_groups] is the textbook three-bytes-to-four-characters encoder;
    the theorems show the buffer loop equals it, and that decoding an
    encoding gives the bytes back.  The file ends with
    [bytes(s, "utf-8")], which the sources apply before encoding. *)

From stdpp Require Import pretty.
From S2P Require Import Prelude.

#[local] Open Scope Z_scope.

(** A byte as an integer in [0, 256). *)
Definition u8 (b : byte) : Z := Z.of_N (Byte.to_N b).

(** The low eight bits of an integer, as a byte (a store to an
    [unsigned char]). *)
Definition byte_of_Z (z : Z) : byte :=
  match Byte.of_N (Z.to_N (z mod 256)) with Some b => b | None => Byte.x00 end.

Definition chr (n : Z) : ascii := ascii_of_N (Z.to_N n).

(** [table_b2a_base64]. *)
Definition table_b2a (n : Z) : ascii :=
  chr (if n <? 26 then 65 + n
       else if n <? 52 then 71 + n
       else if n <? 62 then n - 4
       else if n =? 62 then 43 else 47).

(** [table_a2b_base64]: the value of an alphabet character, 255 for any
    other character. *)
Definition table_a2b (c : ascii) : Z :=
  let n := Z.of_N (N_of_ascii c) in
  if (65 <=? n) && (n <=? 90) then n - 65
  else if (97 <=? n) && (n <=? 122) then n - 71
  else if (48 <=? n) && (n <=? 57) then n + 4
  else if n =? 43 then 62
  else if n =? 47 then 63
  else 255.

Definition pad_char : ascii := "=".

(** ** [b2a_base64] *)

(** [while (leftbits >= 6) { emit (leftchar >> (leftbits-6)) & 0x3f;
    leftbits -= 6; }], with fuel [leftbits / 6 + 1], which the loop never
    exhausts. *)
Fixpoint emit_sextets (fuel : nat) (leftchar leftbits : Z) : list ascii * Z :=
  match fuel with
  | O => ([], leftbits)
  | S f =>
      if 6 <=? leftbits then
        let c := table_b2a (Z.land (Z.shiftr leftchar (leftbits - 6)) 63) in
        let '(cs, lb) := emit_sextets f leftchar (leftbits - 6) in
        (c :: cs, lb)
      else ([], leftbits)
  end.

(** One byte of the [for] loop: shift it into the 32-bit buffer, then
    emit. *)
Definition b2a_step (leftchar leftbits : Z) (b : byte) : list ascii * (Z * Z) :=
  let lc := Z.land (Z.lor (Z.shiftl leftchar 8) (u8 b)) (2 ^ 32 - 1) in
  let lb := leftbits + 8 in
  let '(cs, lb') := emit_sextets (S (Z.to_nat (lb / 6))) lc lb in
  (cs, (lc, lb')).

Fixpoint b2a_loop (bs : list byte) (leftchar leftbits : Z) : list ascii * (Z * Z) :=
  match bs with
  | [] => ([], (leftchar, leftbits))
  | b :: bs' =>
      let '(cs, (lc, lb)) := b2a_step leftchar leftbits b in
      let '(cs', st) := b2a_loop bs' lc lb in
      (cs ++ cs', st)
  end.

(** The padding after the loop. *)
Definition b2a_tail (leftchar leftbits : Z) : list ascii :=
  if leftbits =? 2 then [table_b2a (Z.shiftl (Z.land leftchar 3) 4); pad_char; pad_char]
  else if leftbits =? 4 then [table_b2a (Z.shiftl (Z.land leftchar 15) 2); pad_char]
  else [].

Definition b2a_base64 (bs : list byte) (newline : bool) : string :=
  let '(cs, (lc, lb)) := b2a_loop bs 0 0 in
  string_of_list_ascii (cs ++ b2a_tail lc lb ++ (if newline then ["010"%char] else [])).

(** [base64.b64encode(data).decode("utf-8")]. *)
Definition b64encode (bs : list byte) : string := b2a_base64 bs false.

(** ** [a2b_base64], non-strict *)

(** The message of an input with one character too many; the count is
    [(bin_data - bin_data_start) / 3 * 4 + 1] where [decoded] bytes
    have been written. *)
Definition excess_data_msg (decoded : nat) : string :=
  "Invalid base64-encoded string: number of data characters (" +:+
  pretty (Z.of_nat decoded / 3 * 4 + 1) +:+ ") cannot be 1 more than a multiple of 4".

(** The loop over the input characters; [acc] holds the output bytes in
    reverse.  A complete padding ([goto done]) ends the decoding. *)
Fixpoint a2b_loop (cs : list ascii) (quad_pos leftchar pads : Z) (acc : list byte)
    : res (list byte) :=
  match cs with
  | [] =>
      if quad_pos =? 0 then Ok (rev acc)
      else if quad_pos =? 1 then
        raise (BinasciiError (excess_data_msg (length acc)))
      else raise (BinasciiError "Incorrect padding")
  | c :: cs' =>
      if Ascii.eqb c pad_char then
        if (2 <=? quad_pos) && (4 <=? quad_pos + (pads + 1)) then Ok (rev acc)
        else if 2 <=? quad_pos then a2b_loop cs' quad_pos leftchar (pads + 1) acc
        else a2b_loop cs' quad_pos leftchar pads acc
      else
        let v := table_a2b c in
        if 64 <=? v then a2b_loop cs' quad_pos leftchar pads acc
        else if quad_pos =? 0 then a2b_loop cs' 1 v 0 acc
        else if quad_pos =? 1 then
          a2b_loop cs' 2 (Z.land v 15)
            0 (byte_of_Z (Z.lor (Z.shiftl leftchar 2) (Z.shiftr v 4)) :: acc)
        else if quad_pos =? 2 then
          a2b_loop cs' 3 (Z.land v 3)
            0 (byte_of_Z (Z.lor (Z.shiftl leftchar 4) (Z.shiftr v 2)) :: acc)
        else
          a2b_loop cs' 0 0 0 (byte_of_Z (Z.lor (Z.shiftl leftchar 6) v) :: acc)
  end.

Definition a2b_base64 (s : string) : res (list byte) :=
  a2b_loop (list_ascii_of_string s) 0 0 0 [].

(** [base64.b64decode(s)] for a str [s]: only ASCII is accepted. *)
Definition b64decode (s : string) : res (list byte) :=
  if forallb (fun c => (N_of_ascii c <? 128)%N) (list_ascii_of_string s) then a2b_base64 s
  else raise (ValueError "string argument should contain only ASCII characters").

(** ** The reference encoder *)

(** The four sextets of the group [b0 b1 b2]. *)
Definition s0 (b0 : byte) : Z := Z.shiftr (u8 b0) 2.
Definition s1 (b0 b1 : byte) : Z := Z.lor (Z.shiftl (Z.land (u8 b0) 3) 4) (Z.shiftr (u8 b1) 4).
Definition s2 (b1 b2 : byte) : Z := Z.lor (Z.shiftl (Z.land (u8 b1) 15) 2) (Z.shiftr (u8 b2) 6).
Definition s3 (b2 : byte) : Z := Z.land (u8 b2) 63.

Definition sextets3 (b0 b1 b2 : byte) : list Z := [s0 b0; s1 b0 b1; s2 b1 b2; s3 b2].

Fixpoint b64_groups (bs : list byte) : list ascii :=
  match bs with
  | b0 :: b1 :: b2 :: rest => map table_b2a (sextets3 b0 b1 b2) ++ b64_groups rest
  | [b0; b1] => map table_b2a (firstn 3 (sextets3 b0 b1 Byte.x00)) ++ [pad_char]
  | [b0] => map table_b2a (firstn 2 (sextets3 b0 Byte.x00 Byte.x00)) ++ [pad_char; pad_char]
  | [] => []
  end.

(** ** Facts about every byte, checked by computation *)

Definition all_bytes : list byte := map (fun n => byte_of_Z (Z.of_nat n)) (seq 0 256).

Lemma byte_of_Z_u8 b : byte_of_Z (u8 b) = b.
Proof. destruct b; reflexivity. Qed.

Lemma u8_range b : 0 <= u8 b < 256.
Proof. unfold u8. pose proof (Byte.to_N_bounded b). lia. Qed.

Lemma all_bytes_complete b : In b all_bytes.
Proof.
  rewrite <- (byte_of_Z_u8 b). unfold all_bytes. pose proof (u8_range b) as H.
  rewrite <- (Z2Nat.id (u8 b)) by lia.
  apply (in_map (fun n => byte_of_Z (Z.of_nat n))), in_seq. lia.
Qed.

Lemma check_byte (P : byte -> bool) :
  forallb P all_bytes = true -> forall b, P b = true.
Proof. intros H b. eapply forallb_forall; [exact H|apply all_bytes_complete]. Qed.

Lemma check_bytes2 (P : byte -> byte -> bool) :
  forallb (fun x => forallb (P x) all_bytes) all_bytes = true -> forall b0 b1, P b0 b1 = true.
Proof. intros H b0 b1. by apply (check_byte (fun y => P b0 y)), (check_byte (fun x => forallb (P x) all_bytes)). Qed.

Definition sextet_ok (s : Z) : bool :=
  (0 <=? s) && (s <? 64) && (table_a2b (table_b2a s) =? s) &&
  negb (Ascii.eqb (table_b2a s) pad_char) && (N_of_ascii (table_b2a s) <? 128)%N.

(** Everything the decoder needs about one group, for each pair of
    adjacent bytes. *)
Definition pair_facts (x y : byte) : bool :=
  sextet_ok (s0 x) && sextet_ok (s1 x y) && sextet_ok (s2 x y) && sextet_ok (s3 y) &&
  Byte.eqb (byte_of_Z (Z.lor (Z.shiftl (s0 x) 2) (Z.shiftr (s1 x y) 4))) x &&
  (Z.land (s1 x y) 15 =? Z.shiftr (u8 y) 4) &&
  Byte.eqb (byte_of_Z (Z.lor (Z.shiftl (Z.shiftr (u8 x) 4) 4) (Z.shiftr (s2 x y) 2))) x &&
  (Z.land (s2 x y) 3 =? Z.shiftr (u8 y) 6) &&
  Byte.eqb (byte_of_Z (Z.lor (Z.shiftl (Z.shiftr (u8 y) 6) 6) (s3 y))) y.

Lemma pair_facts_all : forall x y, pair_facts x y = true.
Proof. apply check_bytes2. vm_compute. reflexivity. Qed.

(** What [sextet_ok] checks, as propositions. *)
Definition Sok (s : Z) : Prop :=
  0 <= s < 64 /\ table_a2b (table_b2a s) = s /\
  Ascii.eqb (table_b2a s) pad_char = false /\ (N_of_ascii (table_b2a s) < 128)%N.

Lemma sextet_ok_spec s : sextet_ok s = true -> Sok s.
Proof.
  unfold sextet_ok, Sok. intros H.
  repeat match goal with H : _ && _ = true |- _ => apply andb_prop in H as [? ?] end.
  repeat match goal with
         | H : (_ <=? _) = true |- _ => apply Z.leb_le in H
         | H : (_ <? _)%Z = true |- _ => apply Z.ltb_lt in H
         | H : (_ =? _)%Z = true |- _ => apply Z.eqb_eq in H
         | H : negb _ = true |- _ => apply negb_true_iff in H
         | H : (_ <? _)%N = true |- _ => apply N.ltb_lt in H
         end.
  repeat split; auto; lia.
Qed.

Lemma pair_facts_spec x y :
  Sok (s0 x) /\ Sok (s1 x y) /\ Sok (s2 x y) /\ Sok (s3 y) /\
  byte_of_Z (Z.lor (Z.shiftl (s0 x) 2) (Z.shiftr (s1 x y) 4)) = x /\
  Z.land (s1 x y) 15 = Z.shiftr (u8 y) 4 /\
  byte_of_Z (Z.lor (Z.shiftl (Z.shiftr (u8 x) 4) 4) (Z.shiftr (s2 x y) 2)) = x /\
  Z.land (s2 x y) 3 = Z.shiftr (u8 y) 6 /\
  byte_of_Z (Z.lor (Z.shiftl (Z.shiftr (u8 y) 6) 6) (s3 y)) = y.
Proof.
  pose proof (pair_facts_all x y) as H. unfold pair_facts in H.
  repeat match goal with H : _ && _ = true |- _ => apply andb_prop in H as [? ?] end.
  repeat match goal with
         | H : sextet_ok _ = true |- _ => apply sextet_ok_spec in H
         | H : Byte.eqb _ _ = true |- _ => apply Byte.byte_dec_bl in H
         | H : (_ =? _) = true |- _ => apply Z.eqb_eq in H
         end; tauto.
Qed.

(** ** Decoding *)

(** A character of the alphabet, read in any state. *)
Lemma a2b_char s rest qp lc pads acc :
  Sok s ->
  a2b_loop (table_b2a s :: rest) qp lc pads acc =
  if qp =? 0 then a2b_loop rest 1 s 0 acc
  else if qp =? 1 then
    a2b_loop rest 2 (Z.land s 15) 0 (byte_of_Z (Z.lor (Z.shiftl lc 2) (Z.shiftr s 4)) :: acc)
  else if qp =? 2 then
    a2b_loop rest 3 (Z.land s 3) 0 (byte_of_Z (Z.lor (Z.shiftl lc 4) (Z.shiftr s 2)) :: acc)
  else a2b_loop rest 0 0 0 (byte_of_Z (Z.lor (Z.shiftl lc 6) s) :: acc).
Proof.
  intros (Hr & Hv & Hp & _). simpl. rewrite Hp, Hv.
  by rewrite (proj2 (Z.leb_gt 64 s)) by lia.
Qed.

Lemma a2b_char0 s rest lc pads acc :
  Sok s -> a2b_loop (table_b2a s :: rest) 0 lc pads acc = a2b_loop rest 1 s 0 acc.
Proof. intros H. by rewrite a2b_char. Qed.

Lemma a2b_char1 s rest lc pads acc :
  Sok s -> a2b_loop (table_b2a s :: rest) 1 lc pads acc =
  a2b_loop rest 2 (Z.land s 15) 0 (byte_of_Z (Z.lor (Z.shiftl lc 2) (Z.shiftr s 4)) :: acc).
Proof. intros H. by rewrite a2b_char. Qed.

Lemma a2b_char2 s rest lc pads acc :
  Sok s -> a2b_loop (table_b2a s :: rest) 2 lc pads acc =
  a2b_loop rest 3 (Z.land s 3) 0 (byte_of_Z (Z.lor (Z.shiftl lc 4) (Z.shiftr s 2)) :: acc).
Proof. intros H. by rewrite a2b_char. Qed.

Lemma a2b_char3 s rest lc pads acc :
  Sok s -> a2b_loop (table_b2a s :: rest) 3 lc pads acc =
  a2b_loop rest 0 0 0 (byte_of_Z (Z.lor (Z.shiftl lc 6) s) :: acc).
Proof. intros H. by rewrite a2b_char. Qed.

(** One quad decodes to its three bytes and returns to the start state. *)
Lemma a2b_quad x y z rest lc pads acc :
  a2b_loop (map table_b2a (sextets3 x y z) ++ rest) 0 lc pads acc =
  a2b_loop rest 0 0 0 (z :: y :: x :: acc).
Proof.
  destruct (pair_facts_spec x y) as (Ha & Hb & _ & _ & Hx & Hl1 & _).
  destruct (pair_facts_spec y z) as (_ & _ & Hc & Hd & _ & _ & Hy & Hl2 & Hz).
  cbn [map app sextets3].
  rewrite a2b_char0, a2b_char1, a2b_char2, a2b_char3 by done.
  by rewrite Hx, Hl1, Hy, Hl2, Hz.
Qed.

Lemma a2b_pad rest qp lc pads acc :
  2 <= qp ->
  a2b_loop (pad_char :: rest) qp lc pads acc =
  if 4 <=? qp + (pads + 1) then Ok (rev acc) else a2b_loop rest qp lc (pads + 1) acc.
Proof.
  intros H. simpl. rewrite (proj2 (Z.leb_le 2 qp) H). simpl.
  by destruct (4 <=? qp + (pads + 1)).
Qed.

(** The padded last group of one byte, and of two bytes. *)
Lemma a2b_tail1 x lc pads acc :
  a2b_loop (map table_b2a (firstn 2 (sextets3 x Byte.x00 Byte.x00)) ++ [pad_char; pad_char])
    0 lc pads acc = Ok (rev (x :: acc)).
Proof.
  destruct (pair_facts_spec x Byte.x00) as (Ha & Hb & _ & _ & Hx & _).
  cbn [map app sextets3 firstn]. rewrite a2b_char0, a2b_char1 by done.
  rewrite Hx, !a2b_pad by lia. reflexivity.
Qed.

Lemma a2b_tail2 x y lc pads acc :
  a2b_loop (map table_b2a (firstn 3 (sextets3 x y Byte.x00)) ++ [pad_char]) 0 lc pads acc =
  Ok (rev (y :: x :: acc)).
Proof.
  destruct (pair_facts_spec x y) as (Ha & Hb & _ & _ & Hx & Hl1 & _).
  destruct (pair_facts_spec y Byte.x00) as (_ & _ & Hc & _ & _ & _ & Hy & _).
  cbn [map app sextets3 firstn]. rewrite a2b_char0, a2b_char1, a2b_char2 by done.
  rewrite Hx, Hl1, Hy, a2b_pad by lia. reflexivity.
Qed.

(** Decoding the groups of [bs] from the start state appends [bs]. *)
Lemma a2b_groups bs acc :
  a2b_loop (b64_groups bs) 0 0 0 acc = Ok (rev acc ++ bs).
Proof.
  revert acc. induction bs as [bs IH] using (induction_ltof1 _ (@length _)); intros acc.
  destruct bs as [|x [|y [|z rest]]].
  - simpl. by rewrite app_nil_r.
  - cbn [b64_groups]. rewrite a2b_tail1. simpl. by rewrite <- ?app_assoc.
  - cbn [b64_groups]. rewrite a2b_tail2. simpl. by rewrite <- ?app_assoc.
  - cbn [b64_groups]. rewrite a2b_quad, IH by (unfold ltof; simpl; lia).
    simpl. by rewrite <- ?app_assoc.
Qed.

(** Every character of an encoding is ASCII. *)
Lemma b64_groups_ascii bs :
  forallb (fun c => (N_of_ascii c <? 128)%N) (b64_groups bs) = true.
Proof.
  assert (forall s, Sok s -> (N_of_ascii (table_b2a s) <? 128)%N = true) as Hs.
  { intros s (_ & _ & _ & H). by apply N.ltb_lt. }
  induction bs as [bs IH] using (induction_ltof1 _ (@length _)).
  destruct bs as [|x [|y [|z rest]]]; [done| | |].
  - destruct (pair_facts_spec x Byte.x00) as (Ha & Hb & _).
    simpl. by rewrite !Hs by done.
  - destruct (pair_facts_spec x y) as (Ha & Hb & _). destruct (pair_facts_spec y Byte.x00) as (_ & _ & Hc & _).
    simpl. by rewrite !Hs by done.
  - destruct (pair_facts_spec x y) as (Ha & Hb & _). destruct (pair_facts_spec y z) as (_ & _ & Hc & Hd & _).
    cbn [b64_groups map sextets3 app forallb]. rewrite !Hs by done. simpl.
    apply IH. unfold ltof. simpl. lia.
Qed.

(** ** The bit buffer of [b2a_base64] *)

(** A sextet read at bit [k] depends only on the low [k + 6] bits. *)
Lemma sextet_low x k m :
  0 <= k -> k + 6 <= m ->
  Z.land (Z.shiftr x k) 63 = Z.land (Z.shiftr (x mod 2 ^ m) k) 63.
Proof.
  intros Hk Hm. change 63 with (Z.ones 6). apply Z.bits_inj'. intros i Hi.
  rewrite !Z.land_spec, !Z.shiftr_spec by lia.
  destruct (Z.ltb_spec i 6).
  - by rewrite Z.mod_pow2_bits_low by lia.
  - by rewrite Z.ones_spec_high, !andb_false_r by lia.
Qed.

(** Shifting a byte into the 32-bit buffer: the low [m] bits are the
    low [m - 8] bits of the old buffer followed by the byte. *)
Lemma buffer_shift L b m :
  0 <= b < 256 -> 8 <= m <= 32 ->
  Z.land (Z.lor (Z.shiftl L 8) b) (2 ^ 32 - 1) mod 2 ^ m = (L mod 2 ^ (m - 8)) * 256 + b.
Proof.
  intros Hb Hm.
  assert (Z.land (Z.shiftl (L mod 2 ^ (m - 8)) 8) b = 0) as Hd.
  { apply Z.bits_inj'. intros i Hi. rewrite Z.land_spec, Z.bits_0.
    destruct (Z.ltb_spec i 8).
    - by rewrite Z.shiftl_spec_low by lia.
    - rewrite <- (Z.mod_small b (2 ^ 8)) by lia.
      by rewrite (Z.mod_pow2_bits_high b 8 i), andb_false_r by lia. }
  change ((L mod 2 ^ (m - 8)) * 256) with ((L mod 2 ^ (m - 8)) * 2 ^ 8).
  rewrite <- Z.shiftl_mul_pow2 by lia.
  change (2 ^ 32 - 1) with (Z.ones 32). rewrite Z.add_nocarry_lor by exact Hd.
  rewrite Z.land_ones by lia. rewrite Z.mod_mod_divide; [|exists (2 ^ (32 - m)); rewrite <- Z.pow_add_r; f_equal; lia].
  apply Z.bits_inj'. intros i Hi.
  destruct (Z.ltb_spec i m).
  - rewrite Z.mod_pow2_bits_low, !Z.lor_spec by lia.
    destruct (Z.ltb_spec i 8).
    + by rewrite !Z.shiftl_spec_low by lia.
    + rewrite !Z.shiftl_spec by lia. by rewrite Z.mod_pow2_bits_low by lia.
  - rewrite Z.mod_pow2_bits_high, Z.lor_spec, Z.shiftl_spec by lia.
    rewrite Z.mod_pow2_bits_high by lia.
    rewrite <- (Z.mod_small b (2 ^ 8)) by lia. by rewrite Z.mod_pow2_bits_high by lia.
Qed.

(** What the encoder needs about each pair of adjacent bytes. *)
Definition enc_facts (x y : byte) : bool :=
  (Z.land (Z.shiftr (u8 x) 2) 63 =? s0 x) &&
  (Z.land (Z.shiftr ((u8 x mod 4) * 256 + u8 y) 4) 63 =? s1 x y) &&
  (Z.land (Z.shiftr ((u8 x mod 16) * 256 + u8 y) 6) 63 =? s2 x y) &&
  (Z.land (Z.shiftr ((u8 x mod 16) * 256 + u8 y) 0) 63 =? s3 y) &&
  (Z.shiftl (u8 x mod 4) 4 =? s1 x Byte.x00) &&
  (Z.shiftl (u8 x mod 16) 2 =? s2 x Byte.x00).

Lemma enc_facts_spec x y :
  Z.land (Z.shiftr (u8 x) 2) 63 = s0 x /\
  Z.land (Z.shiftr ((u8 x mod 4) * 256 + u8 y) 4) 63 = s1 x y /\
  Z.land (Z.shiftr ((u8 x mod 16) * 256 + u8 y) 6) 63 = s2 x y /\
  Z.land (Z.shiftr ((u8 x mod 16) * 256 + u8 y) 0) 63 = s3 y /\
  Z.shiftl (u8 x mod 4) 4 = s1 x Byte.x00 /\
  Z.shiftl (u8 x mod 16) 2 = s2 x Byte.x00.
Proof.
  pose proof (check_bytes2 enc_facts ltac:(vm_compute; reflexivity) x y) as H.
  unfold enc_facts in H.
  repeat match goal with H : _ && _ = true |- _ => apply andb_prop in H as [? ?] end.
  repeat match goal with H : (_ =? _) = true |- _ => apply Z.eqb_eq in H end. tauto.
Qed.

Lemma emit_8 lc :
  emit_sextets (S (Z.to_nat ((0 + 8) / 6))) lc (0 + 8) =
  ([table_b2a (Z.land (Z.shiftr lc 2) 63)], 2).
Proof. reflexivity. Qed.

Lemma emit_10 lc :
  emit_sextets (S (Z.to_nat ((2 + 8) / 6))) lc (2 + 8) =
  ([table_b2a (Z.land (Z.shiftr lc 4) 63)], 4).
Proof. reflexivity. Qed.

Lemma emit_12 lc :
  emit_sextets (S (Z.to_nat ((4 + 8) / 6))) lc (4 + 8) =
  ([table_b2a (Z.land (Z.shiftr lc 6) 63); table_b2a (Z.land (Z.shiftr lc 0) 63)], 0).
Proof. reflexivity. Qed.

(** The buffer after shifting in [b], read through its low [m] bits. *)
Lemma buffer_low L b m k :
  8 <= m <= 32 -> 0 <= k -> k + 6 <= m ->
  Z.land (Z.shiftr (Z.land (Z.lor (Z.shiftl L 8) (u8 b)) (2 ^ 32 - 1)) k) 63 =
  Z.land (Z.shiftr ((L mod 2 ^ (m - 8)) * 256 + u8 b) k) 63.
Proof.
  intros Hm Hk Hkm. rewrite (sextet_low _ k m) by lia.
  by rewrite buffer_shift by (pose proof (u8_range b); lia).
Qed.

(** The three buffer states between the bytes of a group: after the
    first byte two bits are pending, after the second four, after the
    third none. *)
Lemma b2a_step0 L x :
  exists lc, b2a_step L 0 x = ([table_b2a (s0 x)], (lc, 2)) /\ lc mod 4 = u8 x mod 4.
Proof.
  destruct (enc_facts_spec x x) as (H0 & _). pose proof (u8_range x).
  unfold b2a_step. rewrite emit_8, (buffer_low _ _ 8) by lia.
  rewrite Z.mod_1_r, Z.mul_0_l, Z.add_0_l, H0. eexists. split; [reflexivity|].
  change 4 with (2 ^ 2). rewrite <- (Z.mod_mod_divide _ (2 ^ 8)) by (exists 64; reflexivity).
  rewrite buffer_shift by lia. f_equal. rewrite Z.mod_1_r. lia.
Qed.

Lemma b2a_step2 L x y :
  L mod 4 = u8 x mod 4 ->
  exists lc, b2a_step L 2 y = ([table_b2a (s1 x y)], (lc, 4)) /\ lc mod 16 = u8 y mod 16.
Proof.
  intros HL. destruct (enc_facts_spec x y) as (_ & H1 & _). pose proof (u8_range y).
  unfold b2a_step. rewrite emit_10, (buffer_low _ _ 10) by lia.
  change (2 ^ (10 - 8)) with 4. rewrite HL, H1. eexists. split; [reflexivity|].
  change 16 with (2 ^ 4). rewrite <- (Z.mod_mod_divide _ (2 ^ 10)) by (exists 64; reflexivity).
  rewrite buffer_shift by lia. change (2 ^ (10 - 8)) with 4. change (2 ^ 4) with 16.
  rewrite HL, Z.add_comm, (Z.mul_comm _ 256).
  replace (256 * (u8 x mod 4)) with ((16 * (u8 x mod 4)) * 16) by ring.
  rewrite Z.mod_add by lia. reflexivity.
Qed.

Lemma b2a_step4 L y z :
  L mod 16 = u8 y mod 16 ->
  exists lc, b2a_step L 4 z = ([table_b2a (s2 y z); table_b2a (s3 z)], (lc, 0)).
Proof.
  intros HL. destruct (enc_facts_spec y z) as (_ & _ & H2 & H3 & _).
  unfold b2a_step. rewrite emit_12, !(buffer_low _ _ 12) by lia.
  change (2 ^ (12 - 8)) with 16. rewrite HL, H2, H3. eauto.
Qed.
(** The buffer loop followed by its padding is the group encoder. *)
Lemma b2a_loop_groups bs L :
  let '(cs, (lc, lb)) := b2a_loop bs L 0 in cs ++ b2a_tail lc lb = b64_groups bs.
Proof.
  revert L. induction bs as [bs IH] using (induction_ltof1 _ (@length _)); intros L.
  destruct bs as [|x [|y [|z rest]]]; [reflexivity| | |].
  - destruct (b2a_step0 L x) as (lc1 & Hs0 & Hm1).
    cbn [b2a_loop]. rewrite Hs0. cbn -[table_b2a s1].
    destruct (enc_facts_spec x x) as (_ & _ & _ & _ & H5 & _).
    change 3 with (Z.ones 2). rewrite Z.land_ones by lia. change (2 ^ 2) with 4.
    rewrite Hm1, H5. reflexivity.
  - destruct (b2a_step0 L x) as (lc1 & Hs0 & Hm1).
    destruct (b2a_step2 lc1 x y Hm1) as (lc2 & Hs2 & Hm2).
    cbn [b2a_loop]. rewrite Hs0. cbn -[table_b2a s1 b2a_step]. rewrite Hs2. cbn -[table_b2a s1 s2].
    destruct (enc_facts_spec y y) as (_ & _ & _ & _ & _ & H6).
    change 15 with (Z.ones 4). rewrite Z.land_ones by lia. change (2 ^ 4) with 16.
    rewrite Hm2, H6. reflexivity.
  - destruct (b2a_step0 L x) as (lc1 & Hs0 & Hm1).
    destruct (b2a_step2 lc1 x y Hm1) as (lc2 & Hs2 & Hm2).
    destruct (b2a_step4 lc2 y z Hm2) as (lc3 & Hs4).
    cbn [b2a_loop]. rewrite Hs0. cbn -[table_b2a s0 s1 b2a_step b2a_loop]. rewrite Hs2.
    cbn -[table_b2a s0 s1 s2 s3 b2a_step b2a_loop]. rewrite Hs4.
    cbn -[table_b2a s0 s1 s2 s3 b2a_step b2a_loop b2a_tail b64_groups].
    specialize (IH rest ltac:(unfold ltof; simpl; lia) lc3).
    destruct (b2a_loop rest lc3 0) as [cs [lc lb]]. rewrite <- IH. reflexivity.
Qed.

Lemma b64_groups_length bs : length (b64_groups bs) = (4 * ((length bs + 2) / 3))%nat.
Proof.
  induction bs as [bs IH] using (induction_ltof1 _ (@length _)).
  destruct bs as [|x [|y [|z rest]]]; [reflexivity..|].
  cbn [b64_groups]. rewrite length_app, IH by (unfold ltof; simpl; lia). simpl length.
  replace (S (S (S (length rest))) + 2)%nat with (length rest + 2 + 1 * 3)%nat by lia.
  rewrite Nat.div_add by lia. lia.
Qed.

Lemma b64encode_groups_eq bs : b64encode bs = string_of_list_ascii (b64_groups bs).
Proof.
  unfold b64encode, b2a_base64. pose proof (b2a_loop_groups bs 0) as H.
  destruct (b2a_loop bs 0 0) as [cs [lc lb]]. by rewrite app_nil_r, H.
Qed.

Lemma b64decode_b64encode bs : b64decode (b64encode bs) = Ok bs.
Proof.
  rewrite b64encode_groups_eq. unfold b64decode, a2b_base64.
  rewrite list_ascii_of_string_of_list_ascii, b64_groups_ascii. apply a2b_groups.
Qed.

(** CPython's bit-buffer loop [b2a_base64] (what [base64.b64encode]
    runs) computes the textbook encoding: each group of three bytes
    becomes four characters, a last group of one or two bytes is padded
    with [=]. *)
Theorem b64encode_groups bs : b64encode bs = string_of_list_ascii (b64_groups bs).
Proof. apply b64encode_groups_eq. Qed.

(** C12 *)
(** Round trip: [base64.b64decode(base64.b64encode(data))] gives back
    exactly [data], for every byte string. *)
Theorem b64_roundtrip bs : b64decode (b64encode bs) = Ok bs.
Proof. apply b64decode_b64encode. Qed.

(** The encoding of [n] bytes has [4 * ceil(n / 3)] characters. *)
Theorem b64encode_length bs :
  String.length (b64encode bs) = (4 * ((length bs + 2) / 3))%nat.
Proof.
  rewrite b64encode_groups_eq, <- b64_groups_length.
  generalize (b64_groups bs). clear. induction l; simpl; auto.
Qed.

Lemma emit_sextets_S f lc lb :
  emit_sextets (S f) lc lb =
  if 6 <=? lb then
    let '(cs, lb') := emit_sextets f lc (lb - 6) in
    (table_b2a (Z.land (Z.shiftr lc (lb - 6)) 63) :: cs, lb')
  else ([], lb).
Proof. reflexivity. Qed.

(** The inner [while] loop, by the number of sextets it emits. *)
Lemma emit_sextets_steps k lc lb f :
  0 <= lb -> Z.to_nat (lb / 6) = k -> (k < f)%nat ->
  emit_sextets f lc lb = emit_sextets (S k) lc lb /\
  snd (emit_sextets f lc lb) = lb mod 6 /\ length (fst (emit_sextets f lc lb)) = k.
Proof.
  revert lb f. induction k as [|k IH]; intros lb f Hlb Hk Hf; destruct f as [|f]; try lia.
  - assert (lb < 6).
    { destruct (Z.leb_spec 6 lb); [|done].
      assert (1 <= lb / 6) by (apply Z.div_le_lower_bound; lia). lia. }
    cbn [emit_sextets]. destruct (Z.leb_spec 6 lb); [lia|]. simpl.
    split_and!; [done|rewrite Z.mod_small; lia|done].
  - assert (6 <= lb).
    { destruct (Z.leb_spec 6 lb); [done|]. rewrite Z.div_small in Hk; [done|lia]. }
    assert (Hk' : Z.to_nat ((lb - 6) / 6) = k).
    { replace (lb - 6) with (lb + (-1) * 6) by lia. rewrite Z.div_add by lia. lia. }
    destruct (IH (lb - 6) f ltac:(lia) Hk' ltac:(lia)) as (Heq & Hs & Hl).
    destruct (IH (lb - 6) (S k) ltac:(lia) Hk' ltac:(lia)) as (_ & Hs' & Hl').
    rewrite !(emit_sextets_S _ lc lb). destruct (Z.leb_spec 6 lb); [|lia].
    rewrite Heq. destruct (emit_sextets (S k) lc (lb - 6)) as [cs r] eqn:E. simpl in *.
    split_and!; [done| |lia]. rewrite Hs'.
    replace lb with ((lb - 6) + 1 * 6) at 2 by lia. by rewrite Z.mod_add by lia.
Qed.

(** The inner [while (leftbits >= 6)] loop of [b2a_base64] terminates by
    its condition within the fuel [leftbits / 6 + 1] the model gives
    it: any more fuel gives the same result, the loop leaves
    [leftbits mod 6] bits in the buffer and emits [leftbits / 6]
    characters. *)
Theorem emit_sextets_terminates lc lb f :
  0 <= lb -> (Z.to_nat (lb / 6) < f)%nat ->
  emit_sextets f lc lb = emit_sextets (S (Z.to_nat (lb / 6))) lc lb /\
  snd (emit_sextets f lc lb) = lb mod 6 /\
  length (fst (emit_sextets f lc lb)) = Z.to_nat (lb / 6).
Proof. intros Hlb Hf. by apply emit_sextets_steps. Qed.

Lemma emit_sextets_terminates_witness :
  emit_sextets 10 0 14 = emit_sextets (S (Z.to_nat (14 / 6))) 0 14 /\
  snd (emit_sextets 10 0 14) = 14 mod 6 /\
  length (fst (emit_sextets 10 0 14)) = Z.to_nat (14 / 6).
Proof. apply emit_sextets_terminates; [lia|vm_compute; lia]. Defined.

(** ** [bytes(s, "utf-8")]

    The sources encode a str to UTF-8 before base64 ([client.py] lines
    103 and 369). *)

(** [bytes(s, "utf-8")] for a str whose code points are below 256. *)
Definition utf8_char (c : ascii) : list byte :=
  let n := Z.of_nat (nat_of_ascii c) in
  if (n <? 128)%Z then [byte_of_Z n]
  else [byte_of_Z (192 + n / 64); byte_of_Z (128 + n mod 64)].

Definition utf8_encode (s : string) : list byte :=
  flat_map utf8_char (list_ascii_of_string s).

Lemma utf8_char_ascii c : (nat_of_ascii c < 128)%nat -> utf8_char c = [Ascii.byte_of_ascii c].
Proof.
  destruct c as [[] [] [] [] [] [] [] []]; vm_compute; intros H; first [reflexivity | lia].
Qed.

Lemma utf8_encode_ascii s :
  Forall (fun c => nat_of_ascii c < 128)%nat (list_ascii_of_string s) ->
  utf8_encode s = map Ascii.byte_of_ascii (list_ascii_of_string s).
Proof.
  unfold utf8_encode. induction (list_ascii_of_string s) as [|c l IH]; [done|].
  intros [Hc Hl]%Forall_cons. simpl. rewrite utf8_char_ascii, IH by done. done.
Qed.

