(* ===== verification/Zip.v ===== *)
(** * The zip archive interface

    [run_import] writes a zip of the attached documents and the data file
    ([client.py] lines 335-345) and [ExportResult.from_suds] reads the
    zip of documents of an export ([result_classes.py] lines 84-86),
    both through Python's [zipfile].  The archive format is not
    modelled; what the two components rely on is the contract of
    [zipfile]: writing entries in order and reading the archive back
    lists the same entries, in the same order ([ZipFile.filelist]), and
    [ZipFile.read(name)] returns the data of the last entry with that
    name ([NameToInfo] keeps the last one).

    [ZipArchive] states that contract; [stored_archive] is one codec
    that satisfies it (an escaped concatenation of the entries), so the
    contract is consistent. *)

From S2P Require Import Prelude.

(** An archive entry: its name and its bytes. *)
Abbreviation entry := (string * list byte)%type (only parsing).

Class ZipArchive := {
  zip_write : list entry -> list byte;
  zip_read : list byte -> option (list entry);
  zip_read_write es : zip_read (zip_write es) = Some es
}.

(** [ZipFile.read(name)]: the data of the last entry named [name]. *)
Definition zip_member (es : list entry) (name : string) : option (list byte) :=
  fold_left (fun acc '(n, d) => if String.eqb n name then Some d else acc) es None.

(** ** A codec satisfying the contract *)

(** Every byte is written as [0x01 b]; [0x00] ends a field. *)
Fixpoint escape (bs : list byte) : list byte :=
  match bs with
  | [] => [Byte.x00]
  | b :: bs' => Byte.x01 :: b :: escape bs'
  end.

Fixpoint unescape (bs : list byte) : option (list byte * list byte) :=
  match bs with
  | Byte.x00 :: rest => Some ([], rest)
  | Byte.x01 :: b :: rest =>
      match unescape rest with Some (f, r) => Some (b :: f, r) | None => None end
  | _ => None
  end.

Definition name_bytes (s : string) : list byte := map Ascii.byte_of_ascii (list_ascii_of_string s).
Definition name_of_bytes (bs : list byte) : string :=
  string_of_list_ascii (map Ascii.ascii_of_byte bs).

Fixpoint stored_write (es : list entry) : list byte :=
  match es with
  | [] => []
  | (n, d) :: es' => Byte.x01 :: escape (name_bytes n) ++ escape d ++ stored_write es'
  end.

Fixpoint stored_read_fuel (fuel : nat) (bs : list byte) : option (list entry) :=
  match fuel, bs with
  | _, [] => Some []
  | S f, Byte.x01 :: rest =>
      match unescape rest with
      | Some (n, rest1) =>
          match unescape rest1 with
          | Some (d, rest2) =>
              match stored_read_fuel f rest2 with
              | Some es => Some ((name_of_bytes n, d) :: es)
              | None => None
              end
          | None => None
          end
      | None => None
      end
  | _, _ => None
  end.

(** One entry consumes at least one byte, so [length bs] is enough
    fuel. *)
Definition stored_read (bs : list byte) : option (list entry) :=
  stored_read_fuel (length bs) bs.

Lemma unescape_escape bs rest : unescape (escape bs ++ rest) = Some (bs, rest).
Proof. induction bs as [|b bs IH]; simpl; [done|]. by rewrite IH. Qed.

Lemma name_of_bytes_name s : name_of_bytes (name_bytes s) = s.
Proof.
  unfold name_of_bytes, name_bytes. rewrite map_map.
  rewrite (map_ext _ id) by apply Ascii.ascii_of_byte_of_ascii.
  by rewrite map_id, string_of_list_ascii_of_string.
Qed.

Lemma stored_read_fuel_write es fuel :
  length (stored_write es) <= fuel -> stored_read_fuel fuel (stored_write es) = Some es.
Proof.
  revert fuel. induction es as [|[n d] es IH]; intros fuel Hf; [by destruct fuel|].
  destruct fuel as [|fuel]; simpl in Hf; [lia|]. simpl.
  rewrite unescape_escape, unescape_escape, IH.
  - by rewrite name_of_bytes_name.
  - rewrite !length_app in Hf. lia.
Qed.

#[export] Instance stored_archive : ZipArchive.
Proof.
  refine {| zip_write := stored_write; zip_read := stored_read |}.
  intros es. apply stored_read_fuel_write. lia.
Defined.

(** ** [ZipFile.read] and the later-wins map *)

Lemma zip_member_acc es k acc :
  fold_left (fun acc '(n, d) => if String.eqb n k then Some d else acc) es acc =
  match zip_member es k with Some d => Some d | None => acc end.
Proof.
  unfold zip_member. revert acc. induction es as [|[n d] es IH]; intros acc; [done|]. simpl.
  rewrite (IH (if String.eqb n k then Some d else None)), IH.
  destruct (String.eqb n k); by destruct (fold_left _ es None).
Qed.

Lemma zip_member_cons n d es k :
  zip_member ((n, d) :: es) k =
  match zip_member es k with Some d' => Some d' | None => if String.eqb n k then Some d else None end.
Proof. unfold zip_member at 1. simpl. apply zip_member_acc. Qed.

Lemma zip_member_in es k : k ∈ map fst es -> is_Some (zip_member es k).
Proof.
  induction es as [|[n d] es IH]; simpl; [by intros ?%not_elem_of_nil|].
  rewrite zip_member_cons. intros [<-|Hk]%elem_of_cons.
  - rewrite String.eqb_refl. destruct (zip_member es k); eauto.
  - destruct (IH Hk) as [d' ->]. eauto.
Qed.

Lemma zip_member_notin es k : k ∉ map fst es -> zip_member es k = None.
Proof.
  induction es as [|[n d] es IH]; simpl; [done|].
  rewrite zip_member_cons. intros [Hne Hk]%not_elem_of_cons.
  rewrite IH by done. destruct (String.eqb_spec n k); congruence.
Qed.
