(* ===== verification/Json.v ===== *)
(** * The decoded JSON of the token endpoint

    [ClientCredential.retrieve_token] ([client.py] lines 114-134) decodes
    the reply of the token endpoint with [json.loads] and probes it with
    [in], subscripts it, and formats parts of it into an exception
    message.  [json] is the value [json.loads] returns, without floats: a
    number with a fraction or an exponent is not modelled.  An object
    keeps its members in the order of the text; [dict] keeps the value
    of the last member with a given key at the position of the first.

    [json_in], [json_getitem] and [json_str] are Python's [in],
    [x[k]] and [str(x)] on those values, [str] of a container being its
    [repr], with CPython's quoting of strings. *)

From stdpp Require Import pretty.
From S2P Require Import Prelude PyStr.

#[local] Set Warnings "-register-all".
Inductive json :=
  | JNull
  | JBool (b : bool)
  | JInt (z : Z)
  | JStr (s : string)
  | JArr (l : list json)
  | JObj (fs : list (string * json)).

(** [d[k]] for the dict of an object: the last member named [k]. *)
Definition json_lookup (k : string) (fs : list (string * json)) : option json :=
  fold_left (fun acc '(k', v) => if String.eqb k' k then Some v else acc) fs None.

(** [k in x] for a str [k]: a key of a dict, an item of a list, a
    substring of a str; other values are not containers. *)
Definition json_in (k : string) (x : json) : res bool :=
  match x with
  | JObj fs => Ok (existsb (fun '(k', _) => String.eqb k' k) fs)
  | JArr l => Ok (existsb (fun v => match v with JStr s => String.eqb s k | _ => false end) l)
  | JStr s => Ok (str_contains k s)
  | _ => raise TypeError
  end.

(** [x[k]] for a str [k]: [KeyError(k)] for a missing key; a list or a
    str needs an integer index. *)
Definition json_getitem (x : json) (k : string) : res json :=
  match x with
  | JObj fs => of_option (KeyError k) (json_lookup k fs)
  | _ => raise TypeError
  end.

(** ** [repr] and [str] *)

Definition backslash : ascii := "\"%char.
Definition dquote : ascii := ascii_of_nat 34.
Definition squote : ascii := "'"%char.

Definition hex_digit (n : nat) : ascii :=
  if (n <? 10)%nat then ascii_of_nat (48 + n) else ascii_of_nat (87 + n).

(** CPython's [repr] of one character of a str whose code point is
    below 256, quoted with [q]: [Py_UNICODE_ISPRINTABLE] is false below
    0x20, from 0x7f to 0xa0, and at 0xad. *)
Definition repr_char (q c : ascii) : string :=
  let n := nat_of_ascii c in
  if Ascii.eqb c q || Ascii.eqb c backslash then String backslash (String c EmptyString)
  else if (n =? 9)%nat then "\t"
  else if (n =? 10)%nat then "\n"
  else if (n =? 13)%nat then "\r"
  else if (n <? 32)%nat || ((127 <=? n)%nat && (n <=? 160)%nat) || (n =? 173)%nat then
    String backslash (String "x"%char (String (hex_digit (n / 16)) (String (hex_digit (n mod 16)) EmptyString)))
  else String c EmptyString.

(** [repr(s)]: single quotes, unless [s] has a single quote and no
    double quote. *)
Definition py_repr_str (s : string) : string :=
  let cs := list_ascii_of_string s in
  let q := if existsb (Ascii.eqb squote) cs && negb (existsb (Ascii.eqb dquote) cs)
           then dquote else squote in
  String q (List.fold_right (fun c acc => repr_char q c +:+ acc) (String q EmptyString) cs).

Fixpoint join (sep : string) (l : list string) : string :=
  match l with
  | [] => ""
  | [s] => s
  | s :: l' => s +:+ sep +:+ join sep l'
  end.

(** The members of [dict(pairs)]: the first position of each key, the
    last value. *)
Definition dict_members {A} (fs : list (string * A)) : list (string * A) :=
  fold_left (fun acc '(k, v) =>
               if existsb (fun '(k', _) => String.eqb k' k) acc
               then map (fun '(k', v') => if String.eqb k' k then (k', v) else (k', v')) acc
               else acc ++ [(k, v)]) fs [].

Fixpoint json_repr (x : json) : string :=
  match x with
  | JNull => "None"
  | JBool b => if b then "True" else "False"
  | JInt z => pretty z
  | JStr s => py_repr_str s
  | JArr l => "[" +:+ join ", " (map json_repr l) +:+ "]"
  | JObj fs =>
      "{" +:+ join ", " (map (fun '(k, r) => py_repr_str k +:+ ": " +:+ r)
                             (dict_members (map (fun '(k, v) => (k, json_repr v)) fs))) +:+ "}"
  end.

(** [str(x)], which an f-string inserts: a str itself, anything else its
    [repr]. *)
Definition json_str (x : json) : string :=
  match x with
  | JStr s => s
  | _ => json_repr x
  end.

(** ** Lemmas *)

Lemma json_lookup_acc k fs acc :
  fold_left (fun acc '(k', v) => if String.eqb k' k then Some v else acc) fs acc =
  match json_lookup k fs with Some v => Some v | None => acc end.
Proof.
  unfold json_lookup. revert acc. induction fs as [|[k' v] fs IH]; intros acc; [done|]. simpl.
  rewrite (IH (if String.eqb k' k then Some v else None)), IH.
  destruct (String.eqb k' k); by destruct (fold_left _ fs None).
Qed.

Lemma json_lookup_cons k k' v fs :
  json_lookup k ((k', v) :: fs) =
  match json_lookup k fs with Some w => Some w | None => if String.eqb k' k then Some v else None end.
Proof. unfold json_lookup at 1. simpl. apply json_lookup_acc. Qed.

Lemma json_lookup_notin k fs : k ∉ map fst fs -> json_lookup k fs = None.
Proof.
  induction fs as [|[k' v] fs IH]; [done|]. simpl.
  intros [Hne Hk]%not_elem_of_cons. rewrite json_lookup_cons, IH by done.
  destruct (String.eqb_spec k' k); congruence.
Qed.

Lemma json_lookup_app_last k v fs fs' :
  k ∉ map fst fs' -> json_lookup k (fs ++ (k, v) :: fs') = Some v.
Proof.
  intros Hk. unfold json_lookup. rewrite fold_left_app. simpl. rewrite String.eqb_refl.
  rewrite json_lookup_acc. by rewrite json_lookup_notin.
Qed.

Lemma json_in_obj k fs :
  json_in k (JObj fs) = Ok (bool_decide (k ∈ map fst fs)).
Proof.
  simpl. f_equal. induction fs as [|[k' v] fs IH]; simpl; [done|].
  rewrite IH. destruct (String.eqb_spec k' k) as [->|Hne]; simpl.
  - rewrite bool_decide_true; [done|by left].
  - apply bool_decide_ext. rewrite elem_of_cons. naive_solver.
Qed.

Lemma json_lookup_in k fs v : json_lookup k fs = Some v -> k ∈ map fst fs.
Proof.
  intros Hl. destruct (decide (k ∈ map fst fs)) as [|Hn]; [done|].
  by rewrite json_lookup_notin in Hl.
Qed.

