(* ===== verification/Xml.v ===== *)
(** * suds XML elements

    [run_import] builds the data of an import as a suds [Element] tree
    ([client.py] lines 301-308) and sends [Document(root).str()];
    [AddParametersPlugin.marshalled] edits the SOAP envelope, an
    [Element] tree, in place (lines 151-185).  This file holds the part
    of [suds.sax] those lines use:
    - [element]: a prefix, a local name, the declared namespace
      prefixes, the attributes in order, an optional text and the
      children in order;
    - [Element.set] (replace the value of the first attribute
      [getAttribute] finds, or append a new one), [Element.append], [getChild] (the first
      child of that local name), [Element.__getitem__] with an int (the
      child at that index, or [None]), [findPrefix] along the chain of
      parents;
    - [Element.str] and [Document.str]: the declaration, three spaces of
      indentation per level, [/>] for an element without children and
      text, and attribute values escaped by [suds.sax.enc.Encoder],
      whose [&] rule leaves an existing [&amp;], [&lt;], [&gt;],
      [&quot;] or [&apos;] alone.

    [getAttribute(name)] splits [name] at its first colon
    ([splitPrefix]) and finds the first attribute with the same local
    name and, when [name] has a prefix, the same namespace URI, a
    prefix resolving to the declared namespace, to the special [xml]
    namespace, or to [Namespace.default] whose URI is [None].  The
    prefixes are resolved on the element itself: the elements the
    sources call [set] on ([Row], [Parameter]) and their parents
    declare none. *)

From S2P Require Import Prelude PyStr PyTime PyFormat.

#[local] Set Warnings "-register-all".
Inductive element := mkElement {
  el_prefix : option string;
  el_name : string;
  el_nsprefixes : list (string * string);
  el_attrs : list (string * string);
  el_text : option string;
  el_children : list element
}.

(** [Element(name)] for a name without a prefix. *)
Definition new_element (name : string) : element := mkElement None name [] [] None [].

Definition xml_ns : string := "http://www.w3.org/XML/1998/namespace".

(** The text before the first colon and the text after it. *)
Fixpoint split_at_colon (s : string) : option (string * string) :=
  match s with
  | EmptyString => None
  | String c s' =>
      if Ascii.eqb c ":" then Some ("", s')
      else match split_at_colon s' with Some (p, l) => Some (String c p, l) | None => None end
  end.

(** [splitPrefix(name)]: the prefix, if any, and the local name. *)
Definition split_prefix (name : string) : option string * string :=
  match split_at_colon name with Some (p, l) => (Some p, l) | None => (None, name) end.

(** [e.resolvePrefix(prefix)[1]]: the URI of a declared prefix, of the
    special [xml] prefix, or [None] for [Namespace.default]. *)
Definition resolve_uri (e : element) (p : string) : option string :=
  match List.find (fun '(q, _) => String.eqb q p) (el_nsprefixes e) with
  | Some (_, u) => Some u
  | None => if String.eqb p "xml" then Some xml_ns else None
  end.

(** [Attribute.namespace()[1]] of the attribute named [qn] of [e]. *)
Definition attr_uri (e : element) (qn : string) : option string :=
  match split_prefix qn with (Some p, _) => resolve_uri e p | (None, _) => None end.

(** [a.match(name, ns)] in [e.getAttribute(name)], for the attribute [a]
    named [qn]. *)
Definition attr_matches (e : element) (name qn : string) : bool :=
  let '(p, local) := split_prefix name in
  String.eqb (snd (split_prefix qn)) local &&
  match p with
  | None => true
  | Some p => bool_decide (attr_uri e qn = resolve_uri e p)
  end.

(** [Element.set(name, value)] on the attributes of [e]: the first
    attribute [getAttribute(name)] finds keeps its name and takes the
    value; without one, [Attribute(name, value)] is appended. *)
Fixpoint attrs_set (e : element) (name value : string) (attrs : list (string * string))
    : list (string * string) :=
  match attrs with
  | [] => [(name, value)]
  | (n, v) :: attrs' =>
      if attr_matches e name n then (n, value) :: attrs' else (n, v) :: attrs_set e name value attrs'
  end.

Definition el_set (name value : string) (e : element) : element :=
  mkElement (el_prefix e) (el_name e) (el_nsprefixes e) (attrs_set e name value (el_attrs e))
    (el_text e) (el_children e).

(** [Element.append(child)] for an element. *)
Definition el_append (child e : element) : element :=
  mkElement (el_prefix e) (el_name e) (el_nsprefixes e) (el_attrs e) (el_text e)
    (el_children e ++ [child]).

Definition el_setPrefix (p : option string) (e : element) : element :=
  mkElement p (el_name e) (el_nsprefixes e) (el_attrs e) (el_text e) (el_children e).

(** [getChild(name)]: the first child of that local name, or [None]. *)
Definition getChild (name : string) (e : element) : option element :=
  List.find (fun c => String.eqb (el_name c) name) (el_children e).

(** [e[i]]: the child at index [i], or [None]. *)
Definition el_index (i : nat) (e : element) : option element := el_children e !! i.

(** In-place change of the first child named [name]. *)
Fixpoint modify_first (name : string) (f : element -> element) (cs : list element) : list element :=
  match cs with
  | [] => []
  | c :: cs' => if String.eqb (el_name c) name then f c :: cs' else c :: modify_first name f cs'
  end.

Definition modify_child (name : string) (f : element -> element) (e : element) : element :=
  mkElement (el_prefix e) (el_name e) (el_nsprefixes e) (el_attrs e) (el_text e)
    (modify_first name f (el_children e)).

(** In-place change of the child at index [i]. *)
Definition modify_index (i : nat) (f : element -> element) (e : element) : element :=
  mkElement (el_prefix e) (el_name e) (el_nsprefixes e) (el_attrs e) (el_text e)
    (alter f i (el_children e)).

(** [findPrefix(uri)] on the first element of [chain], whose later
    elements are its parents; [xml] is the special prefix. *)

Fixpoint find_prefix (chain : list element) (uri : string) : option string :=
  match chain with
  | [] => None
  | e :: parents =>
      match List.find (fun '(_, u) => String.eqb u uri) (el_nsprefixes e) with
      | Some (p, _) => Some p
      | None => if String.eqb uri xml_ns then Some "xml" else find_prefix parents uri
      end
  end.

(** ** Rendering *)

(** The entities the [&] rule of [Encoder] leaves alone. *)
Definition entity_names : list string := ["amp;"; "lt;"; "gt;"; "quot;"; "apos;"].

Definition starts_entity (s : string) : bool :=
  existsb (fun n => String.prefix n s) entity_names.

(** [Encoder.encode]: the [&] rule, then [<], [>], the double quote and
    the single quote. *)
Fixpoint xml_escape (s : string) : string :=
  match s with
  | EmptyString => EmptyString
  | String c s' =>
      let rest := xml_escape s' in
      match nat_of_ascii c with
      | 38 => if starts_entity s' then String c rest else "&amp;" +:+ rest
      | 60 => "&lt;" +:+ rest
      | 62 => "&gt;" +:+ rest
      | 34 => "&quot;" +:+ rest
      | 39 => "&apos;" +:+ rest
      | _ => String c rest
      end
  end.

Definition qname (e : element) : string :=
  match el_prefix e with Some p => p +:+ ":" +:+ el_name e | None => el_name e end.

Definition attr_str '((n, v) : string * string) : string :=
  " " +:+ n +:+ "=" +:+ String (ascii_of_nat 34) (xml_escape v +:+ String (ascii_of_nat 34) EmptyString).

(** [Element.str(indent)]. *)
Fixpoint element_str (indent : nat) (e : element) : string :=
  let tab := spaces (3 * indent) in
  let open_tag := tab +:+ "<" +:+ qname e +:+ String.concat "" (map attr_str (el_attrs e)) in
  match el_children e, el_text e with
  | [], None => open_tag +:+ "/>"
  | cs, t =>
      open_tag +:+ ">" +:+ match t with Some s => xml_escape s | None => "" end +:+
      String.concat "" (map (fun c => String (ascii_of_nat 10) (element_str (S indent) c)) cs) +:+
      (if bool_decide (cs = []) then "" else String (ascii_of_nat 10) tab) +:+
      "</" +:+ qname e +:+ ">"
  end.

Definition xml_decl : string :=
  "<?xml version=" +:+ String (ascii_of_nat 34) "1.0" +:+ String (ascii_of_nat 34) " encoding=" +:+
  String (ascii_of_nat 34) "UTF-8" +:+ String (ascii_of_nat 34) "?>".

(** [Document(root).str()]. *)
Definition document_str (root : element) : string :=
  xml_decl +:+ String (ascii_of_nat 10) (element_str 0 root).

(** ** Decoding attribute values *)

(** The five predefined entities of XML and their characters. *)
Definition entities : list (string * ascii) :=
  [("amp;", "&"%char); ("lt;", "<"%char); ("gt;", ">"%char);
   ("quot;", ascii_of_nat 34); ("apos;", "'"%char)].

(** The replacement of the predefined entities, the last step of an XML
    parser's reading of an attribute value (the first, attribute-value
    normalisation, is [XmlRead.normalize_ws]); [fuel] bounds the number
    of characters. *)
Fixpoint xml_unescape_fuel (fuel : nat) (s : string) : string :=
  match fuel with
  | O => s
  | S f =>
      match s with
      | EmptyString => EmptyString
      | String c s' =>
          if Ascii.eqb c "&"%char then
            match List.find (fun '(n, _) => String.prefix n s') entities with
            | Some (n, ch) => String ch (xml_unescape_fuel f (substring (String.length n)
                                                                (String.length s') s'))
            | None => String c (xml_unescape_fuel f s')
            end
          else String c (xml_unescape_fuel f s')
      end
  end.

Definition xml_unescape (s : string) : string := xml_unescape_fuel (String.length s) s.

(** [s] holds no colon. *)
Definition no_colon (s : string) : bool :=
  forallb (fun c => negb (Ascii.eqb c ":")) (list_ascii_of_string s).

(** No [&] of [s] is followed by the name of an entity. *)
Fixpoint no_entity_ref (s : string) : bool :=
  match s with
  | EmptyString => true
  | String c s' => (negb (Ascii.eqb c "&"%char) || negb (starts_entity s')) && no_entity_ref s'
  end.

(** ** Lemmas *)

Lemma split_at_colon_none s : no_colon s = true -> split_at_colon s = None.
Proof.
  induction s as [|c s IH]; [done|]. unfold no_colon. simpl. intros [Hc Hs]%andb_prop.
  apply negb_true_iff in Hc. rewrite Hc, IH by done. done.
Qed.

Lemma split_prefix_plain s : no_colon s = true -> split_prefix s = (None, s).
Proof. intros Hs. unfold split_prefix. by rewrite split_at_colon_none. Qed.

(** Between names without a colon, [getAttribute] compares whole names. *)
Lemma attr_matches_plain e name qn :
  no_colon name = true -> no_colon qn = true -> attr_matches e name qn = String.eqb qn name.
Proof.
  intros Hn Hq. unfold attr_matches. rewrite ?(split_prefix_plain name), ?(split_prefix_plain qn) by done.
  simpl. first [apply andb_true_r|reflexivity].
Qed.

Lemma attrs_set_notin e name value attrs :
  no_colon name = true -> Forall (fun n => no_colon n = true) (map fst attrs) ->
  name ∉ map fst attrs -> attrs_set e name value attrs = attrs ++ [(name, value)].
Proof.
  intros Hname. induction attrs as [|[n v] attrs IH]; [done|]. simpl.
  intros [Hcn Hc]%Forall_cons [Hne Hn]%not_elem_of_cons. rewrite IH by done.
  rewrite attr_matches_plain by done. by destruct (String.eqb_spec n name); [congruence|].
Qed.

Lemma el_set_fold row e :
  NoDup (map fst (el_attrs e ++ row)) -> Forall (fun n => no_colon n = true) (map fst (el_attrs e ++ row)) ->
  fold_left (fun r '(k, v) => el_set k v r) row e =
  mkElement (el_prefix e) (el_name e) (el_nsprefixes e) (el_attrs e ++ row) (el_text e) (el_children e).
Proof.
  revert e. induction row as [|[k v] row IH]; intros e Hnd Hc; simpl.
  - rewrite app_nil_r. by destruct e.
  - assert (Hs : attrs_set e k v (el_attrs e) = el_attrs e ++ [(k, v)]).
    { rewrite map_app, NoDup_app in Hnd. destruct Hnd as (_ & Hd & _).
      rewrite map_app, Forall_app in Hc. destruct Hc as [Hca Hcr].
      apply Forall_cons in Hcr as [Hk _].
      apply attrs_set_notin; [done|done|]. intros Hin. apply (Hd k Hin). by left. }
    rewrite IH; unfold el_set; simpl; rewrite Hs, <- ?app_assoc; done.
Qed.

Lemma el_append_fold {A} (f : A -> element) l e :
  fold_left (fun root x => el_append (f x) root) l e =
  mkElement (el_prefix e) (el_name e) (el_nsprefixes e) (el_attrs e) (el_text e)
    (el_children e ++ map f l).
Proof.
  revert e. induction l as [|x l IH]; intros e; simpl.
  - rewrite app_nil_r. by destruct e.
  - rewrite IH. simpl. by rewrite <- app_assoc.
Qed.

Lemma substring_app n s k : substring (String.length n) k (n +:+ s) = substring 0 k s.
Proof. by induction n. Qed.

Lemma substring_whole s k : (String.length s <= k)%nat -> substring 0 k s = s.
Proof.
  revert k. induction s as [|c s IH]; intros [|k] Hk; simpl in *; try done; [lia|].
  rewrite IH; [done|lia].
Qed.

(** One entity, decoded. *)
Lemma unescape_entity f n ch rest :
  List.find (fun '(n', _) => String.prefix n' (n +:+ rest)) entities = Some (n, ch) ->
  xml_unescape_fuel (S f) (String "&"%char n +:+ rest) = String ch (xml_unescape_fuel f rest).
Proof.
  intros Hf. change (String "&"%char n +:+ rest) with (String "&"%char (n +:+ rest)).
  cbn [xml_unescape_fuel]. rewrite Hf. simpl.
  rewrite substring_app, substring_whole by (rewrite str_length_app; lia). done.
Qed.

Lemma xml_unescape_escape v f :
  no_entity_ref v = true -> (String.length v <= f)%nat -> xml_unescape_fuel f (xml_escape v) = v.
Proof.
  revert f. induction v as [|c v IH]; intros f Hn Hf; [by destruct f|].
  destruct f as [|f]; [simpl in Hf; lia|]. simpl in Hn, Hf. apply andb_prop in Hn as [Hc Hn].
  specialize (IH f Hn ltac:(lia)).
  destruct c as [[] [] [] [] [] [] [] []]; cbn [xml_escape] in *;
    match goal with |- context [nat_of_ascii ?c] =>
      let n := eval vm_compute in (nat_of_ascii c) in change (nat_of_ascii c) with n end;
    cbv iota; simpl in Hc; try (apply negb_true_iff in Hc; rewrite Hc);
    first [ erewrite unescape_entity by (unfold "+:+"; simpl; by rewrite str_prefix_nil); by rewrite IH
          | simpl; by rewrite IH ].
Qed.

Lemma xml_escape_length v : (String.length v <= String.length (xml_escape v))%nat.
Proof.
  induction v as [|c v IH]; [done|].
  destruct c as [[] [] [] [] [] [] [] []]; cbn [xml_escape];
    match goal with |- context [nat_of_ascii ?c] =>
      let n := eval vm_compute in (nat_of_ascii c) in change (nat_of_ascii c) with n end;
    cbv iota; try destruct (starts_entity v); rewrite ?str_length_app; simpl; lia.
Qed.

(** [Encoder]'s [&] rule leaves [&amp;] as it is, so a value holding
    the text [&amp;] is read back as [&]. *)
Lemma xml_escape_entity_kept : xml_unescape (xml_escape "a&amp;b") = "a&b".
Proof. reflexivity. Qed.


