(* ===== verification/PosixPath.v ===== *)
(** * posixpath: the path functions [run_import] calls

    [run_import] takes the extension of the data file with
    [os.path.splitext] (line 312), the base name of [file_name] with
    [os.path.split] and [os.path.splitext] (line 326), the archive names
    with [os.path.join] and [os.path.split] (lines 332, 338, 345), and
    [zipfile] normalises an archive name with [os.path.normpath]
    ([ZipInfo.from_file]).  These are CPython's [posixpath] functions,
    over a str as a list of characters. *)

From S2P Require Import Prelude.

Definition slash : ascii := "/".
Definition dot : ascii := ".".

(** [cs.rfind(c)], or [None] for [-1]. *)
Fixpoint last_index (c : ascii) (cs : list ascii) : option nat :=
  match cs with
  | [] => None
  | x :: cs' =>
      match last_index c cs' with
      | Some i => Some (S i)
      | None => if Ascii.eqb x c then Some 0 else None
      end
  end.

Fixpoint lstrip (c : ascii) (cs : list ascii) : list ascii :=
  match cs with
  | x :: cs' => if Ascii.eqb x c then lstrip c cs' else cs
  | [] => []
  end.

Definition rstrip (c : ascii) (cs : list ascii) : list ascii := rev (lstrip c (rev cs)).

(** The index just after the last [/], [sepIndex + 1]. *)
Definition name_start (cs : list ascii) : nat :=
  match last_index slash cs with Some k => S k | None => 0 end.

(** [posixpath.split(p)]. *)
Definition path_split (p : string) : string * string :=
  let cs := list_ascii_of_string p in
  let i := name_start cs in
  let head := take i cs in
  let head := if negb (bool_decide (head = [])) && negb (forallb (Ascii.eqb slash) head)
              then rstrip slash head else head in
  (string_of_list_ascii head, string_of_list_ascii (drop i cs)).

(** [genericpath._splitext(p, '/', None, '.')]: split at the last dot
    of the last component, unless the component is only dots up to it. *)
Definition path_splitext (p : string) : string * string :=
  let cs := list_ascii_of_string p in
  match last_index dot cs with
  | Some d =>
      let s := name_start cs in
      if (s <=? d)%nat && existsb (fun x => negb (Ascii.eqb x dot)) (take (d - s) (drop s cs))
      then (string_of_list_ascii (take d cs), string_of_list_ascii (drop d cs))
      else (p, "")
  | None => (p, "")
  end.

(** [posixpath.join(a, b)]. *)
Definition path_join (a b : string) : string :=
  if String.prefix "/" b then b
  else if String.eqb a "" || (match last_index slash (list_ascii_of_string a) with
                               | Some i => (S i =? String.length a)%nat
                               | None => false
                               end)
  then a +:+ b
  else a +:+ "/" +:+ b.

(** [p.split('/')]. *)
Fixpoint split_slash (cs : list ascii) : list (list ascii) :=
  match cs with
  | [] => [[]]
  | c :: cs' =>
      let rest := split_slash cs' in
      if Ascii.eqb c slash then [] :: rest
      else match rest with
           | w :: ws => (c :: w) :: ws
           | [] => [[c]]
           end
  end.

Fixpoint join_slash (ws : list (list ascii)) : list ascii :=
  match ws with
  | [] => []
  | [w] => w
  | w :: ws' => w ++ slash :: join_slash ws'
  end.

(** The component loop of [normpath]; [new] is [new_comps] reversed. *)
Definition normpath_step (initial : bool) (new : list (list ascii)) (comp : list ascii)
    : list (list ascii) :=
  if bool_decide (comp = []) || bool_decide (comp = [dot]) then new
  else if negb (bool_decide (comp = [dot; dot])) || (negb initial && bool_decide (new = []))
          || (match new with w :: _ => bool_decide (w = [dot; dot]) | [] => false end)
  then comp :: new
  else match new with _ :: new' => new' | [] => [] end.

(** [posixpath.normpath(p)]. *)
Definition normpath (p : string) : string :=
  let cs := list_ascii_of_string p in
  match cs with
  | [] => "."
  | _ =>
      let initial_slashes : nat :=
        match cs with
        | "/"%char :: "/"%char :: "/"%char :: _ => 1
        | "/"%char :: "/"%char :: _ => 2
        | "/"%char :: _ => 1
        | _ => 0
        end in
      let comps := rev (fold_left (normpath_step (bool_decide (initial_slashes <> 0)))
                                  (split_slash cs) []) in
      let path := repeat slash initial_slashes ++ join_slash comps in
      match path with [] => "." | _ => string_of_list_ascii path end
  end.

(** A file name that [normpath] leaves alone: no [/], no NUL, and not
    empty, [.] or [..]. *)
Definition ordinary_name (b : string) : bool :=
  let cs := list_ascii_of_string b in
  forallb (fun c => negb (Ascii.eqb c slash) && negb (Ascii.eqb c Ascii.zero)) cs &&
  negb (bool_decide (cs = [])) && negb (bool_decide (cs = [dot])) &&
  negb (bool_decide (cs = [dot; dot])).

(** ** Lemmas *)

Lemma split_slash_free cs :
  forallb (fun c => negb (Ascii.eqb c slash)) cs = true -> split_slash cs = [cs].
Proof.
  induction cs as [|c cs IH]; [done|]. simpl. intros [Hc Hcs]%andb_prop.
  apply negb_true_iff in Hc. rewrite Hc, IH by done. done.
Qed.

Lemma ordinary_name_parts b :
  ordinary_name b = true ->
  forallb (fun c => negb (Ascii.eqb c slash)) (list_ascii_of_string b) = true /\
  list_ascii_of_string b <> [] /\ list_ascii_of_string b <> [dot] /\
  list_ascii_of_string b <> [dot; dot].
Proof.
  unfold ordinary_name. intros H.
  repeat match goal with H : _ && _ = true |- _ => apply andb_prop in H as [? ?] end.
  repeat match goal with H : negb (bool_decide _) = true |- _ =>
    apply negb_true_iff, bool_decide_eq_false in H end.
  split_and!; try done.
  apply forallb_forall. intros c Hc.
  match goal with H : forallb _ _ = true |- _ =>
    eapply forallb_forall in H; [|exact Hc]; by apply andb_prop in H as [? _] end.
Qed.

(** [os.path.join("Documents", b)] for a name without [/]. *)
Lemma path_join_documents b :
  ordinary_name b = true -> path_join "Documents" b = "Documents/" +:+ b.
Proof.
  intros (Hs & Hne & _)%ordinary_name_parts. unfold path_join.
  destruct b as [|c b]; [done|]. simpl in Hs. apply andb_prop in Hs as [Hc _].
  apply negb_true_iff in Hc.
  assert (Hp : String.prefix "/" (String c b) = false).
  { cbn [String.prefix]. destruct (ascii_dec "/" c) as [<-|]; [vm_compute in Hc; discriminate|reflexivity]. }
  rewrite Hp. reflexivity.
Qed.

Lemma normpath_documents b :
  ordinary_name b = true -> normpath ("Documents/" +:+ b) = "Documents/" +:+ b.
Proof.
  intros (Hs & Hne & Hd & Hdd)%ordinary_name_parts. unfold normpath.
  rewrite list_ascii_of_string_app.
  change (list_ascii_of_string "Documents/") with
    (["D";"o";"c";"u";"m";"e";"n";"t";"s"] ++ [slash])%char. cbn -[split_slash].
  change (split_slash _) with
    (["D";"o";"c";"u";"m";"e";"n";"t";"s"]%char :: split_slash (list_ascii_of_string b)).
  rewrite split_slash_free by done. cbn -[bool_decide].
  unfold normpath_step at 1. cbn -[bool_decide]. rewrite !bool_decide_false by done.
  simpl. unfold normpath_step. rewrite !bool_decide_false by done. simpl.
  rewrite !bool_decide_false by done. simpl. unfold "+:+". simpl.
  by rewrite string_of_list_ascii_of_string.
Qed.

Lemma last_index_after c cs :
  forallb (fun x => negb (Ascii.eqb x c))
    (drop (match last_index c cs with Some k => S k | None => 0 end) cs) = true.
Proof.
  induction cs as [|x cs IH]; [done|]. simpl.
  destruct (last_index c cs) as [k|] eqn:E; simpl; [done|].
  destruct (Ascii.eqb_spec x c) as [->|Hx]; simpl; [done|].
  apply andb_true_intro. split; [|done]. by apply negb_true_iff, Ascii.eqb_neq.
Qed.

(** The last component of [os.path.split] has no [/]. *)
Lemma path_split_tail_noslash p :
  forallb (fun x => negb (Ascii.eqb x slash)) (list_ascii_of_string (snd (path_split p))) = true.
Proof. unfold path_split. simpl. rewrite list_ascii_of_string_of_list_ascii. apply last_index_after. Qed.

Lemma forallb_take {A} (f : A -> bool) n l : forallb f l = true -> forallb f (take n l) = true.
Proof.
  revert n. induction l as [|x l IH]; intros [|n]; simpl; try done.
  intros [Hx Hl]%andb_prop. by rewrite Hx, IH.
Qed.

(** The root of [os.path.splitext] keeps a property of every character. *)
Lemma path_splitext_root_forall f p :
  forallb f (list_ascii_of_string p) = true ->
  forallb f (list_ascii_of_string (fst (path_splitext p))) = true.
Proof.
  intros Hp. unfold path_splitext.
  destruct (last_index dot (list_ascii_of_string p)); [|done].
  case_match; [|done]. simpl. rewrite list_ascii_of_string_of_list_ascii. by apply forallb_take.
Qed.

