(* ===== verification/Payload.v ===== *)
(** * The import payload of [run_import]

    Models the data preparation of [RelaticsWebservices.run_import]
    ([client.py] lines 282-374): the checks of the arguments, the XML
    document built from a list of rows, the extension check of a data
    file, the resolution of the file name, and the base64 payload, made
    of the data alone or of a zip of the attached documents and the data.

    The file system is explicit state: a map from path to bytes, read by
    [zipfile.write] and [open(..).read()] and written by [ZipFile(path,
    "w")].  The zip file is created in the temporary directory, closed
    by the [with] block (also when an exception leaves it, which writes
    the entries added so far), read back, and removed by [os.remove];
    [payload] returns its result together with the file system after the
    call, whether it returned or raised.  While the archive is open its
    file reads as empty.  Directories are not modelled. *)

From S2P Require Import Prelude PyStr Base64 Zip Xml PosixPath.

Module Payload.

Definition SUPPORTED_EXTENSIONS : list string := ["xlsx"; "xlsm"; "xlsb"; "xls"; "csv"].
Definition IMPORT_BASENAME : string := "pyrelatics_webservice".

(** The [data] argument: a file name, a list of rows (each a dict, as
    its items in order), or a value of another type with its truth. *)
Inductive data_arg :=
  | DataFile (path : string)
  | DataRows (rows : list (list (string * string)))
  | DataOther (truthy : bool).

Definition data_truthy (d : data_arg) : bool :=
  match d with
  | DataFile p => negb (String.eqb p "")
  | DataRows rows => negb (bool_decide (rows = []))
  | DataOther b => b
  end.

(** Lines 283-288. *)
Definition check_args (operation_name : string) (data : data_arg) : res unit :=
  if String.eqb operation_name "" then raise (ValueError "Supplied operationName is empty")
  else if negb (data_truthy data) then raise (ValueError "Supplied data is empty")
  else Ok tt.

(** Lines 305-308: one [Row] element with an attribute per item. *)
Definition row_element (row : list (string * string)) : element :=
  fold_left (fun r '(k, v) => el_set k v r) row (new_element "Row").

(** Lines 301-308: the [Import] root with a [Row] per row. *)
Definition build_rows (rows : list (list (string * string))) : element :=
  fold_left (fun root row => el_append (row_element row) root) rows (new_element "Import").

(** The prepared data: the XML document, or a data file and its
    extension. *)
Inductive prepared :=
  | PrepXml (root : element)
  | PrepFile (path ext : string).

Definition prep_ext (p : prepared) : string :=
  match p with PrepXml _ => "xml" | PrepFile _ ext => ext end.

(** Lines 296-319. *)
Definition prepare_data (data : data_arg) : res prepared :=
  match data with
  | DataRows rows => Ok (PrepXml (build_rows rows))
  | DataFile p =>
      let ext := str_drop 1 (snd (path_splitext p)) in
      if existsb (String.eqb ext) SUPPORTED_EXTENSIONS then Ok (PrepFile p ext)
      else raise TypeError
  | DataOther _ => raise TypeError
  end.

(** Lines 322-326. *)
Definition file_basename (file_name : option string) : string :=
  match file_name with
  | None => IMPORT_BASENAME
  | Some f => fst (path_splitext (snd (path_split f)))
  end.

(** ** Files and the archive *)

Abbreviation filesystem := (gmap string (list byte)) (only parsing).

(** [open(path, "rb").read()]. *)
Definition read_file (fs : filesystem) (path : string) : res (list byte) :=
  of_option (FileNotFoundError path) (fs !! path).

(** [ZipInfo(name)]: the name up to a NUL character. *)
Definition zipinfo_name (name : string) : string :=
  string_of_list_ascii (List.fold_right (fun c acc => if Ascii.eqb c Ascii.zero then [] else c :: acc)
                          [] (list_ascii_of_string name)).

(** [ZipInfo.from_file(path, arcname)]: the normalised archive name
    without leading slashes. *)
Definition from_file_arcname (arcname : string) : string :=
  zipinfo_name (string_of_list_ascii (lstrip slash (list_ascii_of_string (normpath arcname)))).

(** Lines 337-339: [write] every document under [Documents/]; the
    entries written, and the exception that stopped the loop. *)
Fixpoint add_documents (fs : filesystem) (docs : list string) (acc : list entry)
    : list entry * option pyexc :=
  match docs with
  | [] => (acc, None)
  | d :: docs' =>
      match read_file fs d with
      | Ok bs =>
          add_documents fs docs'
            (acc ++ [(from_file_arcname (path_join "Documents" (snd (path_split d))), bs)])
      | Raise e => (acc, Some e)
      end
  end.

(** Lines 342-345: the entry of the data. *)
Definition data_entry (fs : filesystem) (base : string) (prep : prepared) : res entry :=
  match prep with
  | PrepXml root => Ok (zipinfo_name (base +:+ ".xml"), utf8_encode (document_str root))
  | PrepFile p _ =>
      let! bs := read_file fs p in
      Ok (from_file_arcname (snd (path_split p)), bs)
  end.

Section Archive.
Context `{ZipArchive}.

(** Lines 330-364: the zip in [tempdir], its base64 text, and the file
    system after the call. *)
Definition zip_payload (fs : filesystem) (tempdir base : string) (docs : list string)
    (prep : prepared) : res string * filesystem :=
  let zip_path := path_join tempdir (base +:+ ".zip") in
  let fs_open := <[zip_path := []]> fs in
  let '(es, err) := add_documents fs_open docs [] in
  match err with
  | Some e => (Raise e, <[zip_path := zip_write es]> fs)
  | None =>
      match data_entry fs_open base prep with
      | Raise e => (Raise e, <[zip_path := zip_write es]> fs)
      | Ok de =>
          let fs_closed := <[zip_path := zip_write (es ++ [de])]> fs in
          match read_file fs_closed zip_path with
          | Ok zbytes => (Ok (b64encode zbytes), delete zip_path fs_closed)
          | Raise e => (Raise e, fs_closed)
          end
      end
  end.

(** Lines 366-374: the data alone. *)
Definition plain_payload (fs : filesystem) (prep : prepared) : res string :=
  match prep with
  | PrepXml root => Ok (b64encode (utf8_encode (document_str root)))
  | PrepFile p _ => let! bs := read_file fs p in Ok (b64encode bs)
  end.

(** Lines 295-374: the file name and the base64 data sent, and the file
    system after the call. *)
Definition payload (fs : filesystem) (tempdir : string) (data : data_arg)
    (file_name : option string) (documents : option (list string))
    : res (string * string) * filesystem :=
  match prepare_data data with
  | Raise e => (Raise e, fs)
  | Ok prep =>
      let base := file_basename file_name in
      match documents with
      | Some docs =>
          let '(r, fs') := zip_payload fs tempdir base docs prep in
          (res_map (fun d => (base +:+ ".zip", d)) r, fs')
      | None =>
          (let! d := plain_payload fs prep in Ok (base +:+ "." +:+ prep_ext prep, d), fs)
      end
  end.
End Archive.


(** ** The XML document of the rows *)

(** The line of one row in [Document.str()]. *)
Definition row_line (row : list (string * string)) : string :=
  String (ascii_of_nat 10) ("   <Row" +:+ String.concat "" (map attr_str row) +:+ "/>").

(** The keys of a row are distinct and hold no colon, so that
    [getAttribute] finds none of them among the attributes set before. *)
Definition simple_keys (row : list (string * string)) : bool :=
  bool_decide (NoDup (map fst row)) && forallb no_colon (map fst row).

Lemma row_element_spec row :
  simple_keys row = true -> row_element row = mkElement None "Row" [] row None [].
Proof.
  unfold simple_keys. intros [Hnd Hc]%andb_prop. apply bool_decide_eq_true in Hnd.
  unfold row_element. rewrite el_set_fold; [done|done|]. apply List.Forall_forall. by apply List.forallb_forall.
Qed.

Lemma build_rows_spec rows :
  build_rows rows = mkElement None "Import" [] [] None (map row_element rows).
Proof. unfold build_rows. by rewrite el_append_fold. Qed.

Lemma row_str row :
  String (ascii_of_nat 10) (element_str 1 (mkElement None "Row" [] row None [])) = row_line row.
Proof. unfold row_line. cbn [element_str el_children el_text el_attrs]. unfold "+:+". simpl. reflexivity. Qed.

Lemma document_rows rows :
  rows <> [] -> forallb simple_keys rows = true ->
  document_str (build_rows rows) =
  xml_decl +:+ String (ascii_of_nat 10) ("<Import>" +:+ String.concat "" (map row_line rows) +:+
  String (ascii_of_nat 10) "</Import>").
Proof.
  intros Hne Hnd. unfold document_str. rewrite build_rows_spec.
  assert (Hl : map (fun c => String (ascii_of_nat 10) (element_str 1 c)) (map row_element rows) =
               map row_line rows).
  { rewrite map_map. apply map_ext_in. intros row Hrow. rewrite <- row_str.
    rewrite row_element_spec; [done|]. rewrite forallb_forall in Hnd. by apply Hnd. }
  destruct rows as [|r rows]; [done|]. cbn [element_str el_children el_text el_attrs].
  cbn [map] in Hl |- *. rewrite Hl. unfold "+:+". simpl. reflexivity.
Qed.


(** ** Archive names *)

(** The archive name of a document (line 338). *)
Definition doc_arcname (d : string) : string :=
  from_file_arcname (path_join "Documents" (snd (path_split d))).

Lemma zipinfo_name_id s :
  forallb (fun c => negb (Ascii.eqb c Ascii.zero)) (list_ascii_of_string s) = true ->
  zipinfo_name s = s.
Proof.
  unfold zipinfo_name. intros Hs. rewrite <- (string_of_list_ascii_of_string s) at 2. f_equal.
  induction (list_ascii_of_string s) as [|c l IH]; [done|]. simpl in *.
  apply andb_prop in Hs as [Hc Hl]. apply negb_true_iff in Hc. by rewrite Hc, IH.
Qed.

Lemma ordinary_no_nul b :
  ordinary_name b = true ->
  forallb (fun c => negb (Ascii.eqb c Ascii.zero)) (list_ascii_of_string b) = true.
Proof.
  unfold ordinary_name. intros H.
  repeat match goal with H : _ && _ = true |- _ => apply andb_prop in H as [? ?] end.
  apply forallb_forall. intros c Hc.
  match goal with H : forallb _ _ = true |- _ =>
    eapply forallb_forall in H; [|exact Hc]; by apply andb_prop in H as [_ ?] end.
Qed.

(** A document with an ordinary base name is stored as
    [Documents/<base name>]. *)
Lemma doc_arcname_documents d :
  ordinary_name (snd (path_split d)) = true ->
  doc_arcname d = "Documents/" +:+ snd (path_split d).
Proof.
  intros Ho. unfold doc_arcname, from_file_arcname.
  rewrite path_join_documents, normpath_documents by done.
  assert (Hl : lstrip slash (list_ascii_of_string ("Documents/" +:+ snd (path_split d))) =
               list_ascii_of_string ("Documents/" +:+ snd (path_split d)))
    by (rewrite list_ascii_of_string_app; reflexivity).
  rewrite Hl, string_of_list_ascii_of_string.
  apply zipinfo_name_id. rewrite list_ascii_of_string_app, forallb_app. simpl.
  by apply ordinary_no_nul.
Qed.

(** ** The documents loop *)

Lemma add_documents_ok fs docs contents acc :
  Forall2 (fun d bs => fs !! d = Some bs) docs contents ->
  add_documents fs docs acc = (acc ++ zip_with (fun d bs => (doc_arcname d, bs)) docs contents, None).
Proof.
  intros Hf. revert acc. induction Hf as [|d bs docs contents Hd Hf IH]; intros acc; simpl.
  - by rewrite app_nil_r.
  - unfold read_file. rewrite Hd. simpl. rewrite IH. by rewrite <- app_assoc.
Qed.

Lemma add_documents_missing fs pre d post contents acc :
  Forall2 (fun d bs => fs !! d = Some bs) pre contents -> fs !! d = None ->
  add_documents fs (pre ++ d :: post) acc =
    (acc ++ zip_with (fun d bs => (doc_arcname d, bs)) pre contents, Some (FileNotFoundError d)).
Proof.
  intros Hf Hd. revert acc. induction Hf as [|d' bs pre contents Hd' Hf IH]; intros acc; simpl.
  - unfold read_file. rewrite Hd. simpl. by rewrite app_nil_r.
  - unfold read_file. rewrite Hd'. simpl. rewrite IH. by rewrite <- app_assoc.
Qed.

(** Reading the open archive's file system elsewhere reads the caller's. *)
Lemma Forall2_open {B} (fs : gmap string B) zip_path z docs (contents : list B) :
  Forall2 (fun d bs => d <> zip_path /\ fs !! d = Some bs) docs contents ->
  Forall2 (fun d bs => <[zip_path := z]> fs !! d = Some bs) docs contents.
Proof.
  intros Hf. eapply Forall2_impl; [exact Hf|]. intros d bs [Hne Hd].
  by rewrite lookup_insert_ne by congruence.
Qed.


Lemma zip_with_doc_names docs (contents : list (list byte)) :
  Forall (fun d => ordinary_name (snd (path_split d)) = true) docs ->
  zip_with (fun d bs => (doc_arcname d, bs)) docs contents =
  zip_with (fun d bs => ("Documents/" +:+ snd (path_split d), bs)) docs contents.
Proof.
  intros Ho. revert contents. induction Ho as [|d docs Hd Ho IH]; intros [|bs contents]; try done.
  simpl. by rewrite doc_arcname_documents, IH.
Qed.

(** [prepare_data] refuses a data file whose extension is not supported. *)
Lemma prepare_data_unsupported p :
  existsb (String.eqb (str_drop 1 (snd (path_splitext p)))) SUPPORTED_EXTENSIONS = false ->
  prepare_data (DataFile p) = raise TypeError.
Proof. intros He. unfold prepare_data. by rewrite He. Qed.

Section Claims.
Context `{ZipArchive}.

(** C10 *)
(** A list of rows without attachments is sent as [<base>.xml] whose
    base64 data decodes to the UTF-8 bytes of the XML declaration, an
    [Import] element and one [Row] line per row carrying the row's items
    as attributes in order, when the keys of each row are distinct and
    hold no colon; the file system is untouched. *)
Theorem payload_rows fs tempdir rows file_name :
  rows <> [] -> forallb simple_keys rows = true ->
  exists s,
    payload fs tempdir (DataRows rows) file_name None =
      (Ok (file_basename file_name +:+ ".xml", s), fs) /\
    b64decode s = Ok (utf8_encode (xml_decl +:+ String (ascii_of_nat 10)
                       ("<Import>" +:+ String.concat "" (map row_line rows) +:+
                        String (ascii_of_nat 10) "</Import>"))).
Proof.
  intros Hne Hnd. eexists. split; [reflexivity|].
  by rewrite b64decode_b64encode, document_rows.
Qed.

(** C9 *)
(** Rows with attachments: the data sent is [<base>.zip], the base64 of
    an archive holding every attachment as [Documents/<base name>] in
    order and then the XML as [<base>.xml]; the temporary zip file is
    removed afterwards, and with it any file the caller had at that
    path. *)
Theorem payload_zip_rows fs tempdir rows file_name docs contents :
  let zip_path := path_join tempdir (file_basename file_name +:+ ".zip") in
  Forall2 (fun d bs => d <> zip_path /\ fs !! d = Some bs) docs contents ->
  Forall (fun d => ordinary_name (snd (path_split d)) = true) docs ->
  exists s,
    payload fs tempdir (DataRows rows) file_name (Some docs) =
      (Ok (file_basename file_name +:+ ".zip", s), delete zip_path fs) /\
    (let! z := b64decode s in of_option BadZipFile (zip_read z)) =
      Ok (zip_with (fun d bs => ("Documents/" +:+ snd (path_split d), bs)) docs contents ++
          [(zipinfo_name (file_basename file_name +:+ ".xml"),
            utf8_encode (document_str (build_rows rows)))]).
Proof.
  intros zip_path Hf Ho. unfold payload, zip_payload. cbn [prepare_data res_bind].
  rewrite (add_documents_ok _ _ _ _ (Forall2_open _ _ _ _ _ Hf)). simpl.
  unfold read_file. rewrite lookup_insert_eq. simpl.
  eexists. split; [by rewrite delete_insert_eq|].
  rewrite b64decode_b64encode. simpl. rewrite zip_read_write. simpl.
  by rewrite zip_with_doc_names.
Qed.

(** C26 *)
(** An attachment that does not exist raises [FileNotFoundError] and
    leaves the temporary zip file on disk, closed with the attachments
    written before it. *)
Theorem payload_missing_document fs tempdir data prep file_name pre d post contents :
  let zip_path := path_join tempdir (file_basename file_name +:+ ".zip") in
  prepare_data data = Ok prep ->
  Forall2 (fun d bs => d <> zip_path /\ fs !! d = Some bs) pre contents ->
  d <> zip_path -> fs !! d = None ->
  payload fs tempdir data file_name (Some (pre ++ d :: post)) =
    (Raise (FileNotFoundError d),
     <[zip_path := zip_write (zip_with (fun d bs => (doc_arcname d, bs)) pre contents)]> fs).
Proof.
  intros zip_path Hp Hf Hne Hd. unfold payload. rewrite Hp. unfold zip_payload.
  rewrite (add_documents_missing _ _ _ _ _ _ (Forall2_open _ _ _ _ _ Hf)); [done|].
  by rewrite lookup_insert_ne by congruence.
Qed.
End Claims.

(** C13 *)
(** Two keys of a row with the same local name after an optional
    [prefix:] (neither prefix being [xml]), such as [x:b] and [y:b] or
    [b] and [a:b], give the [Row] element one attribute: the second
    [set] finds the first attribute, which keeps its name and takes the
    second value. *)
Theorem row_element_same_local k1 k2 v1 v2 :
  snd (split_prefix k1) = snd (split_prefix k2) ->
  fst (split_prefix k1) <> Some "xml" -> fst (split_prefix k2) <> Some "xml" ->
  row_element [(k1, v1); (k2, v2)] = mkElement None "Row" [] [(k1, v2)] None [].
Proof.
  intros Hl H1 H2. unfold row_element, el_set. cbn -[attr_matches].
  unfold attr_matches. destruct (split_prefix k2) as [p2 l2]. simpl in *.
  rewrite Hl, String.eqb_refl. destruct p2 as [p2|]; [|reflexivity].
  unfold attr_uri, resolve_uri. simpl. destruct (String.eqb_spec p2 "xml"); [congruence|].
  destruct (split_prefix k1) as [[p1|] l1]; [|reflexivity]. simpl in *.
  destruct (String.eqb_spec p1 "xml"); [congruence|reflexivity].
Qed.

(** The base name sent has no directory part: it contains no [/]. *)
Theorem file_basename_noslash file_name :
  forallb (fun c => negb (Ascii.eqb c slash)) (list_ascii_of_string (file_basename file_name)) = true.
Proof.
  destruct file_name as [f|]; [|reflexivity]. simpl.
  apply path_splitext_root_forall, path_split_tail_noslash.
Qed.


(** ** Witnesses, with the escaped-concatenation archive *)

Definition sample_rows : list (list (string * string)) :=
  [[("name", "Object 1"); ("description", "Lorem ipsum")];
   [("name", "Object 2"); ("description", "Ut enim")]].

Lemma payload_rows_witness :
  exists s,
    payload ∅ "/tmp" (DataRows sample_rows) None None = (Ok ("pyrelatics_webservice.xml", s), ∅) /\
    b64decode s = Ok (utf8_encode (xml_decl +:+ String (ascii_of_nat 10)
                       ("<Import>" +:+ String.concat "" (map row_line sample_rows) +:+
                        String (ascii_of_nat 10) "</Import>"))).
Proof.
  apply (payload_rows ∅ "/tmp" sample_rows None); [discriminate|vm_compute; reflexivity].
Defined.

Lemma row_element_same_local_witness :
  row_element [("x:b", "1"); ("y:b", "2")] = mkElement None "Row" [] [("x:b", "2")] None [].
Proof. apply row_element_same_local; vm_compute; congruence. Defined.

Definition hello : list byte := [Byte.x68; Byte.x65; Byte.x6c; Byte.x6c; Byte.x6f].

Definition sample_fs : gmap string (list byte) :=
  {["/home/u/a.pdf" := hello; "/tmp/import.zip" := [Byte.x00]]}.

Lemma payload_zip_rows_witness :
  exists s,
    payload sample_fs "/tmp" (DataRows sample_rows) (Some "C/import.v1.xlsx") (Some ["/home/u/a.pdf"]) =
      (Ok ("import.v1.zip", s), delete "/tmp/import.v1.zip" sample_fs) /\
    (let! z := b64decode s in of_option BadZipFile (zip_read z)) =
      Ok (zip_with (fun d bs => ("Documents/" +:+ snd (path_split d), bs)) ["/home/u/a.pdf"] [hello] ++
          [(zipinfo_name ("import.v1" +:+ ".xml"), utf8_encode (document_str (build_rows sample_rows)))]).
Proof.
  apply (payload_zip_rows sample_fs "/tmp" sample_rows (Some "C/import.v1.xlsx") ["/home/u/a.pdf"] [hello]).
  - constructor; [split; [vm_compute; discriminate|reflexivity]|constructor].
  - repeat constructor.
Defined.

Lemma payload_missing_document_witness :
  payload sample_fs "/tmp" (DataFile "/home/u/data.csv") None (Some ["/home/u/a.pdf"; "/home/u/b.pdf"]) =
    (Raise (FileNotFoundError "/home/u/b.pdf"),
     <["/tmp/pyrelatics_webservice.zip" :=
         zip_write (zip_with (fun d bs => (doc_arcname d, bs)) ["/home/u/a.pdf"] [hello])]> sample_fs).
Proof.
  apply (payload_missing_document sample_fs "/tmp" (DataFile "/home/u/data.csv")
           (PrepFile "/home/u/data.csv" "csv") None ["/home/u/a.pdf"] "/home/u/b.pdf" [] [hello]).
  - reflexivity.
  - constructor; [split; [vm_compute; discriminate|reflexivity]|constructor].
  - vm_compute; discriminate.
  - reflexivity.
Defined.

End Payload.
