(* ===== verification/ExportResult.v ===== *)
(** * ExportResult: parsing the response of an export

    Models [ExportResult] of [src/pyrelatics2/result_classes.py] (lines
    46-126).  [from_suds] runs [handle_suds_response_errors]; when
    [Report.Documents] is a text node it sets [has_error = False],
    decodes the base64 text ([Base64.b64decode]), opens it as a zip
    ([Zip.ZipArchive]), stores every archive member under its name, and
    deletes the [Documents] node; it stores the response as [data] and
    finally flags a response with neither [Export] nor [Report].

    The [del] on line 94 mutates the response object the caller passed
    in, and [data] is that same object: [from_suds] returns the result
    together with the caller's response after the call.

    [has_error] is assigned only on some paths: a successful export
    without documents leaves it unassigned, so it reads the truthy
    [dataclasses.Field] of [BaseResult] and the result is falsy. *)

From S2P Require Import Prelude PyStr PyDict PyObj BaseResult Base64 Zip.

Module ExportResult.

(** [ExportResult] (lines 46-55): [data] has [init=False] and no
    default, so it is unassigned until line 97. *)
Record ExportResult := mkExportResult {
  er_has_error : slot bool;
  er_error_msg : slot pystr;
  data : slot sobj;
  documents : dict (list byte)
}.

(** [ExportResult()]. *)
Definition empty_result : ExportResult := mkExportResult Unset Unset Unset [].

Definition with_has_error (b : bool) (r : ExportResult) : ExportResult :=
  mkExportResult (SetTo b) (er_error_msg r) (data r) (documents r).
Definition with_error_msg (m : pystr) (r : ExportResult) : ExportResult :=
  mkExportResult (er_has_error r) (SetTo m) (data r) (documents r).
Definition with_data (d : sobj) (r : ExportResult) : ExportResult :=
  mkExportResult (er_has_error r) (er_error_msg r) (SetTo d) (documents r).
Definition with_documents (m : dict (list byte)) (r : ExportResult) : ExportResult :=
  mkExportResult (er_has_error r) (er_error_msg r) (data r) m.

#[export] Instance ExportResult_fields : ResultFields ExportResult.
Proof.
  refine {| has_error := er_has_error; error_msg := er_error_msg;
            set_has_error := with_has_error; set_error_msg := with_error_msg |};
    reflexivity.
Defined.

(** The condition of lines 74-78: [Report.Documents] exists and is a
    [Text]; its text. *)
Definition report_documents (resp : sobj) : option string :=
  match getattr resp "Report" with
  | Ok rep =>
      match getattr rep "Documents" with
      | Ok (SText s) => Some s
      | _ => None
      end
  | Raise _ => None
  end.

(** Line 94: [del suds_response.Report.Documents], in place. *)
Definition drop_documents (resp : sobj) : sobj :=
  update_attr resp "Report"
    (fun rep => match delattr rep "Documents" with Ok rep' => rep' | Raise _ => rep end).

Section FromSuds.
Context `{ZipArchive}.

(** Lines 84-86: decode, open the archive, and store
    [docs_zip.read(name)] for every member of [filelist]. *)
Definition read_documents (s : string) : res (dict (list byte)) :=
  let! raw := b64decode s in
  let! es := of_option BadZipFile (zip_read raw) in
  Ok (fold_left (fun m '(n, _) =>
                   match zip_member es n with Some d => dict_setitem n d m | None => m end) es []).

(** [ExportResult.from_suds] (lines 58-104): the result, and the
    caller's response object after the call. *)
Definition from_suds (resp : sobj) : res (ExportResult * sobj) :=
  let! r := handle_suds_response_errors empty_result resp in
  let! '(r, resp) :=
    match report_documents resp with
    | Some s =>
        let r := with_has_error false r in
        let! docs := read_documents s in
        Ok (with_documents docs r, drop_documents resp)
    | None => Ok (r, resp)
    end in
  let r := with_data resp r in
  if negb (hasattr resp "Export") && negb (hasattr resp "Report") then
    Ok (with_error_msg (PRepr resp) (with_has_error true r), resp)
  else Ok (r, resp).
End FromSuds.

(** [ExportResult.__bool__] (lines 106-107). *)
Definition ExportResult_bool (r : ExportResult) : bool := result_bool r.

(** A response whose [Report] carries the documents [docs] and the
    other attributes [rest]. *)
Definition report_response (docs : string) (rest : list (string * sobj)) : sobj :=
  SObj [("Report", SObj (("Documents", SText docs) :: rest))].

(** The documents of an archive when later members replace earlier ones
    of the same name. *)
Definition docs_map (es : list (string * list byte)) : dict (list byte) :=
  fold_left (fun m '(n, d) => dict_setitem n d m) es [].


(** ** Lemmas *)

Lemma docs_map_fold_lookup l (m0 : dict (list byte)) k :
  dict_lookup k (fold_left (fun m '(n, d) => dict_setitem n d m) l m0) =
  match zip_member l k with Some d => Some d | None => dict_lookup k m0 end.
Proof.
  revert m0. induction l as [|[n d] l IH]; intros m0; [done|]. simpl.
  rewrite IH, zip_member_cons. destruct (zip_member l k); [done|].
  rewrite dict_lookup_setitem. by destruct (String.eqb_spec n k) as [->|Hne];
    [rewrite String.eqb_refl|rewrite (proj2 (String.eqb_neq k n)) by congruence].
Qed.

Lemma docs_map_lookup es k : dict_lookup k (docs_map es) = zip_member es k.
Proof. unfold docs_map. rewrite docs_map_fold_lookup. by destruct (zip_member es k). Qed.

Lemma docs_map_fold_keys l (m0 : dict (list byte)) :
  dict_keys (fold_left (fun m '(n, d) => dict_setitem n d m) l m0) =
  keys_after (dict_keys m0) (map fst l).
Proof.
  revert m0. induction l as [|[n d] l IH]; intros m0; [done|]. simpl.
  by rewrite IH, dict_keys_setitem.
Qed.

(** Storing [read(name)] for every member, as lines 85-86 do. *)
Definition read_step (es : list (string * list byte)) (m : dict (list byte))
    (x : string * list byte) : dict (list byte) :=
  let '(n, _) := x in match zip_member es n with Some d => dict_setitem n d m | None => m end.

Section ReadFold.
Variable es : list (string * list byte).
Hypothesis Hall : forall n, n ∈ map fst es -> is_Some (zip_member es n).

Lemma read_fold_lookup (l : list (string * list byte)) (m0 : dict (list byte)) k :
  (forall n, n ∈ map fst l -> n ∈ map fst es) ->
  dict_lookup k (fold_left (read_step es) l m0) =
  if bool_decide (k ∈ map fst l) then zip_member es k else dict_lookup k m0.
Proof using Hall.
  revert m0. induction l as [|[n d0] l IH]; intros m0 Hl; [done|]. simpl.
  destruct (Hall n ltac:(apply Hl; by left)) as [d Hd]. rewrite Hd, IH by (intros; apply Hl; by right).
  rewrite dict_lookup_setitem.
  destruct (String.eqb_spec k n) as [->|Hne].
  - rewrite (bool_decide_true (n ∈ map fst ((n, d0) :: l))) by (simpl; by left).
    by case_bool_decide.
  - repeat case_bool_decide; set_solver.
Qed.

Lemma read_fold_keys (l : list (string * list byte)) (m0 : dict (list byte)) :
  (forall n, n ∈ map fst l -> n ∈ map fst es) ->
  dict_keys (fold_left (read_step es) l m0) = keys_after (dict_keys m0) (map fst l).
Proof using Hall.
  revert m0. induction l as [|[n d0] l IH]; intros m0 Hl; [done|]. simpl.
  destruct (Hall n ltac:(apply Hl; by left)) as [d Hd]. rewrite Hd, IH by (intros; apply Hl; by right).
  by rewrite dict_keys_setitem.
Qed.
End ReadFold.

Lemma read_documents_write `{ZipArchive} es :
  read_documents (b64encode (zip_write es)) = Ok (docs_map es).
Proof.
  unfold read_documents. rewrite b64decode_b64encode. simpl. rewrite zip_read_write. simpl.
  f_equal. assert (Hall : forall n, n ∈ map fst es -> is_Some (zip_member es n))
    by (intros; by apply zip_member_in).
  change (fun m x => _) with (read_step es). apply dict_ext.
  - rewrite read_fold_keys by done. apply keys_after_NoDup, NoDup_nil_2.
  - unfold docs_map. by rewrite read_fold_keys, docs_map_fold_keys.
  - intros k. rewrite read_fold_lookup, docs_map_lookup by done.
    case_bool_decide; [done|]. by rewrite zip_member_notin.
Qed.


Lemma report_documents_hasattr resp s :
  report_documents resp = Some s -> hasattr resp "Report" = true.
Proof.
  unfold report_documents. destruct (getattr resp "Report") eqn:E; [|done].
  intros _. by eapply getattr_hasattr.
Qed.

Lemma report_documents_not_none resp s : report_documents resp = Some s -> resp <> SNone.
Proof. by intros Hd ->. Qed.

Lemma report_documents_absent resp :
  hasattr resp "Report" = false -> report_documents resp = None.
Proof. intros H. unfold report_documents. by rewrite getattr_not_hasattr. Qed.

Lemma hasattr_drop_documents resp k : hasattr (drop_documents resp) k = hasattr resp k.
Proof. apply hasattr_update_attr. Qed.

Section Claims.
Context `{ZipArchive}.

(** The documents branch of [from_suds] (lines 74-97), from the result
    of the error handling: the result has its documents and the mutated
    response, and [has_error] is [False]. *)
Lemma from_suds_documents_from r0 resp s :
  handle_suds_response_errors empty_result resp = Ok r0 ->
  report_documents resp = Some s ->
  hasattr resp "Report" = true ->
  from_suds resp =
    let! docs := read_documents s in
    Ok (with_data (drop_documents resp) (with_documents docs (with_has_error false r0)),
        drop_documents resp).
Proof.
  intros Hh Hd Hr. unfold from_suds. rewrite Hh. simpl. rewrite Hd.
  destruct (read_documents s); simpl; [|done].
  by rewrite !hasattr_drop_documents, Hr, andb_false_r.
Qed.

(** C5 *)
(** An export whose [Report.Documents] is the base64 text of a zip
    archive, with no [Export] node: [from_suds] stores under every member
    name the data of the last member of that name, sets [has_error] to
    [False], and stores as [data] the caller's response with the
    [Documents] node deleted, which is what the caller's object has
    become. *)
Theorem from_suds_documents resp es :
  hasattr resp "Export" = false ->
  report_documents resp = Some (b64encode (zip_write es)) ->
  from_suds resp =
    Ok (mkExportResult (SetTo false) Unset (SetTo (drop_documents resp)) (docs_map es),
        drop_documents resp).
Proof.
  intros He Hd.
  rewrite (from_suds_documents_from empty_result resp (b64encode (zip_write es))); try done.
  - by rewrite read_documents_write.
  - apply handle_no_export; [by eapply report_documents_not_none|done].
  - by eapply report_documents_hasattr.
Qed.

(** C6 *)
(** A successful export without documents (no [Export] node, a [Report]
    without a text [Documents]) never assigns [has_error]: it reads the
    class attribute, a truthy [dataclasses.Field], and the result is
    falsy, as a failed export would be. *)
Theorem from_suds_success_unset resp :
  hasattr resp "Export" = false -> hasattr resp "Report" = true ->
  report_documents resp = None ->
  from_suds resp = Ok (mkExportResult Unset Unset (SetTo resp) [], resp) /\
  ExportResult_bool (mkExportResult Unset Unset (SetTo resp) []) = false.
Proof.
  intros He Hr Hd. split; [|done].
  unfold from_suds. rewrite handle_no_export by (try done; by intros ->). simpl.
  rewrite Hd. simpl. by rewrite Hr, andb_false_r.
Qed.

(** C39 *)
(** A response with both an [Export] node carrying an [_Error] and a
    [Report] with documents: the documents branch resets [has_error] to
    [False] after the error handling set it, so the result is truthy
    while its [error_msg] holds the export error. *)
Theorem from_suds_export_error_documents fs exp e es :
  attr_lookup "Export" fs = Some exp -> getattr exp "_Error" = Ok e ->
  report_documents (SObj fs) = Some (b64encode (zip_write es)) ->
  from_suds (SObj fs) =
    Ok (mkExportResult (SetTo false) (SetTo (py_str e)) (SetTo (drop_documents (SObj fs)))
          (docs_map es), drop_documents (SObj fs)) /\
  ExportResult_bool (mkExportResult (SetTo false) (SetTo (py_str e))
                       (SetTo (drop_documents (SObj fs))) (docs_map es)) = true.
Proof.
  intros Hx He Hd. split; [|done].
  rewrite (from_suds_documents_from _ _ _ (handle_export_error _ _ _ _ Hx He) Hd).
  - by rewrite read_documents_write.
  - by eapply report_documents_hasattr.
Qed.

(** A response with neither [Export] nor [Report] (lines 99-102), [None]
    included: [has_error] is [True], [error_msg] is the repr of the
    response, and the response is stored as [data]. *)
Theorem export_unrecognized resp :
  hasattr resp "Export" = false -> hasattr resp "Report" = false ->
  from_suds resp = Ok (mkExportResult (SetTo true) (SetTo (PRepr resp)) (SetTo resp) [], resp).
Proof.
  intros He Hr. unfold from_suds.
  rewrite (report_documents_absent _ Hr).
  destruct resp as [|s|fs|l]; [done|..];
    rewrite handle_no_export by (done || discriminate); simpl in *; by rewrite ?He, ?Hr.
Qed.

(** Documents that are not base64 make [from_suds] raise the decoder's
    [binascii.Error]; base64 of bytes that are not a zip archive raises
    [BadZipFile]. *)
Theorem from_suds_bad_documents resp s :
  hasattr resp "Export" = false -> report_documents resp = Some s ->
  (forall e, b64decode s = Raise e -> from_suds resp = Raise e) /\
  (forall raw, b64decode s = Ok raw -> zip_read raw = None -> from_suds resp = Raise BadZipFile).
Proof.
  intros He Hd.
  assert (Hh : handle_suds_response_errors empty_result resp = Ok empty_result)
    by (apply handle_no_export; [by eapply report_documents_not_none|done]).
  pose proof (report_documents_hasattr _ _ Hd) as Hr.
  split; [intros e Hb|intros raw Hb Hz];
    rewrite (from_suds_documents_from _ _ _ Hh Hd Hr); unfold read_documents;
    rewrite Hb; simpl; [done|]. by rewrite Hz.
Qed.
End Claims.

(** ** Witnesses, with the escaped-concatenation archive *)

Definition hello : list byte := [Byte.x68; Byte.x65; Byte.x6c; Byte.x6c; Byte.x6f].

(** The export of the specification: a zip with [a.txt] holding [hello]. *)
Definition sample_export : sobj :=
  report_response (b64encode (zip_write [("a.txt", hello)])) [("Name", SText "r")].

Lemma from_suds_documents_witness :
  from_suds sample_export =
    Ok (mkExportResult (SetTo false) Unset (SetTo (drop_documents sample_export))
          (docs_map [("a.txt", hello)]), drop_documents sample_export) /\
  dict_lookup "a.txt" (docs_map [("a.txt", hello)]) = Some hello /\
  drop_documents sample_export = SObj [("Report", SObj [("Name", SText "r")])].
Proof.
  split; [apply from_suds_documents; vm_compute; reflexivity|].
  split; vm_compute; reflexivity.
Defined.


Lemma from_suds_success_unset_witness :
  from_suds (SObj [("Report", SObj [])]) =
    Ok (mkExportResult Unset Unset (SetTo (SObj [("Report", SObj [])])) [],
        SObj [("Report", SObj [])]) /\
  ExportResult_bool (mkExportResult Unset Unset (SetTo (SObj [("Report", SObj [])])) []) = false.
Proof. apply from_suds_success_unset; reflexivity. Defined.

Definition failed_export : list (string * sobj) :=
  [("Export", SObj [("_Error", SText "no rights")]);
   ("Report", SObj [("Documents", SText (b64encode (zip_write [("a.txt", hello)])))])].

Lemma from_suds_export_error_documents_witness :
  from_suds (SObj failed_export) =
    Ok (mkExportResult (SetTo false) (SetTo (PStr "no rights"))
          (SetTo (drop_documents (SObj failed_export))) (docs_map [("a.txt", hello)]),
        drop_documents (SObj failed_export)) /\
  ExportResult_bool (mkExportResult (SetTo false) (SetTo (PStr "no rights"))
                       (SetTo (drop_documents (SObj failed_export)))
                       (docs_map [("a.txt", hello)])) = true.
Proof.
  apply (from_suds_export_error_documents failed_export (SObj [("_Error", SText "no rights")])
           (SText "no rights")); vm_compute; reflexivity.
Defined.

Lemma export_unrecognized_witness :
  from_suds (SObj [("Fault", SText "x")]) =
    Ok (mkExportResult (SetTo true) (SetTo (PRepr (SObj [("Fault", SText "x")])))
          (SetTo (SObj [("Fault", SText "x")])) [], SObj [("Fault", SText "x")]).
Proof. apply export_unrecognized; reflexivity. Defined.

Lemma from_suds_bad_documents_witness :
  from_suds (report_response "a" []) = Raise (BinasciiError
    "Invalid base64-encoded string: number of data characters (1) cannot be 1 more than a multiple of 4") /\
  from_suds (report_response "Ag==" []) = Raise BadZipFile.
Proof.
  split.
  - apply (proj1 (from_suds_bad_documents (report_response "a" []) "a" eq_refl eq_refl)).
    vm_compute. reflexivity.
  - apply (proj2 (from_suds_bad_documents (report_response "Ag==" []) "Ag==" eq_refl eq_refl)
             [Byte.x02]); vm_compute; reflexivity.
Defined.

End ExportResult.
