(* ===== verification/Render.v ===== *)
(** * The printable renderings of the results

    Models the [__str__] methods of [src/pyrelatics2/result_classes.py]:
    [ExportResult.__str__] (lines 109-126), [ImportMessage.__str__]
    (lines 157-159) with the colour table [status_fore_color] (lines
    143-149), [ImportElement.__str__] (lines 172-173) and
    [ImportResult.__str__] (lines 244-268).

    The colours are colorama's ANSI sequences ([Fore.*], [Style.*]).
    What suds prints for a response node ([str] and [repr] of an
    [Object] or of a list of nodes) is not modelled: it is the section
    variable [obj_str] / [obj_repr].  [str(None)] and [str] of a text
    node are Python's.  An unassigned [error_msg] is the class-level
    [dataclasses.Field] of [BaseResult], whose [repr] holds a memory
    address: the section variable [field_repr].  An unassigned [data]
    is a dataclass field without default, which [dataclasses] removes
    from the class: reading it raises [AttributeError].

    A rendering may raise: [f"{x:<8}"] of a node that is not text
    raises [TypeError] ([object.__format__] refuses a non-empty format
    spec), and [status_fore_color[status]] raises [KeyError] for a
    status outside the table. *)

From S2P Require Import Prelude PyStr PyDict PyObj PyTime PyFormat BaseResult ImportResult Base64 Zip ExportResult.

Module Render.

(** ** colorama *)

Definition ansi (code : string) : string := String (ascii_of_nat 27) ("[" +:+ code +:+ "m").

Definition Fore_RED := ansi "31".
Definition Fore_GREEN := ansi "32".
Definition Fore_YELLOW := ansi "33".
Definition Fore_BLUE := ansi "34".
Definition Fore_RESET := ansi "39".
Definition Style_BRIGHT := ansi "1".
Definition Style_RESET_ALL := ansi "0".

Definition nl : string := String (ascii_of_nat 10) "".

(** [ImportMessage.status_fore_color] (lines 143-149). *)
Definition status_fore_color : dict string :=
  [("Progress", Fore_BLUE); ("Comment", Fore_RESET); ("Success", Fore_GREEN);
   ("Warning", Fore_YELLOW); ("Error", Fore_RED)].

(** The table headers (lines 122, 258 and 264). *)
Definition documents_header : string :=
  "RelaticsFilename                              Size (bytes)".
Definition messages_header : string := "Time      Row    Status    Message".
Definition elements_header : string :=
  "Action  ID                                    Foreign key".

(** Truth value of a node: [Object.__len__] counts the attributes. *)
Definition sobj_truthy (o : sobj) : bool :=
  match o with
  | SNone => false
  | SText s => negb (String.eqb s "")
  | SObj fs => negb (bool_decide (fs = []))
  | SList l => negb (bool_decide (l = []))
  end.

Section Printer.
Variable obj_str obj_repr : sobj -> string.
Variable field_repr : string.

(** [str(o)], which is also [f"{o}"]. *)
Definition sobj_str (o : sobj) : string :=
  match o with SText s => s | SNone => "None" | _ => obj_str o end.

Definition sobj_repr (o : sobj) : string :=
  match o with SNone => "None" | _ => obj_repr o end.

Definition pystr_text (p : pystr) : string :=
  match p with PStr s => s | PStrOf o => sobj_str o | PRepr o => sobj_repr o end.

(** [f"{self.error_msg}"]. *)
Definition error_msg_text (m : slot pystr) : string :=
  match m with Unset => field_repr | SetTo p => pystr_text p end.

(** [f"{o:<w}"] of a node: only a str takes the format spec. *)
Definition format_left (w : nat) (o : sobj) : res string :=
  match o with SText s => Ok (ljust w s) | _ => raise TypeError end.

(** [self.status_fore_color[self.status]]: a list is unhashable. *)
Definition status_color (o : sobj) : res string :=
  match o with
  | SText s => of_option (KeyError s) (dict_lookup s status_fore_color)
  | SList _ => raise TypeError
  | _ => raise (KeyError (sobj_repr o))
  end.

(** [ImportMessage.__str__] (lines 157-159). *)
Definition ImportMessage_str (m : ImportResult.ImportMessage) : res string :=
  let! color := status_color (ImportResult.status m) in
  let! st := format_left 8 (ImportResult.status m) in
  Ok (time_str (ImportResult.time m) +:+ "  " +:+ int_zpad 5 (ImportResult.row m) +:+ "  " +:+
      color +:+ st +:+ Fore_RESET +:+ "  " +:+ sobj_str (ImportResult.message m)).

(** [ImportElement.__str__] (lines 172-173). *)
Definition ImportElement_str (e : ImportResult.ImportElement) : res string :=
  let! a := format_left 6 (ImportResult.action e) in
  Ok (a +:+ "  " +:+ sobj_str (ImportResult.id e) +:+ "  " +:+ sobj_str (ImportResult.foreign_key e)).

(** A table: the title, the bright header and a line per row, each
    ended by a space and a newline (lines 256-266). *)
Definition table (title header : string) (lines : list string) : string :=
  title +:+ nl +:+ Style_BRIGHT +:+ header +:+ nl +:+ Style_RESET_ALL +:+
  String.concat "" (map (fun l => l +:+ " " +:+ nl) lines).

Definition error_banner (has_error : slot bool) (msg : slot pystr) : string :=
  if slot_truthy has_error then "ERROR: " +:+ error_msg_text msg +:+ nl else "".

(** [ImportResult.__str__] (lines 244-268). *)
Definition ImportResult_str (r : ImportResult.ImportResult) : res string :=
  let s_err := error_banner (ImportResult.ir_has_error r) (ImportResult.ir_error_msg r) in
  let s_rows := match ImportResult.total_rows r with
                | Some n => "Rows imported : " +:+ int_str n +:+ nl
                | None => "" end in
  let s_time := match ImportResult.elapsed_time r with
                | Some d => "Elapsed time  : " +:+ timedelta_str d +:+ " (h:mm:ss.mmmmmm)" +:+ nl
                | None => "" end in
  let! s_msgs := match ImportResult.messages r with
                 | [] => Ok ""
                 | ms => let! ls := res_mapM ImportMessage_str ms in
                         Ok (table "[Messages]: " messages_header ls) end in
  let! s_elems := match ImportResult.elements r with
                  | [] => Ok ""
                  | es => let! ls := res_mapM ImportElement_str es in
                          Ok (table "[Elements]: " elements_header ls) end in
  Ok (s_err +:+ s_rows +:+ s_time +:+ s_msgs +:+ s_elems).

(** One line of the documents table (line 124). *)
Definition document_line (name : string) (content : list byte) : string :=
  ljust 45 name +:+ " " +:+ rjust 12 (int_str (Z.of_nat (length content))) +:+ nl.

(** Lines 120-124: the documents table, when there are documents. *)
Definition documents_section (docs : dict (list byte)) : string :=
  match docs with
  | [] => ""
  | _ => "[Documents]: " +:+ nl +:+ Style_BRIGHT +:+ documents_header +:+ nl +:+ Style_RESET_ALL +:+
         String.concat "" (map (fun '(k, v) => document_line k v) docs)
  end.

(** [ExportResult.__str__] (lines 109-126). *)
Definition ExportResult_str (r : ExportResult.ExportResult) : res string :=
  let s_err := error_banner (ExportResult.er_has_error r) (ExportResult.er_error_msg r) in
  let! s_data := match ExportResult.data r with
                 | Unset => raise (AttributeError "data")
                 | SetTo d => Ok (if sobj_truthy d then "[Data]: " +:+ nl +:+ sobj_str d +:+ nl
                                  else "")
                 end in
  Ok (s_err +:+ s_data +:+ documents_section (ExportResult.documents r)).
End Printer.

(** ** Lemmas *)

Lemma str_contains_char c s :
  str_contains (String c "") s = existsb (fun x => Ascii.eqb x c) (list_ascii_of_string s).
Proof.
  induction s as [|x s IH]; [done|]. cbn [str_contains list_ascii_of_string existsb].
  rewrite IH. cbn [String.prefix]. destruct (ascii_dec c x) as [<-|Hne].
  - by rewrite str_prefix_nil, Ascii.eqb_refl.
  - destruct (Ascii.eqb_spec x c); [congruence|done].
Qed.

Lemma all_digits_no_dot s : all_digits s = true ->
  existsb (fun x => Ascii.eqb x ".") (list_ascii_of_string s) = false.
Proof.
  induction s as [|x s IH]; [done|]. simpl. intros [Hx Hs]%andb_prop. rewrite IH by done.
  destruct (Ascii.eqb_spec x "."); [subst; discriminate|done].
Qed.

Lemma pretty_Z_of_N x : pretty (Z.of_N x) = pretty x.
Proof. by destruct x. Qed.

Lemma int_str_nonneg n : (0 <= n)%Z -> int_str n = pretty (Z.to_N n).
Proof. intros Hn. unfold int_str. rewrite <- (Z2N.id n) at 1 by done. apply pretty_Z_of_N. Qed.

(** The decimal text of a size below [10^12] fits the 12 columns. *)
Lemma int_str_size_length n :
  (Z.of_nat n < 10 ^ 12)%Z -> (String.length (int_str (Z.of_nat n)) <= 12)%nat.
Proof.
  intros Hn. rewrite int_str_nonneg by lia.
  destruct (pretty_N_digits (Z.to_N (Z.of_nat n))) as (_ & _ & _ & Hk).
  apply (Hk 12%N); [lia|]. apply N2Z.inj_lt. rewrite Z2N.id by lia. simpl. lia.
Qed.

Lemma document_line_length k v :
  String.length (document_line k v) =
  (Nat.max 45 (String.length k) + 1 + Nat.max 12 (String.length (int_str (Z.of_nat (length v)))) + 1)%nat.
Proof.
  unfold document_line. rewrite !str_length_app, ljust_length, rjust_length. simpl. lia.
Qed.

Lemma status_color_known m :
  ImportResult.known_status m = true ->
  exists s c, ImportResult.status m = SText s /\ dict_lookup s status_fore_color = Some c /\
    (String.length s <= 8)%nat.
Proof.
  unfold ImportResult.known_status. destruct (ImportResult.status m) as [|s| |]; simpl; try done.
  intros H. exists s.
  repeat (apply orb_prop in H as [H|H];
    [apply String.eqb_eq in H as ->; eexists; split_and!; [done|reflexivity|cbn; lia]|]).
  discriminate.
Qed.

Lemma hasattr_truthy o k : hasattr o k = true -> sobj_truthy o = true.
Proof. by destruct o as [|s|[|f fs]|l]. Qed.

Lemma known_status_text m s :
  ImportResult.status m = SText s -> s ∈ ["Progress"; "Comment"; "Success"; "Warning"; "Error"] ->
  ImportResult.known_status m = true.
Proof.
  intros Hs Hin. unfold ImportResult.known_status. rewrite Hs.
  repeat (apply elem_of_cons in Hin as [->|Hin]; [reflexivity|]). by apply elem_of_nil in Hin.
Qed.

Lemma docs_map_nonempty es : es <> [] -> ExportResult.docs_map es <> [].
Proof.
  intros Hes Hd. destruct es as [|[n d] es]; [done|].
  pose proof (keys_after_length [n] (map fst es)) as Hl.
  pose proof (ExportResult.docs_map_fold_keys ((n, d) :: es) []) as Hk.
  unfold ExportResult.docs_map in Hd. rewrite Hd in Hk. simpl in Hk.
  rewrite <- Hk in Hl. simpl in Hl. lia.
Qed.

(** A str without a [.] character. *)
Definition no_dot (s : string) : Prop :=
  existsb (fun x => Ascii.eqb x ".") (list_ascii_of_string s) = false.

Lemma no_dot_app s t : no_dot s -> no_dot t -> no_dot (s +:+ t).
Proof.
  unfold no_dot. rewrite list_ascii_of_string_app, existsb_app. intros -> ->. done.
Qed.

Lemma no_dot_int_str n : (0 <= n)%Z -> no_dot (int_str n).
Proof.
  intros Hn. rewrite int_str_nonneg by done. apply all_digits_no_dot, pretty_N_digits.
Qed.

Lemma no_dot_int_zpad w n : (0 <= n)%Z -> no_dot (int_zpad w n).
Proof.
  intros Hn. unfold int_zpad. destruct (Z.ltb_spec n 0); [lia|].
  apply all_digits_no_dot, zpad_digits.
Qed.

(** [timedelta(milliseconds=ms)] for [ms >= 0]: its days, and no
    microseconds for a whole number of seconds. *)
Lemma timedelta_of_ms_fields ms d :
  timedelta_of_ms ms = Ok d -> (0 <= ms)%Z ->
  d = (ms * 1000)%Z /\ td_days d = (ms / 86400000)%Z /\
  ((ms mod 1000 = 0)%Z -> td_microseconds d = 0%Z).
Proof.
  unfold timedelta_of_ms, mk_timedelta. case_match; [|discriminate]. intros [= <-] Hms.
  unfold td_days, td_microseconds, us_per_day, us_per_second. split_and!; [done| |].
  - change (86400 * 1000000)%Z with (86400000 * 1000)%Z. apply Z.div_mul_cancel_r; lia.
  - intros Hm. change 1000000%Z with (1000 * 1000)%Z. rewrite Z.mul_mod_distr_r by lia. lia.
Qed.

Section Messages.
Variable obj_str obj_repr : sobj -> string.

Lemma message_str_known m :
  ImportResult.known_status m = true ->
  exists c s, ImportResult.status m = SText s /\
    ImportMessage_str obj_str obj_repr m =
    Ok (time_str (ImportResult.time m) +:+ "  " +:+ int_zpad 5 (ImportResult.row m) +:+ "  " +:+
        c +:+ ljust 8 s +:+ Fore_RESET +:+ "  " +:+ sobj_str obj_str (ImportResult.message m)).
Proof.
  intros Hk. destruct (status_color_known m Hk) as (s & c & Hs & Hc & _).
  exists c, s. split; [done|]. unfold ImportMessage_str. rewrite Hs. cbn [status_color]. by rewrite Hc.
Qed.

Lemma message_str_unknown m s :
  ImportResult.status m = SText s -> s ∉ ["Progress"; "Comment"; "Success"; "Warning"; "Error"] ->
  ImportMessage_str obj_str obj_repr m = Raise (KeyError s).
Proof.
  intros Hs Hn. unfold ImportMessage_str. rewrite Hs. simpl.
  repeat match goal with |- context [String.eqb s ?t] =>
    destruct (String.eqb_spec s t); [set_solver|] end.
  done.
Qed.

Lemma log_messages_status fi (P : ImportResult.log_entry -> Prop) es ps row :
  ImportResult.parsed fi es ps -> Forall P es ->
  Forall (fun m => exists e, P e /\ ImportResult.status m = SText (ImportResult.le_result e))
    (ImportResult.log_messages row es ps).
Proof.
  intros Hp. revert row. induction Hp as [|e [mk t] es ps He Hp IH]; intros row HP; simpl; [done|].
  apply Forall_cons in HP as [He' HP]. constructor; [eauto|]. by apply IH.
Qed.
End Messages.

(** ** Claims *)

(** [str(timedelta)] of a non-negative number of milliseconds: no
    fractional part for a whole number of seconds, the number of days
    first from a day on. *)
Lemma timedelta_str_shape ms d :
  timedelta_of_ms ms = Ok d -> (0 <= ms)%Z ->
  ((ms mod 1000 = 0)%Z -> str_contains "." (timedelta_str d) = false) /\
  ((86400000 <= ms)%Z ->
   String.prefix (int_str (ms / 86400000) +:+ " day") (timedelta_str d) = true).
Proof.
  intros Hd Hms. destruct (timedelta_of_ms_fields ms d Hd Hms) as (-> & Hdays & Hus).
  pose proof (td_seconds_range (ms * 1000)) as Hs. split.
  - intros Hm. rewrite str_contains_char. unfold timedelta_str. rewrite Hus, Hdays by done.
    repeat apply no_dot_app; try reflexivity;
      [case_match; [done|] | apply no_dot_int_str | apply no_dot_int_zpad | apply no_dot_int_zpad].
    + repeat apply no_dot_app; try reflexivity; [apply no_dot_int_str, Z.div_pos; lia|].
      by case_match.
    + apply Z.div_pos; lia.
    + apply Z.mod_pos_bound. lia.
    + apply Z.mod_pos_bound. lia.
  - intros Hge. unfold timedelta_str. rewrite Hdays.
    destruct (Z.eqb_spec (ms / 86400000) 0) as [H0|_].
    { pose proof (Z.div_le_lower_bound ms 86400000 1). lia. }
    str_assoc. rewrite (str_app_assoc (int_str _) " day"). apply str_prefix_app.
Qed.

Section Claims.
Context `{ZipArchive}.
Variable obj_str obj_repr : sobj -> string.
Variable field_repr : string.

(** C30 *)
(** The rendering of a successful export without documents starts
    with an error banner: [has_error] was never assigned, so [__str__]
    reads the class-level [dataclasses.Field], which is truthy, and
    prints [ERROR: ] followed by the repr of the unassigned
    [error_msg] field, before the data. *)
Theorem export_str_success_unset resp :
  hasattr resp "Export" = false -> hasattr resp "Report" = true ->
  ExportResult.report_documents resp = None ->
  exists r, ExportResult.from_suds resp = Ok (r, resp) /\
    ExportResult_str obj_str obj_repr field_repr r =
    Ok ("ERROR: " +:+ field_repr +:+ nl +:+ "[Data]: " +:+ nl +:+ sobj_str obj_str resp +:+ nl).
Proof.
  intros He Hr Hd. eexists. split.
  - unfold ExportResult.from_suds. rewrite handle_no_export by (try done; by intros ->). simpl.
    rewrite Hd. simpl. by rewrite Hr, andb_false_r.
  - unfold ExportResult_str. simpl. rewrite (hasattr_truthy resp "Report") by done.
    unfold error_banner. simpl. f_equal. by str_assoc.
Qed.

(** C18 *)
(** The rendering of an export whose [Report.Documents] is the base64
    of an archive: the data (the response with [Documents] deleted),
    then the documents table with one line per member name, in the
    order the names first occur in the archive, each with the size of
    the member [read] returns for that name, the last of that name. *)
Theorem export_str_documents resp es :
  hasattr resp "Export" = false ->
  ExportResult.report_documents resp = Some (b64encode (zip_write es)) -> es <> [] ->
  exists r, ExportResult.from_suds resp = Ok (r, ExportResult.drop_documents resp) /\
    ExportResult_str obj_str obj_repr field_repr r =
    Ok ("[Data]: " +:+ nl +:+ sobj_str obj_str (ExportResult.drop_documents resp) +:+ nl +:+
        "[Documents]: " +:+ nl +:+ Style_BRIGHT +:+ documents_header +:+ nl +:+ Style_RESET_ALL +:+
        String.concat "" (map (fun '(k, v) => document_line k v) (ExportResult.docs_map es))) /\
    dict_keys (ExportResult.docs_map es) = keys_after [] (map fst es) /\
    forall k, dict_lookup k (ExportResult.docs_map es) = zip_member es k.
Proof.
  intros He Hd Hes. pose proof (ExportResult.report_documents_hasattr _ _ Hd) as Hr.
  rewrite (ExportResult.from_suds_documents_from ExportResult.empty_result resp (b64encode (zip_write es))); try done.
  2: { apply handle_no_export; [by eapply ExportResult.report_documents_not_none|done]. }
  rewrite ExportResult.read_documents_write. simpl. eexists. split_and!; [done| | |].
  - unfold ExportResult_str. simpl.
    rewrite (hasattr_truthy _ "Report") by (by rewrite ExportResult.hasattr_drop_documents).
    simpl. unfold documents_section.
    destruct (ExportResult.docs_map es) eqn:Em; [by apply docs_map_nonempty in Hes|].
    rewrite <- Em. f_equal. by str_assoc.
  - apply ExportResult.docs_map_fold_keys.
  - apply ExportResult.docs_map_lookup.
Qed.

(** Every line of the documents table is as wide as its header, plus
    the characters by which a name exceeds its 45 columns: the name is
    padded, never cut, and a size below 10^12 bytes fits its 12
    columns. *)
Theorem document_line_width k v :
  (Z.of_nat (length v) < 10 ^ 12)%Z ->
  String.length (document_line k v) =
  (String.length documents_header + 1 + (String.length k - 45))%nat.
Proof.
  intros Hv. rewrite document_line_length. pose proof (int_str_size_length _ Hv).
  change (String.length documents_header) with 58%nat. lia.
Qed.

(** C31 *)
(** Rendering an import result is safe for the statuses of the
    [ImportMessageStatus] literal type: when every log entry converts
    and carries one of the five statuses, [from_suds] returns a result
    whose [__str__] returns. *)
Theorem import_str_known_statuses fi es :
  Forall (fun e => ImportResult.entry_ok fi e = true) es ->
  Forall (fun e => ImportResult.le_result e ∈ ["Progress"; "Comment"; "Success"; "Warning"; "Error"]) es ->
  exists r s, ImportResult.from_suds fi (ImportResult.import_response es) = Ok r /\
    ImportResult_str obj_str obj_repr field_repr r = Ok s.
Proof.
  intros Hok Hst. destruct (ImportResult.from_suds_log_ok fi es Hok) as (ps & Hp & Hr).
  pose proof (ImportResult.log_fold_fields fi es ps 0%Z
                (ImportResult.with_has_error false ImportResult.empty_result) Hp) as Hf.
  destruct (ImportResult.log_fold _ es ps) as [row' r'] eqn:E. simpl in Hr.
  destruct Hf as (_ & _ & Hel & _ & _ & Hm). simpl in Hel, Hm.
  destruct (res_mapM_all_ok (ImportMessage_str obj_str obj_repr) (ImportResult.messages r'))
    as [ls Hls].
  { rewrite Hm. eapply Forall_impl; [by eapply log_messages_status|].
    intros m (e & He & Hs).
    by destruct (message_str_known obj_str obj_repr m) as (c & s & _ & ->);
      [eapply known_status_text|]. }
  exists r'. unfold ImportResult_str. rewrite Hel.
  destruct (ImportResult.messages r'); [by eexists|]. rewrite Hls. by eexists.
Qed.

(** C32 *)
(** The literal type of [status] is not enforced: a message whose
    status text is not one of the five makes [__str__] of the import
    result raise [KeyError] on the colour table, at the first such
    message. *)
Theorem import_str_unknown_status r pre m post s :
  ImportResult.messages r = pre ++ m :: post ->
  Forall (fun m' => ImportResult.known_status m' = true) pre ->
  ImportResult.status m = SText s ->
  s ∉ ["Progress"; "Comment"; "Success"; "Warning"; "Error"] ->
  ImportResult_str obj_str obj_repr field_repr r = Raise (KeyError s).
Proof.
  intros Hms Hpre Hs Hn.
  assert (Hf : res_mapM (ImportMessage_str obj_str obj_repr) (pre ++ m :: post) = Raise (KeyError s)).
  { apply res_mapM_first_error; [|by apply message_str_unknown].
    eapply Forall_impl; [exact Hpre|]. intros m' Hk.
    by destruct (message_str_known obj_str obj_repr m' Hk) as (c & s' & _ & ->). }
  unfold ImportResult_str. rewrite Hms. destruct pre; cbn [app] in Hf |- *; by rewrite Hf.
Qed.


(** C33 *)
(** [__str__] of an import result prints its elapsed time with
    [str(timedelta)], not in the [(h:mm:ss.mmmmmm)] form the label of
    its line announces: the line [Elapsed time  : <t> (h:mm:ss.mmmmmm)]
    it prints has no fractional part in [t] for a whole number of
    seconds, and [t] starts with the number of days for a day or
    more. *)
Theorem import_str_elapsed_time r ms d s :
  ImportResult.elapsed_time r = Some d -> timedelta_of_ms ms = Ok d -> (0 <= ms)%Z ->
  ImportResult_str obj_str obj_repr field_repr r = Ok s ->
  exists pre post t,
    s = pre +:+ "Elapsed time  : " +:+ t +:+ " (h:mm:ss.mmmmmm)" +:+ nl +:+ post /\
    ((ms mod 1000 = 0)%Z -> str_contains "." t = false) /\
    ((86400000 <= ms)%Z -> String.prefix (int_str (ms / 86400000) +:+ " day") t = true).
Proof.
  intros He Hd Hms Hs. unfold ImportResult_str in Hs. rewrite He in Hs.
  destruct (match ImportResult.messages r with [] => _ | _ => _ end) as [sm|]; [|done].
  destruct (match ImportResult.elements r with [] => _ | _ => _ end) as [se|]; [|done].
  injection Hs as <-. destruct (timedelta_str_shape ms d Hd Hms) as [H1 H2].
  set (s_err := error_banner _ _ _ _ _). set (s_rows := match ImportResult.total_rows r with
                   | Some n => "Rows imported : " +:+ int_str n +:+ nl | None => "" end).
  exists (s_err +:+ s_rows), (sm +:+ se), (timedelta_str d). split_and!; [|exact H1|exact H2].
  by rewrite <- !str_app_assoc.
Qed.
End Claims.



(** ** Witnesses *)

(** Stand-ins for the suds printer and the repr of the unassigned
    [error_msg] field. *)
Definition sample_obj_str (o : sobj) : string := "(sudsobject)".
Definition sample_field_repr : string := "Field(name=None,type=None,default=None)".

Definition report_only : sobj := SObj [("Report", SObj [])].

Lemma export_str_success_unset_witness :
  exists r, ExportResult.from_suds report_only = Ok (r, report_only) /\
    ExportResult_str sample_obj_str sample_obj_str sample_field_repr r =
    Ok ("ERROR: " +:+ sample_field_repr +:+ nl +:+ "[Data]: " +:+ nl +:+
        sobj_str sample_obj_str report_only +:+ nl).
Proof. apply export_str_success_unset; reflexivity. Defined.

Lemma export_str_documents_witness :
  exists r, ExportResult.from_suds ExportResult.sample_export =
    Ok (r, ExportResult.drop_documents ExportResult.sample_export) /\
    ExportResult_str sample_obj_str sample_obj_str sample_field_repr r =
    Ok ("[Data]: " +:+ nl +:+ sobj_str sample_obj_str (ExportResult.drop_documents ExportResult.sample_export) +:+
        nl +:+ "[Documents]: " +:+ nl +:+ Style_BRIGHT +:+ documents_header +:+ nl +:+ Style_RESET_ALL +:+
        String.concat "" (map (fun '(k, v) => document_line k v)
                            (ExportResult.docs_map [("a.txt", ExportResult.hello)]))) /\
    dict_keys (ExportResult.docs_map [("a.txt", ExportResult.hello)]) = keys_after [] ["a.txt"] /\
    (forall k, dict_lookup k (ExportResult.docs_map [("a.txt", ExportResult.hello)]) =
               zip_member [("a.txt", ExportResult.hello)] k).
Proof.
  apply (export_str_documents sample_obj_str sample_obj_str sample_field_repr
           ExportResult.sample_export [("a.txt", ExportResult.hello)]);
    [reflexivity|vm_compute; reflexivity|discriminate].
Defined.

Lemma document_line_width_witness :
  String.length (document_line "a.txt" ExportResult.hello) =
  (String.length documents_header + 1 + (String.length "a.txt" - 45))%nat /\
  String.length (document_line "a.txt" ExportResult.hello) = 59%nat.
Proof.
  split; [apply document_line_width; vm_compute; reflexivity|vm_compute; reflexivity].
Defined.

Lemma import_str_known_statuses_witness :
  exists r s, ImportResult.from_suds ImportResult.hms_time (ImportResult.import_response ImportResult.sample_log) = Ok r /\
    ImportResult_str sample_obj_str sample_obj_str sample_field_repr r = Ok s.
Proof.
  apply import_str_known_statuses; apply (bool_decide_unpack _); vm_compute; exact I.
Defined.

Definition info_message : ImportResult.ImportMessage :=
  ImportResult.mkImportMessage
    {| tod_hour := 21; tod_minute := 52; tod_second := 34; tod_microsecond := 0 |}
    (SText "Info") (SText "Import started") 0.

Definition info_result : ImportResult.ImportResult :=
  ImportResult.mkImportResult (SetTo false) Unset [info_message] [] None None.

Lemma import_str_unknown_status_witness :
  ImportResult_str sample_obj_str sample_obj_str sample_field_repr info_result = Raise (KeyError "Info").
Proof. apply (import_str_unknown_status _ _ _ info_result [] info_message []); [done|done|done|set_solver]. Defined.



Definition timed_result : ImportResult.ImportResult :=
  ImportResult.mkImportResult (SetTo false) Unset [] [] None (Some 86400000000%Z).

Lemma import_str_elapsed_time_witness :
  exists pre post t,
    "Elapsed time  : 1 day, 0:00:00 (h:mm:ss.mmmmmm)" +:+ nl =
      pre +:+ "Elapsed time  : " +:+ t +:+ " (h:mm:ss.mmmmmm)" +:+ nl +:+ post /\
    ((86400000 mod 1000 = 0)%Z -> str_contains "." t = false) /\
    ((86400000 <= 86400000)%Z -> String.prefix (int_str (86400000 / 86400000) +:+ " day") t = true).
Proof.
  apply (import_str_elapsed_time sample_obj_str sample_obj_str sample_field_repr timed_result
           86400000 86400000000); [reflexivity|vm_compute; reflexivity|lia|vm_compute; reflexivity].
Defined.

End Render.
