(* ===== verification/Credential.v ===== *)
(** * ClientCredential: OAuth2 client credentials and the token cache

    Models [ClientCredential] of [src/pyrelatics_webservices/client.py]
    (lines 41-136).  The object holds [client_id], [client_secret] and
    [tokens], a dict from host name to a dict with the [token] and its
    [expires_on] datetime; here a [gmap] to a record.

    The environment is explicit: [datetime.now()] is read on line 77
    ([now]) and on line 102 ([requested_on]), and the token endpoint is
    a function [server] from the request sent on line 112 to the decoded
    JSON of its reply (line 115).  The connection, the HTTP transport
    and the UTF-8/JSON decoding of the reply are not modelled.

    [retrieve_token] raises, as the code does, before it stores anything,
    so a call that raises leaves the cache as it was. *)

From S2P Require Import Prelude PyStr PyTime Base64 Json.

Module Credential.

Definition TOKEN_PATH : string := "/oauth2/token".
Definition USER_AGENT : string := "Python-pyrelatics_webservice/0.0.0".

(** [self.tokens[hostname]] (lines 131-134). *)
Record token_entry := mkEntry {
  token : json;
  expires_on : datetime
}.

Record ClientCredential := mkCredential {
  client_id : string;
  client_secret : string;
  tokens : gmap string token_entry
}.

(** [ClientCredential.__init__] (lines 50-53). *)
Definition ClientCredential_new (id secret : string) : ClientCredential :=
  mkCredential id secret ∅.

(** [conn.request(method, path, body, headers)] on [HTTPSConnection(host)]. *)
Record request := mkRequest {
  req_host : string;
  req_method : string;
  req_path : string;
  req_body : string;
  req_headers : list (string * string)
}.

(** Lines 103-112: the Basic credentials and the token request. *)
Definition basic_credentials (c : ClientCredential) : string :=
  b64encode (utf8_encode (client_id c +:+ ":" +:+ client_secret c)).

Definition token_request (c : ClientCredential) (hostname user_agent : string) : request :=
  mkRequest hostname "POST" TOKEN_PATH "grant_type=client_credentials"
    [("Authorization", "Basic " +:+ basic_credentials c);
     ("Content-Type", "text/plain");
     ("User-Agent", user_agent)].

(** [datetime.timedelta(seconds=x)] for a decoded JSON value: an int,
    or a bool (an int subclass); anything else is a [TypeError]. *)
Definition seconds_arg (x : json) : res Z :=
  match x with
  | JInt z => Ok z
  | JBool b => Ok (if b then 1%Z else 0%Z)
  | _ => raise TypeError
  end.

Definition token_error_msg (e d : json) : string :=
  "Token request failed: " +:+ json_str e +:+ " (" +:+ json_str d +:+ ")".

(** [ClientCredential.retrieve_token] (lines 86-136). *)
Definition retrieve_token (c : ClientCredential) (hostname user_agent : string)
    (requested_on : datetime) (server : request -> json) : res ClientCredential :=
  let response := server (token_request c hostname user_agent) in
  let! has_error := json_in "error" response in
  if has_error then
    let! e := json_getitem response "error" in
    let! d := json_getitem response "error_description" in
    raise (RuntimeError (token_error_msg e d))
  else
    let! has_token := json_in "access_token" response in
    if negb has_token then raise (KeyError "Token request failed: No access_token was given")
    else
      let! tok := json_getitem response "access_token" in
      let! ei := json_getitem response "expires_in" in
      let! secs := seconds_arg ei in
      let! delta := timedelta_of_seconds secs in
      let! exp := dt_add requested_on delta in
      Ok (mkCredential (client_id c) (client_secret c)
            (<[hostname := mkEntry tok exp]> (tokens c))).

(** The condition of lines 74-78. *)
Definition needs_refresh (c : ClientCredential) (hostname : string) (force_refresh : bool)
    (now : datetime) : bool :=
  force_refresh ||
  match tokens c !! hostname with
  | None => true
  | Some e => (td_seconds (dt_sub (expires_on e) now) <=? 300)%Z
  end.

(** [ClientCredential.get_token] (lines 60-84): the credential after the
    call and the token returned. *)
Definition get_token (c : ClientCredential) (hostname : string) (force_refresh : bool)
    (user_agent : string) (now requested_on : datetime) (server : request -> json)
    : res (ClientCredential * json) :=
  let! c' := if needs_refresh c hostname force_refresh now
             then retrieve_token c hostname user_agent requested_on server
             else Ok c in
  match tokens c' !! hostname with
  | Some e => Ok (c', token e)
  | None => raise (KeyError hostname)
  end.

(** The credentials a [ClientCredential] goes through: created, then
    [get_token] and [retrieve_token] calls that return, with any clock
    readings and any replies. *)
Inductive cred_reach (id secret : string) : ClientCredential -> Prop :=
  | reach_new : cred_reach id secret (ClientCredential_new id secret)
  | reach_get c h f ua now t server c' tok :
      cred_reach id secret c -> get_token c h f ua now t server = Ok (c', tok) ->
      cred_reach id secret c'
  | reach_retrieve c h ua t server c' :
      cred_reach id secret c -> retrieve_token c h ua t server = Ok c' ->
      cred_reach id secret c'.

(** The invariant of the cache: the client never changes and every
    cached expiry is a valid datetime. *)
Definition cred_inv (id secret : string) (c : ClientCredential) : Prop :=
  client_id c = id /\ client_secret c = secret /\
  map_Forall (fun _ e => (0 <= expires_on e <= datetime_max)%Z) (tokens c).


(** ** Lemmas *)

Lemma retrieve_token_Ok c h ua t server c' :
  retrieve_token c h ua t server = Ok c' ->
  client_id c' = client_id c /\ client_secret c' = client_secret c /\
  exists tok exp, tokens c' = <[h := mkEntry tok exp]> (tokens c) /\
                  (0 <= exp <= datetime_max)%Z.
Proof.
  unfold retrieve_token. intros Hr. res_crush. do 2 (split; [done|]).
  eexists _, _. split; [done|].
  match goal with H : dt_add _ _ = Ok _ |- _ => by apply dt_add_Ok in H as [_ ?] end.
Qed.

Lemma get_token_Ok c h f ua now t server c' tok :
  get_token c h f ua now t server = Ok (c', tok) ->
  (c' = c \/ retrieve_token c h ua t server = Ok c') /\
  exists e, tokens c' !! h = Some e /\ token e = tok.
Proof.
  unfold get_token. intros Hg.
  destruct (needs_refresh c h f now);
    [destruct (retrieve_token c h ua t server) as [c1|] eqn:Er|]; simpl in Hg; try discriminate.
  all: destruct (tokens _ !! h) as [e|] eqn:Ee; [|discriminate]; injection Hg as <- <-.
  all: split; [by auto|by exists e].
Qed.

(** A cache hit that does not need a refresh returns the cached token
    and leaves the credential unchanged. *)
Lemma get_token_cached c h f ua now t server e :
  tokens c !! h = Some e -> needs_refresh c h f now = false ->
  get_token c h f ua now t server = Ok (c, token e).
Proof. intros He Hn. unfold get_token. rewrite Hn. simpl. by rewrite He. Qed.

(** When the condition holds, not forcing is forcing. *)
Lemma get_token_refresh c h ua now t server :
  needs_refresh c h false now = true ->
  get_token c h false ua now t server = get_token c h true ua now t server.
Proof. intros Hn. unfold get_token. by rewrite Hn. Qed.

Lemma needs_refresh_cached c h now e :
  tokens c !! h = Some e ->
  needs_refresh c h false now = (td_seconds (dt_sub (expires_on e) now) <=? 300)%Z.
Proof. intros He. unfold needs_refresh. by rewrite He. Qed.


(** ** The reuse rule *)

(** Without [force_refresh], a cached token whose [(expires_on - now).seconds]
    is above 300 is returned as it is, the credential is unchanged and
    the token endpoint is not asked (the result does not depend on
    [server] or [requested_on]). *)
Theorem get_token_reuse c h ua now t server e :
  tokens c !! h = Some e -> (300 < td_seconds (dt_sub (expires_on e) now))%Z ->
  get_token c h false ua now t server = Ok (c, token e).
Proof.
  intros He Hs. apply get_token_cached; [done|].
  rewrite (needs_refresh_cached _ _ _ _ He). by apply Z.leb_gt.
Qed.

(** C15 *)
(** For a cached token with less than a day left, the rule is the
    intended one: it is reused when at least 301 whole seconds are
    left, and a new token is retrieved otherwise. *)
Theorem get_token_within_day c h ua now t server e :
  tokens c !! h = Some e -> (0 <= dt_sub (expires_on e) now < us_per_day)%Z ->
  get_token c h false ua now t server =
    if (dt_sub (expires_on e) now <? 301 * us_per_second)%Z
    then get_token c h true ua now t server
    else Ok (c, token e).
Proof.
  intros He Hr. pose proof (needs_refresh_cached c h now e He) as Hn.
  rewrite td_seconds_le_300 in Hn by done.
  destruct (dt_sub (expires_on e) now <? 301 * us_per_second)%Z.
  - by apply get_token_refresh.
  - by apply get_token_cached.
Qed.

(** C7 *)
(** [.seconds] of a negative delta is taken modulo a day: a token that
    expired up to 86099 seconds ago is returned as if valid, without
    asking the token endpoint. *)
Theorem get_token_expired_reuse c h ua now t server e :
  tokens c !! h = Some e ->
  (0 < now - expires_on e <= 86099 * us_per_second)%Z ->
  get_token c h false ua now t server = Ok (c, token e).
Proof.
  intros He Hx. apply get_token_cached; [done|].
  rewrite (needs_refresh_cached _ _ _ _ He).
  replace (dt_sub (expires_on e) now) with (-1 * us_per_day + (us_per_day + dt_sub (expires_on e) now))%Z
    by ring.
  unfold dt_sub in *. rewrite td_seconds_shift, td_seconds_le_300
    by (unfold us_per_day, us_per_second in *; lia).
  apply Z.ltb_ge. unfold us_per_day, us_per_second in *. lia.
Qed.

(** C8 *)
(** A token with [k >= 1] whole days and less than 301 seconds left has
    [.seconds <= 300]: [get_token] retrieves a new one as if forced,
    although the cached token is valid for more than a day. *)
Theorem get_token_early_refresh c h ua now t server e k r :
  tokens c !! h = Some e -> (1 <= k)%Z -> (0 <= r < 301 * us_per_second)%Z ->
  dt_sub (expires_on e) now = (k * us_per_day + r)%Z ->
  get_token c h false ua now t server = get_token c h true ua now t server.
Proof.
  intros He Hk Hr Hd. apply get_token_refresh.
  rewrite (needs_refresh_cached _ _ _ _ He), Hd, td_seconds_shift, td_seconds_le_300
    by (unfold us_per_day, us_per_second in *; lia).
  apply Z.ltb_lt. lia.
Qed.

(** ** Refreshing within a day

    A caller that asks for a token at the times [t0 :: ts], in order and
    never more than [w] apart. *)
Fixpoint polls_within (w : Z) (t0 : datetime) (ts : list datetime) : bool :=
  match ts with
  | [] => true
  | t :: ts' => (t0 <=? t)%Z && (t - t0 <=? w)%Z && polls_within w t ts'
  end.

Lemma last_cons_default {A} (x : A) (l : list A) d1 d2 :
  List.last (x :: l) d1 = List.last (x :: l) d2.
Proof. revert x. induction l as [|y l IH]; intros x; [done|]. apply IH. Qed.

(** Some poll falls in every window [(tz - w, tz]] that the polls
    straddle. *)
Lemma polls_hit_window w tz t0 ts :
  polls_within w t0 ts = true -> (t0 <= tz)%Z -> (tz < List.last ts t0)%Z ->
  exists t, t ∈ t0 :: ts /\ (tz - w < t <= tz)%Z.
Proof.
  revert t0. induction ts as [|t1 ts IH]; intros t0 Hp H0 Hl; simpl in *; [lia|].
  apply andb_prop in Hp as [[H01 Hw]%andb_prop Hp]. apply Z.leb_le in H01, Hw.
  destruct (Z.leb_spec t1 tz) as [H1|H1].
  - destruct (IH t1 Hp H1) as (t & Ht & Hr).
    { destruct ts as [|t2 ts]; [lia|]. by rewrite (last_cons_default _ _ t1 t0). }
    exists t. split; [by right|done].
  - exists t0. split; [by left|lia].
Qed.

(** [(x - t).seconds <= 300] when [t] is in the 301 seconds before a
    time [tz] a whole number of days before [x]. *)
Lemma td_seconds_before x tz t q :
  (x - tz = q * us_per_day)%Z -> (tz - 301 * us_per_second < t <= tz)%Z ->
  (td_seconds (dt_sub x t) <= 300)%Z.
Proof.
  intros Hq Ht. unfold dt_sub.
  replace (x - t)%Z with (q * us_per_day + (tz - t))%Z by lia.
  rewrite td_seconds_shift. apply Z.leb_le. rewrite td_seconds_le_300.
  - apply Z.ltb_lt. lia.
  - unfold us_per_day, us_per_second in *. lia.
Qed.

(** C19 *)
(** Liveness of the refresh: a caller that asks for a token at least
    every 301 seconds over a day reaches, within that day, a call at
    which [get_token] retrieves a new token as if forced, whatever the
    cached expiry (in the past, near, or days ahead). *)
Theorem get_token_refresh_within_day c h ua req server now ts :
  polls_within (301 * us_per_second) now ts = true ->
  (now + us_per_day <= List.last ts now)%Z ->
  exists t, t ∈ now :: ts /\ needs_refresh c h false t = true /\
    get_token c h false ua t req server = get_token c h true ua t req server.
Proof.
  intros Hp Hl.
  cut (exists t, t ∈ now :: ts /\ needs_refresh c h false t = true).
  { intros (t & Ht & Hn). exists t. split_and!; [done|done|]. by apply get_token_refresh. }
  destruct (tokens c !! h) as [e|] eqn:He.
  2: { exists now. split; [by left|]. unfold needs_refresh. by rewrite He. }
  set (k := ((expires_on e - now) mod us_per_day)%Z).
  assert (Hk : (0 <= k < us_per_day)%Z) by (apply Z.mod_pos_bound; unfold us_per_day, us_per_second; lia).
  destruct (polls_hit_window (301 * us_per_second) (now + k) now ts) as (t & Ht & Hw);
    [done|lia|lia|].
  exists t. split; [done|]. rewrite (needs_refresh_cached _ _ _ _ He). apply Z.leb_le.
  apply (td_seconds_before _ (now + k) _ ((expires_on e - now) / us_per_day)); [|done].
  pose proof (Z.div_mod (expires_on e - now) us_per_day). unfold k. lia.
Qed.

(** ** Retrieving a token *)

(** A reply object without [error], with [access_token] and an int
    [expires_in] whose expiry is a valid datetime is stored under the host. *)
Lemma retrieve_token_reply c h ua t server fs tok n :
  server (token_request c h ua) = JObj fs ->
  "error" ∉ map fst fs -> json_lookup "access_token" fs = Some tok ->
  json_lookup "expires_in" fs = Some (JInt n) ->
  (0 <= t <= datetime_max)%Z -> (0 <= t + n * us_per_second <= datetime_max)%Z ->
  retrieve_token c h ua t server =
    Ok (mkCredential (client_id c) (client_secret c)
          (<[h := mkEntry tok (t + n * us_per_second)]> (tokens c))).
Proof.
  intros Hs He Ht Hn Hr1 Hr2.
  unfold retrieve_token. rewrite Hs, !json_in_obj, bool_decide_false by done. simpl.
  rewrite bool_decide_true by (by eapply json_lookup_in). simpl. rewrite Ht, Hn. simpl.
  rewrite timedelta_of_seconds_small by lia. simpl. by rewrite dt_add_in_range.
Qed.

(** A reply object without [error], with [access_token] and an int
    [expires_in] whose expiry is a valid datetime: [retrieve_token]
    caches the token under the host with expiry
    [requested_on + expires_in] seconds, and a forced [get_token]
    returns it. *)
Theorem retrieve_token_stores c h ua now t server fs tok n :
  server (token_request c h ua) = JObj fs ->
  "error" ∉ map fst fs -> json_lookup "access_token" fs = Some tok ->
  json_lookup "expires_in" fs = Some (JInt n) ->
  (0 <= t <= datetime_max)%Z -> (0 <= t + n * us_per_second <= datetime_max)%Z ->
  let c' := mkCredential (client_id c) (client_secret c)
              (<[h := mkEntry tok (t + n * us_per_second)]> (tokens c)) in
  retrieve_token c h ua t server = Ok c' /\ get_token c h true ua now t server = Ok (c', tok).
Proof.
  intros Hs He Ht Hn Hr1 Hr2 c'.
  assert (Hret : retrieve_token c h ua t server = Ok c') by by eapply retrieve_token_reply.
  split; [done|]. unfold get_token. simpl. rewrite Hret. simpl. by rewrite lookup_insert_eq.
Qed.

(** C16 *)
(** The reuse window of the specification: after a token with
    [596 <= expires_in < 86400] seconds was retrieved at
    [requested_on], a [get_token] within 295 seconds returns it without
    a second request.  For [expires_in < 596] or a day or more the
    window does not hold ([get_token_early_refresh]). *)
Theorem get_token_reuse_window c h ua t server fs tok n now t' server' :
  server (token_request c h ua) = JObj fs ->
  "error" ∉ map fst fs -> json_lookup "access_token" fs = Some tok ->
  json_lookup "expires_in" fs = Some (JInt n) ->
  (596 <= n < 86400)%Z -> (0 <= t)%Z -> (t + n * us_per_second <= datetime_max)%Z ->
  (t <= now <= t + 295 * us_per_second)%Z ->
  exists c', retrieve_token c h ua t server = Ok c' /\
             get_token c' h false ua now t' server' = Ok (c', tok).
Proof.
  intros Hs He Ht Hn Hb Ht0 Htm Hnow.
  eexists. split; [eapply retrieve_token_reply; eauto; unfold us_per_second in *; lia|].
  apply (get_token_cached _ _ _ _ _ _ _ (mkEntry tok (t + n * us_per_second)));
    [simpl; by rewrite lookup_insert_eq|].
  rewrite (needs_refresh_cached _ _ _ (mkEntry tok (t + n * us_per_second)))
    by (simpl; by rewrite lookup_insert_eq).
  simpl. rewrite td_seconds_le_300 by (unfold dt_sub, us_per_day, us_per_second in *; lia).
  apply Z.ltb_ge. unfold dt_sub, us_per_second in *. lia.
Qed.

(** C40 *)
(** A reply object with an [error] member raises [RuntimeError] with
    both members in its message; when [error_description] is missing
    the code raises [KeyError('error_description')] instead. *)
Theorem retrieve_token_error_response c h ua t server fs e :
  server (token_request c h ua) = JObj fs -> json_lookup "error" fs = Some e ->
  retrieve_token c h ua t server =
    match json_lookup "error_description" fs with
    | Some d => raise (RuntimeError (token_error_msg e d))
    | None => raise (KeyError "error_description")
    end.
Proof.
  intros Hs He. unfold retrieve_token. rewrite Hs, json_in_obj.
  rewrite bool_decide_true by (by eapply json_lookup_in). simpl. rewrite He. simpl.
  by destruct (json_lookup "error_description" fs).
Qed.

(** A reply object with neither [error] nor [access_token] raises the
    [KeyError] of line 128. *)
Theorem retrieve_token_no_access_token c h ua t server fs :
  server (token_request c h ua) = JObj fs ->
  "error" ∉ map fst fs -> "access_token" ∉ map fst fs ->
  retrieve_token c h ua t server =
    raise (KeyError "Token request failed: No access_token was given").
Proof.
  intros Hs He Ha. unfold retrieve_token. rewrite Hs, !json_in_obj, !bool_decide_false by done.
  done.
Qed.

(** A [get_token] call that returns changes at most the entry of its own
    host, keeps the client, and returns the token then cached for the
    host. *)
Theorem get_token_frame c h f ua now t server c' tok :
  get_token c h f ua now t server = Ok (c', tok) ->
  client_id c' = client_id c /\ client_secret c' = client_secret c /\
  (forall h', h' <> h -> tokens c' !! h' = tokens c !! h') /\
  exists e, tokens c' !! h = Some e /\ token e = tok.
Proof.
  intros [[->|Hr] He]%get_token_Ok; [done|]. split_and!; try apply He.
  - by apply retrieve_token_Ok in Hr as [? _].
  - by apply retrieve_token_Ok in Hr as [_ [? _]].
  - intros h' Hne. apply retrieve_token_Ok in Hr as (_ & _ & tok' & exp & -> & _).
    by rewrite lookup_insert_ne.
Qed.

(** The [Authorization] header of the token request is [Basic] followed
    by base64 text that decodes to the UTF-8 bytes of
    [client_id:client_secret]; for ASCII credentials, the bytes of the
    characters. *)
Theorem token_request_credentials c h ua :
  (req_headers (token_request c h ua) !! 0%nat =
     Some ("Authorization", "Basic " +:+ basic_credentials c)) /\
  b64decode (basic_credentials c) = Ok (utf8_encode (client_id c +:+ ":" +:+ client_secret c)) /\
  (Forall (fun a => nat_of_ascii a < 128)%nat
     (list_ascii_of_string (client_id c +:+ ":" +:+ client_secret c)) ->
   b64decode (basic_credentials c) =
     Ok (map Ascii.byte_of_ascii (list_ascii_of_string (client_id c +:+ ":" +:+ client_secret c)))).
Proof.
  split_and!; [done|apply b64decode_b64encode|]. intros Ha.
  unfold basic_credentials. by rewrite b64decode_b64encode, utf8_encode_ascii.
Qed.

(** Every credential reachable from [ClientCredential(id, secret)] by
    calls that return keeps [id] and [secret], and caches only expiries
    that are valid datetimes. *)
Theorem cred_reach_inv id secret c : cred_reach id secret c -> cred_inv id secret c.
Proof.
  induction 1 as [|c h f ua now t server c' tok _ IH Hg|c h ua t server c' _ IH Hr].
  - split_and!; [done|done|apply map_Forall_empty].
  - apply get_token_Ok in Hg as [[->|Hr] _]; [done|].
    apply retrieve_token_Ok in Hr as (Hi & Hs & tok' & exp & Ht & Hx).
    destruct IH as (Hi' & Hs' & Hf). split_and!; [congruence|congruence|].
    rewrite Ht. by apply map_Forall_insert_2.
  - apply retrieve_token_Ok in Hr as (Hi & Hs & tok' & exp & Ht & Hx).
    destruct IH as (Hi' & Hs' & Hf). split_and!; [congruence|congruence|].
    rewrite Ht. by apply map_Forall_insert_2.
Qed.


(** ** Witnesses *)

Definition host : string := "acme.relaticsonline.com".

(** Some day in 2021, as a naive datetime. *)
Definition day0 : datetime := (737800 * us_per_day)%Z.

Definition cached (exp : datetime) : ClientCredential :=
  mkCredential "id" "secret"
    {[host := mkEntry (JStr "old") exp; "other.relaticsonline.com" := mkEntry (JStr "x") day0]}.

Definition reply_ok (_ : request) : json :=
  JObj [("access_token", JStr "new"); ("token_type", JStr "bearer"); ("expires_in", JInt 3600)].

Lemma get_token_reuse_witness :
  get_token (cached (day0 + 3600 * us_per_second)) host false USER_AGENT day0 day0 reply_ok =
  Ok (cached (day0 + 3600 * us_per_second), JStr "old").
Proof.
  apply (get_token_reuse _ _ _ _ _ _ (mkEntry (JStr "old") (day0 + 3600 * us_per_second)));
    vm_compute; reflexivity.
Defined.

Lemma get_token_within_day_witness :
  get_token (cached (day0 + 200 * us_per_second)) host false USER_AGENT day0 day0 reply_ok =
  get_token (cached (day0 + 200 * us_per_second)) host true USER_AGENT day0 day0 reply_ok.
Proof.
  rewrite (get_token_within_day _ _ _ _ _ _ (mkEntry (JStr "old") (day0 + 200 * us_per_second))).
  - vm_compute. reflexivity.
  - vm_compute. reflexivity.
  - unfold dt_sub, day0, us_per_day, us_per_second. simpl. lia.
Defined.

Lemma get_token_expired_reuse_witness :
  get_token (cached (day0 - 3600 * us_per_second)) host false USER_AGENT day0 day0 reply_ok =
  Ok (cached (day0 - 3600 * us_per_second), JStr "old").
Proof.
  apply (get_token_expired_reuse _ _ _ _ _ _ (mkEntry (JStr "old") (day0 - 3600 * us_per_second))).
  - vm_compute. reflexivity.
  - unfold day0, us_per_day, us_per_second. simpl. lia.
Defined.

Lemma get_token_early_refresh_witness :
  get_token (cached (day0 + us_per_day + 100 * us_per_second)) host false USER_AGENT day0 day0 reply_ok =
  get_token (cached (day0 + us_per_day + 100 * us_per_second)) host true USER_AGENT day0 day0 reply_ok.
Proof.
  apply (get_token_early_refresh _ _ _ _ _ _
           (mkEntry (JStr "old") (day0 + us_per_day + 100 * us_per_second)) 1 (100 * us_per_second)).
  - vm_compute. reflexivity.
  - lia.
  - unfold us_per_second. lia.
  - unfold dt_sub. simpl. lia.
Defined.

Lemma retrieve_token_stores_witness :
  retrieve_token (ClientCredential_new "id" "secret") host USER_AGENT day0 reply_ok =
    Ok (mkCredential "id" "secret" (<[host := mkEntry (JStr "new") (day0 + 3600 * us_per_second)]> ∅)) /\
  get_token (ClientCredential_new "id" "secret") host true USER_AGENT day0 day0 reply_ok =
    Ok (mkCredential "id" "secret" (<[host := mkEntry (JStr "new") (day0 + 3600 * us_per_second)]> ∅),
        JStr "new").
Proof.
  apply (retrieve_token_stores (ClientCredential_new "id" "secret") host USER_AGENT day0 day0 reply_ok
           [("access_token", JStr "new"); ("token_type", JStr "bearer"); ("expires_in", JInt 3600)]
           (JStr "new") 3600);
    try (vm_compute; reflexivity).
  - vm_compute. set_solver.
  - unfold day0, datetime_max, us_per_day, us_per_second. lia.
  - unfold day0, datetime_max, us_per_day, us_per_second. lia.
Defined.

Definition reply_error (_ : request) : json :=
  JObj [("error", JStr "invalid_client"); ("error_description", JStr "Client not found.")].

Lemma retrieve_token_error_response_witness :
  retrieve_token (ClientCredential_new "id" "secret") host USER_AGENT day0 reply_error =
    raise (RuntimeError "Token request failed: invalid_client (Client not found.)").
Proof.
  rewrite (retrieve_token_error_response _ _ _ _ _
             [("error", JStr "invalid_client"); ("error_description", JStr "Client not found.")]
             (JStr "invalid_client")); reflexivity.
Defined.

Lemma retrieve_token_no_access_token_witness :
  retrieve_token (ClientCredential_new "id" "secret") host USER_AGENT day0
    (fun _ => JObj [("token_type", JStr "bearer")]) =
    raise (KeyError "Token request failed: No access_token was given").
Proof. apply (retrieve_token_no_access_token _ _ _ _ _ [("token_type", JStr "bearer")]); vm_compute; [done|set_solver..]. Defined.

Definition refreshed : ClientCredential :=
  mkCredential "id" "secret"
    (<[host := mkEntry (JStr "new") (day0 + 3600 * us_per_second)]> (tokens (cached day0))).

Lemma get_token_frame_witness :
  get_token (cached day0) host true USER_AGENT day0 day0 reply_ok = Ok (refreshed, JStr "new") /\
  (client_id refreshed = client_id (cached day0) /\
   client_secret refreshed = client_secret (cached day0) /\
   (forall h', h' <> host -> tokens refreshed !! h' = tokens (cached day0) !! h') /\
   exists e, tokens refreshed !! host = Some e /\ token e = JStr "new").
Proof.
  assert (H : get_token (cached day0) host true USER_AGENT day0 day0 reply_ok = Ok (refreshed, JStr "new"))
    by (vm_compute; reflexivity).
  split; [exact H|]. exact (get_token_frame _ _ _ _ _ _ _ _ _ H).
Defined.

Lemma token_request_credentials_witness :
  b64decode (basic_credentials (ClientCredential_new "id" "secret")) =
    Ok (map Ascii.byte_of_ascii (list_ascii_of_string "id:secret")).
Proof.
  apply (token_request_credentials (ClientCredential_new "id" "secret") host USER_AGENT).
  vm_compute. repeat constructor; lia.
Defined.

Definition reply_with (tok : string) (_ : request) : json :=
  JObj [("access_token", JStr tok); ("expires_in", JInt 3600)].

Lemma cred_reach_inv_witness : cred_inv "id" "secret" refreshed.
Proof.
  apply cred_reach_inv.
  apply (reach_get _ _ (cached day0) host true USER_AGENT day0 day0 reply_ok refreshed (JStr "new"));
    [|vm_compute; reflexivity].
  apply (reach_get _ _ (mkCredential "id" "secret"
                          {["other.relaticsonline.com" := mkEntry (JStr "x") day0]})
           host false USER_AGENT day0 (day0 - 3600 * us_per_second) (reply_with "old")
           (cached day0) (JStr "old")); [|vm_compute; reflexivity].
  apply (reach_get _ _ (ClientCredential_new "id" "secret") "other.relaticsonline.com" false
           USER_AGENT day0 (day0 - 3600 * us_per_second) (reply_with "x")
           _ (JStr "x")); [apply reach_new|vm_compute; reflexivity].
Defined.

Lemma get_token_reuse_window_witness :
  exists c', retrieve_token (ClientCredential_new "id" "secret") host USER_AGENT day0 reply_ok = Ok c' /\
             get_token c' host false USER_AGENT (day0 + 295 * us_per_second) day0
               (reply_with "unused") = Ok (c', JStr "new").
Proof.
  apply (get_token_reuse_window _ _ _ _ _
           [("access_token", JStr "new"); ("token_type", JStr "bearer"); ("expires_in", JInt 3600)]
           (JStr "new") 3600);
    try (vm_compute; reflexivity).
  1: vm_compute; set_solver.
  all: unfold day0, datetime_max, us_per_day, us_per_second; lia.
Defined.

Lemma get_token_refresh_within_day_witness :
  exists t, t ∈ day0 :: map (fun i => day0 + Z.of_nat i * 300 * us_per_second)%Z (seq 1 289) /\
    needs_refresh (cached (day0 + 5 * us_per_day)) host false t = true /\
    get_token (cached (day0 + 5 * us_per_day)) host false USER_AGENT t day0 reply_ok =
    get_token (cached (day0 + 5 * us_per_day)) host true USER_AGENT t day0 reply_ok.
Proof.
  apply get_token_refresh_within_day; vm_compute; [reflexivity|discriminate].
Defined.

End Credential.
