(* ===== verification/Dispatcher.v ===== *)
(** * RelaticsWebservices: the requests

    Models [RelaticsWebservices] and [AddParametersPlugin] of
    [src/pyrelatics_webservices/client.py] (lines 139-397).

    The network is explicit: a call returns the list of the requests it
    made, in order, and their replies come from the environment:
    - [EvWsdl url]: [Client(self.wsdl_url)] downloads the WSDL (lines 217
      and 290); the download may raise ([wsdl_client]);
    - [EvToken req]: the token request of [ClientCredential.get_token],
      answered by [token_server];
    - [EvCall call]: [client.service.GetResult(..)] or
      [client.service.Import(..)], answered by [service] with the
      response tree or the transport's exception, which the call
      propagates unchanged.
    The file system and the temporary directory are those of
    [Payload.payload]; the [ClientCredential] passed as authentication
    is the same object the caller holds, so the call returns it after the
    call.

    [AddParametersPlugin.marshalled] is modelled on the envelope as an
    [Xml.element]: the SOAP envelope that suds builds is not modelled,
    the plugin's edit of any envelope is. *)

From S2P Require Import Prelude PyStr PyObj PyTime Base64 Zip Json Credential Xml PosixPath Payload.

Module Dispatcher.

Import Credential Payload.

(** [str.lower()] for code points below 256. *)
Definition lower_char (c : ascii) : ascii :=
  let n := nat_of_ascii c in
  if ((65 <=? n) && (n <=? 90)) || ((192 <=? n) && (n <=? 222) && negb (n =? 215))
  then ascii_of_nat (n + 32) else c.

Definition py_lower (s : string) : string :=
  string_of_list_ascii (map lower_char (list_ascii_of_string s)).

Record RelaticsWebservices := mkWebservices {
  hostname : string;
  wsdl_url : string;
  workspace_id : string;
  user_agent : string
}.

(** [RelaticsWebservices.__init__] (lines 193-198); [identification] is
    [{"Identification": {"Workspace": workspace_id}}]. *)
Definition RelaticsWebservices_new (company_name workspace_id user_agent : string)
    : RelaticsWebservices :=
  let host := py_lower company_name +:+ ".relaticsonline.com" in
  mkWebservices host ("https://" +:+ host +:+ "/DataExchange.asmx?wsdl") workspace_id user_agent.

(** The [authentication] argument. *)
Inductive auth_arg :=
  | AuthNone
  | AuthEntrycode (code : string)
  | AuthCredential (c : ClientCredential).

(** A SOAP call: the operation, [Operation], the workspace of
    [Identification], the [Entrycode] of [Authentication] ([None] for
    [{"Authentication": {}}]), the HTTP headers in order, and either the
    parameters of the plugin ([GetResult]) or [Filename] and [Data]
    ([Import]). *)
Inductive soap_call :=
  | GetResultCall (operation workspace : string) (entrycode : option string)
      (headers : list (string * string)) (plugin : option (list (string * string)))
  | ImportCall (operation workspace : string) (entrycode : option string)
      (headers : list (string * string)) (filename data : string).

Inductive event :=
  | EvWsdl (url : string)
  | EvToken (req : request)
  | EvCall (call : soap_call).

(** The world a call runs in. *)
Record env := mkEnv {
  now : datetime;
  requested_on : datetime;
  token_server : request -> json;
  wsdl_client : string -> res unit;
  service : soap_call -> res sobj;
  tempdir : string;
  files : gmap string (list byte)
}.

(** Lines 224-227 and 377-380. *)
Definition auth_entrycode (a : auth_arg) : option string :=
  match a with AuthEntrycode code => Some code | _ => None end.

(** The token request of [get_token(self.hostname)] (lines 74-80 and
    105-113 of [ClientCredential]), if one is made.  It is sent before
    the reply is read, so it is made also when the reply then raises. *)
Definition token_events (ws : RelaticsWebservices) (a : auth_arg) (e : env) : list event :=
  match a with
  | AuthCredential c =>
      if needs_refresh c (hostname ws) false (now e)
      then [EvToken (token_request c (hostname ws) USER_AGENT)] else []
  | _ => []
  end.

(** Lines 229-234 and 382-387: the headers, and the credential after
    [get_token(self.hostname)]. *)
Definition auth_headers (ws : RelaticsWebservices) (a : auth_arg) (e : env)
    : res (list (string * string) * option ClientCredential) :=
  let base := [("User-Agent", user_agent ws)] in
  match a with
  | AuthCredential c =>
      let! '(c', tok) := get_token c (hostname ws) false USER_AGENT (now e) (requested_on e)
                           (token_server e) in
      Ok (base ++ [("Authorization", "Bearer " +:+ json_str tok)], Some c')
  | _ => Ok (base, None)
  end.

(** The outcome of a call: the response or the exception, the
    credential passed in as it is afterwards, the file system, and the
    requests made. *)
Record outcome := mkOutcome {
  out_result : res sobj;
  out_cred : option ClientCredential;
  out_files : gmap string (list byte);
  out_trace : list event
}.

Definition cred_of (a : auth_arg) : option ClientCredential :=
  match a with AuthCredential c => Some c | _ => None end.

(** [RelaticsWebservices.get_result] (lines 200-245). *)
Definition get_result (ws : RelaticsWebservices) (operation_name : string)
    (parameters : option (list (string * string))) (a : auth_arg) (e : env) : outcome :=
  let t0 := [EvWsdl (wsdl_url ws)] in
  match wsdl_client e (wsdl_url ws) with
  | Raise ex => mkOutcome (Raise ex) (cred_of a) (files e) t0
  | Ok _ =>
      let t1 := t0 ++ token_events ws a e in
      match auth_headers ws a e with
      | Raise ex => mkOutcome (Raise ex) (cred_of a) (files e) t1
      | Ok (headers, cred) =>
          let call := GetResultCall operation_name (workspace_id ws) (auth_entrycode a) headers
                        parameters in
          mkOutcome (service e call) (match cred with Some c => Some c | None => cred_of a end)
            (files e) (t1 ++ [EvCall call])
      end
  end.

(** [RelaticsWebservices.run_import] (lines 247-397); [keep_zip_file]
    only decides whether the name [import_zip] is deleted (line 354). *)
Definition run_import (ws : RelaticsWebservices) (operation_name : string) (data : data_arg)
    (a : auth_arg) (file_name : option string) (documents : option (list string))
    (keep_zip_file : bool) (e : env) : outcome :=
  match check_args operation_name data with
  | Raise ex => mkOutcome (Raise ex) (cred_of a) (files e) []
  | Ok _ =>
      let t0 := [EvWsdl (wsdl_url ws)] in
      match wsdl_client e (wsdl_url ws) with
      | Raise ex => mkOutcome (Raise ex) (cred_of a) (files e) t0
      | Ok _ =>
          let '(r, fs') := payload (files e) (tempdir e) data file_name documents in
          match r with
          | Raise ex => mkOutcome (Raise ex) (cred_of a) fs' t0
          | Ok (filename, data_str) =>
              let t1 := t0 ++ token_events ws a e in
              match auth_headers ws a e with
              | Raise ex => mkOutcome (Raise ex) (cred_of a) fs' t1
              | Ok (headers, cred) =>
                  let call := ImportCall operation_name (workspace_id ws) (auth_entrycode a) headers
                                filename data_str in
                  mkOutcome (service e call) (match cred with Some c => Some c | None => cred_of a end)
                    fs' (t1 ++ [EvCall call])
              end
          end
      end
  end.

(** ** [AddParametersPlugin.marshalled] (lines 151-185) *)

Definition RELATICS_NS : string := "http://www.relatics.com/".

(** A [Parameter] element with its [Name] and [Value] (lines 179-182). *)
Definition parameter_element (prefix : option string) (name value : string) : element :=
  el_set "Value" value (el_set "Name" name (el_setPrefix prefix (new_element "Parameter"))).

(** Lines 178-183: append the parameters to [params]. *)
Definition add_parameters (prefix : option string) (ps : list (string * string)) (params : element)
    : element :=
  fold_left (fun p '(n, v) => el_append (parameter_element prefix n v) p) ps params.

(** The path [Body] / child 0 / [Parameters] / child 0 of the envelope. *)
Definition at_params (f : element -> element) (envelope : element) : element :=
  modify_child "Body" (modify_index 0 (modify_child "Parameters" (modify_index 0 f))) envelope.

Definition marshalled (parameters : option (list (string * string))) (envelope : element)
    : res element :=
  match parameters with
  | None => Ok envelope
  | Some ps =>
      match getChild "Body" envelope with
      | None => raise TypeError
      | Some body =>
          match el_index 0 body with
          | None => raise (AttributeError "getChild")
          | Some op =>
              let! envelope' :=
                match getChild "Parameters" op with
                | Some _ => Ok envelope
                | None =>
                    let root_prefix := find_prefix [op; body; envelope] RELATICS_NS in
                    let p_2 := el_setPrefix root_prefix (new_element "Parameters") in
                    let p_1 := el_append p_2 (el_setPrefix root_prefix (new_element "Parameters")) in
                    Ok (modify_child "Body" (modify_index 0 (el_append p_1)) envelope)
                end in
              (* line 173 or 159, on the envelope as it is now *)
              match getChild "Body" envelope' with
              | None => raise TypeError
              | Some body' =>
                  match el_index 0 body' with
                  | None => raise (AttributeError "getChild")
                  | Some op' =>
                      match getChild "Parameters" op' with
                      | None => raise TypeError
                      | Some pp =>
                          match el_index 0 pp with
                          | None => raise (AttributeError "findPrefix")
                          | Some params =>
                              let prefix := find_prefix [params; pp; op'; body'; envelope'] RELATICS_NS in
                              Ok (at_params (add_parameters prefix ps) envelope')
                          end
                      end
                  end
              end
          end
      end
  end.


(** ** Lemmas *)

Lemma auth_headers_plain ws a e :
  cred_of a = None -> auth_headers ws a e = Ok ([("User-Agent", user_agent ws)], None).
Proof. by destruct a. Qed.

Lemma token_events_plain ws a e : cred_of a = None -> token_events ws a e = [].
Proof. by destruct a. Qed.

Lemma payload_rows_eq `{ZipArchive} fs tmp rows file_name :
  payload fs tmp (DataRows rows) file_name None =
    (Ok (file_basename file_name +:+ ".xml", b64encode (utf8_encode (document_str (build_rows rows)))), fs).
Proof. reflexivity. Qed.

Lemma check_args_ok op data :
  op <> "" -> data_truthy data = true -> check_args op data = Ok tt.
Proof. intros Hop Hd. unfold check_args. by rewrite (proj2 (String.eqb_neq _ _) Hop), Hd. Qed.

(** An import of rows without a credential, whatever the WSDL download
    does. *)
Lemma run_import_rows_outcome `{ZipArchive} ws op rows a file_name keep e :
  op <> "" -> rows <> [] -> cred_of a = None ->
  let call := ImportCall op (workspace_id ws) (auth_entrycode a) [("User-Agent", user_agent ws)]
                (file_basename file_name +:+ ".xml")
                (b64encode (utf8_encode (document_str (build_rows rows)))) in
  run_import ws op (DataRows rows) a file_name None keep e =
    match wsdl_client e (wsdl_url ws) with
    | Raise ex => mkOutcome (Raise ex) None (files e) [EvWsdl (wsdl_url ws)]
    | Ok _ => mkOutcome (service e call) None (files e) [EvWsdl (wsdl_url ws); EvCall call]
    end.
Proof.
  intros Hop Hr Ha call. unfold run_import.
  rewrite check_args_ok by (done || (simpl; by rewrite bool_decide_false)).
  cbv beta iota zeta. destruct (wsdl_client e (wsdl_url ws)); [|by rewrite Ha].
  rewrite payload_rows_eq. cbv beta iota zeta.
  rewrite auth_headers_plain, token_events_plain by done. cbv beta iota zeta. by rewrite Ha.
Qed.

(** *** Edits of the envelope *)

Lemma getChild_modify_child n f e c :
  el_name (f c) = n -> getChild n e = Some c -> getChild n (modify_child n f e) = Some (f c).
Proof.
  intros Hf. destruct e as [p nm ns ats tx cs]. unfold getChild, modify_child. simpl.
  induction cs as [|c' cs IH]; [done|]. simpl.
  destruct (String.eqb_spec (el_name c') n) as [<-|Hne]; simpl.
  - intros [= ->]. by rewrite Hf, String.eqb_refl.
  - rewrite (proj2 (String.eqb_neq _ _) Hne). apply IH.
Qed.

Lemma el_index_modify_index i f e c :
  el_index i e = Some c -> el_index i (modify_index i f e) = Some (f c).
Proof. unfold el_index, modify_index. simpl. intros Hc. rewrite list_lookup_alter, Hc. by case_decide. Qed.

Lemma modify_first_compose n f g cs :
  (forall c, el_name (g c) = el_name c) ->
  modify_first n f (modify_first n g cs) = modify_first n (fun c => f (g c)) cs.
Proof.
  intros Hg. induction cs as [|c cs IH]; [done|]. simpl.
  destruct (String.eqb (el_name c) n) eqn:E; simpl.
  - by rewrite Hg, E.
  - by rewrite E, IH.
Qed.

Lemma modify_child_compose n f g e :
  (forall c, el_name (g c) = el_name c) ->
  modify_child n f (modify_child n g e) = modify_child n (fun c => f (g c)) e.
Proof. intros Hg. unfold modify_child. simpl. by rewrite modify_first_compose. Qed.

Lemma modify_index_compose i f g e :
  modify_index i f (modify_index i g e) = modify_index i (fun c => f (g c)) e.
Proof. unfold modify_index. simpl. f_equal. apply list_alter_alter_eq. Qed.

Lemma modify_first_absent n f cs :
  List.find (fun c => String.eqb (el_name c) n) cs = None -> modify_first n f cs = cs.
Proof.
  induction cs as [|c cs IH]; [done|]. simpl.
  destruct (String.eqb (el_name c) n); [done|]. intros H. by rewrite IH.
Qed.

(** Changing the [Parameters] child just appended to an element that had
    none. *)
Lemma modify_child_append n f x e :
  getChild n e = None -> el_name x = n ->
  modify_child n f (el_append x e) = el_append (f x) e.
Proof.
  intros Hn Hx. destruct e as [p nm ns ats tx cs]. unfold getChild in Hn. simpl in Hn.
  unfold modify_child, el_append. simpl. f_equal.
  induction cs as [|c cs IH]; simpl in *.
  - by rewrite Hx, String.eqb_refl.
  - destruct (String.eqb (el_name c) n); [done|]. by rewrite IH.
Qed.

Lemma modify_index0_append f x e :
  el_children e = [] -> modify_index 0 f (el_append x e) = el_append (f x) e.
Proof. destruct e as [p nm ns ats tx cs]. simpl. intros ->. done. Qed.

Lemma add_parameters_name pre ps p : el_name (add_parameters pre ps p) = el_name p.
Proof.
  unfold add_parameters. revert p. induction ps as [|[n v] ps IH]; intros p; [done|].
  simpl. by rewrite IH.
Qed.

Lemma find_prefix_fresh pre chain uri :
  uri <> xml_ns -> find_prefix (el_setPrefix pre (new_element "Parameters") :: chain) uri =
                   find_prefix chain uri.
Proof.
  intros Hu. simpl. by rewrite (proj2 (String.eqb_neq _ _) Hu).
Qed.


Lemma getChild_name n e c : getChild n e = Some c -> el_name c = n.
Proof.
  unfold getChild. intros Hf. apply find_some in Hf as [_ Hn]. by apply String.eqb_eq in Hn.
Qed.

Lemma find_app {A} (f : A -> bool) l1 l2 :
  List.find f (l1 ++ l2) = match List.find f l1 with Some x => Some x | None => List.find f l2 end.
Proof. induction l1 as [|x l1 IH]; simpl; [done|]. by destruct (f x). Qed.

Lemma getChild_append_new n x e :
  getChild n e = None -> el_name x = n -> getChild n (el_append x e) = Some x.
Proof.
  unfold getChild, el_append. simpl. intros Hn Hx.
  rewrite find_app, Hn. simpl. by rewrite Hx, String.eqb_refl.
Qed.

Lemma find_prefix_skip x chain uri :
  el_nsprefixes x = [] -> uri <> xml_ns -> find_prefix (x :: chain) uri = find_prefix chain uri.
Proof. intros Hx Hu. simpl. rewrite Hx. simpl. by rewrite (proj2 (String.eqb_neq _ _) Hu). Qed.

Lemma find_prefix_ns_eq c1 c2 uri :
  map el_nsprefixes c1 = map el_nsprefixes c2 -> find_prefix c1 uri = find_prefix c2 uri.
Proof.
  revert c2. induction c1 as [|x c1 IH]; intros [|y c2] Hm; try done.
  simpl in *. injection Hm as Hxy Hm. rewrite Hxy, (IH c2 Hm). done.
Qed.

Lemma modify_child_ext_at n f g e c :
  getChild n e = Some c -> f c = g c -> modify_child n f e = modify_child n g e.
Proof.
  destruct e as [p nm ns ats tx cs]. unfold getChild, modify_child. simpl. intros Hc Hfg. f_equal.
  induction cs as [|c' cs IH]; simpl in *; [done|].
  destruct (String.eqb (el_name c') n); [injection Hc as ->; by rewrite Hfg|]. by rewrite IH.
Qed.

Lemma modify_index_ext_at i f g e c :
  el_index i e = Some c -> f c = g c -> modify_index i f e = modify_index i g e.
Proof.
  unfold el_index, modify_index. intros Hc Hfg. f_equal.
  apply list_eq. intros j. rewrite !list_lookup_alter.
  case_decide; [subst; by rewrite Hc; simpl; rewrite Hfg|done].
Qed.

Lemma modify_index_name i f e : el_name (modify_index i f e) = el_name e.
Proof. done. Qed.

Lemma modify_index_ns i f e : el_nsprefixes (modify_index i f e) = el_nsprefixes e.
Proof. done. Qed.

Lemma modify_child_ns n f e : el_nsprefixes (modify_child n f e) = el_nsprefixes e.
Proof. done. Qed.

(** ** The requests *)

(** C23 *)
(** A data file with an unsupported extension raises [TypeError], but
    only after [Client(self.wsdl_url)] has downloaded the WSDL: the
    trace holds that request, and when the download fails its
    exception is raised instead. *)
Theorem run_import_unsupported_extension `{ZipArchive} ws op p a file_name docs keep e :
  op <> "" -> p <> "" ->
  existsb (String.eqb (str_drop 1 (snd (path_splitext p)))) SUPPORTED_EXTENSIONS = false ->
  run_import ws op (DataFile p) a file_name docs keep e =
    mkOutcome (let! _ := wsdl_client e (wsdl_url ws) in raise TypeError) (cred_of a) (files e)
      [EvWsdl (wsdl_url ws)].
Proof.
  intros Hop Hp Hx. unfold run_import, check_args.
  rewrite (proj2 (String.eqb_neq _ _) Hop). simpl. rewrite (proj2 (String.eqb_neq _ _) Hp). simpl.
  destruct (wsdl_client e (wsdl_url ws)); [|done]. unfold payload. by rewrite prepare_data_unsupported.
Qed.

(** C24 *)
(** An empty [operation_name] or a falsy [data] (an empty list of rows
    or an empty path) raises [ValueError] before anything else: no
    request is made and the file system is untouched; the operation
    name is checked first. *)
Theorem run_import_validation `{ZipArchive} ws op data a file_name docs keep e :
  op = "" \/ data_truthy data = false ->
  run_import ws op data a file_name docs keep e =
    mkOutcome (raise (ValueError (if String.eqb op "" then "Supplied operationName is empty"
                                  else "Supplied data is empty")))
      (cred_of a) (files e) [].
Proof.
  intros Hv. unfold run_import, check_args.
  destruct (String.eqb_spec op "") as [->|Hop]; [done|].
  destruct Hv as [Hop'|Hd]; [done|]. by rewrite Hd.
Qed.

(** C21 *)
(** An import of rows with entry-code or no authentication makes two
    requests, the WSDL and one [Import] call carrying the operation, the
    workspace, the entry code, the [User-Agent] header, the file name
    [<base>.xml] and the base64 of the XML; it returns the service's
    response, or raises the transport's exception unchanged, and leaves
    the file system as it was. *)
Theorem run_import_rows `{ZipArchive} ws op rows a file_name keep e :
  op <> "" -> rows <> [] -> cred_of a = None -> wsdl_client e (wsdl_url ws) = Ok tt ->
  let call := ImportCall op (workspace_id ws) (auth_entrycode a) [("User-Agent", user_agent ws)]
                (file_basename file_name +:+ ".xml")
                (b64encode (utf8_encode (document_str (build_rows rows)))) in
  run_import ws op (DataRows rows) a file_name None keep e =
    mkOutcome (service e call) None (files e) [EvWsdl (wsdl_url ws); EvCall call].
Proof.
  intros Hop Hr Ha Hw call. by rewrite run_import_rows_outcome, Hw.
Qed.

(** C22 *)
(** With a [ClientCredential], [get_result] asks it for a token for the
    host; the call then carries [Authorization: Bearer <token>] after
    the [User-Agent] header and an empty [Authentication] block, a token
    request is made exactly when the cache needs a refresh, and that
    request carries the library's default [User-Agent], not the one of
    the [RelaticsWebservices].  The call returns the response or raises
    the transport's exception unchanged; either way the caller's
    credential keeps the token it has just cached. *)
Theorem get_result_bearer ws op ps c e c' tok :
  wsdl_client e (wsdl_url ws) = Ok tt ->
  get_token c (hostname ws) false USER_AGENT (now e) (requested_on e) (token_server e) = Ok (c', tok) ->
  let call := GetResultCall op (workspace_id ws) None
                [("User-Agent", user_agent ws); ("Authorization", "Bearer " +:+ json_str tok)] ps in
  get_result ws op ps (AuthCredential c) e =
    mkOutcome (service e call) (Some c') (files e)
      ([EvWsdl (wsdl_url ws)] ++
       (if needs_refresh c (hostname ws) false (now e)
        then [EvToken (token_request c (hostname ws) USER_AGENT)] else []) ++ [EvCall call]).
Proof. intros Hw Hg call. unfold get_result, auth_headers. by rewrite Hw, Hg. Qed.

(** Without a [ClientCredential], [get_result] sends only the
    [User-Agent] header, the entry code if one is given (an empty
    [Authentication] block otherwise) and the parameters for the plugin,
    after the WSDL request. *)
Theorem get_result_plain ws op ps a e :
  cred_of a = None -> wsdl_client e (wsdl_url ws) = Ok tt ->
  let call := GetResultCall op (workspace_id ws) (auth_entrycode a) [("User-Agent", user_agent ws)] ps in
  get_result ws op ps a e =
    mkOutcome (service e call) None (files e) [EvWsdl (wsdl_url ws); EvCall call].
Proof.
  intros Ha Hw call. unfold get_result. rewrite Hw, auth_headers_plain, token_events_plain by done.
  simpl. by rewrite Ha.
Qed.

(** ** The plugin *)

(** C27 *)
(** When the operation element (the first child of [Body]) has no
    [Parameters] child, [marshalled] appends to it a [Parameters]
    element holding a [Parameters] element holding one [Parameter] per
    item, in order, all with the prefix declared for
    [http://www.relatics.com/]. *)
Theorem marshalled_adds_parameters ps envelope body op :
  getChild "Body" envelope = Some body -> el_index 0 body = Some op ->
  getChild "Parameters" op = None ->
  let pre := find_prefix [op; body; envelope] RELATICS_NS in
  marshalled (Some ps) envelope =
    Ok (modify_child "Body"
          (modify_index 0
             (el_append (el_append (add_parameters pre ps (el_setPrefix pre (new_element "Parameters")))
                                   (el_setPrefix pre (new_element "Parameters")))))
          envelope).
Proof.
  intros Hb Ho Hp pre. unfold marshalled. rewrite Hb, Ho, Hp. cbn [res_bind].
  set (p2 := el_setPrefix pre (new_element "Parameters")).
  set (p1 := el_append p2 (el_setPrefix pre (new_element "Parameters"))).
  rewrite (getChild_modify_child _ _ _ body) by (done || apply (getChild_name _ _ _ Hb)).
  rewrite (el_index_modify_index _ _ _ op) by done.
  rewrite getChild_append_new by done.
  match goal with |- context [el_index 0 ?x] => change (el_index 0 x) with (Some p2) end.
  cbv beta iota.
  rewrite !find_prefix_skip by (done || discriminate).
  rewrite (find_prefix_ns_eq _ [op; body; envelope]) by reflexivity.
  unfold at_params. rewrite modify_child_compose by (intros; done).
  f_equal. apply (modify_child_ext_at _ _ _ _ body Hb).
  rewrite modify_index_compose. apply (modify_index_ext_at _ _ _ _ op Ho).
  by rewrite modify_child_append, modify_index0_append.
Qed.

(** C28 *)
(** When the operation element already has a [Parameters] child without
    children, [params] is [None] and [marshalled] fails with an
    [AttributeError] on [findPrefix]. *)
Theorem marshalled_empty_parameters ps envelope body op pp :
  getChild "Body" envelope = Some body -> el_index 0 body = Some op ->
  getChild "Parameters" op = Some pp -> el_children pp = [] ->
  marshalled (Some ps) envelope = raise (AttributeError "findPrefix").
Proof.
  intros Hb Ho Hp Hc. unfold marshalled. rewrite Hb, Ho, Hp. simpl.
  rewrite Hb, Ho, Hp. unfold el_index. by rewrite Hc.
Qed.


(** ** Witnesses *)

Definition acme : RelaticsWebservices := RelaticsWebservices_new "Acme" "ws-1" "my-agent".

Definition world (c_files : gmap string (list byte)) : env :=
  mkEnv day0 day0 reply_ok (fun _ => Ok tt) (fun _ => Ok (SObj [("Import", SObj [])])) "/tmp" c_files.

Lemma run_import_unsupported_extension_witness :
  run_import acme "Import1" (DataFile "/home/u/data.pdf") AuthNone None None false (world ∅) =
    mkOutcome (raise TypeError) None ∅
      [EvWsdl "https://acme.relaticsonline.com/DataExchange.asmx?wsdl"].
Proof. apply run_import_unsupported_extension; [discriminate|discriminate|reflexivity]. Defined.

Lemma run_import_validation_witness :
  run_import acme "Import1" (DataRows []) AuthNone None None false (world ∅) =
    mkOutcome (raise (ValueError "Supplied data is empty")) None ∅ [].
Proof. apply run_import_validation. right. reflexivity. Defined.

Lemma run_import_rows_witness :
  run_import acme "Import1" (DataRows sample_rows) (AuthEntrycode "code") None None false (world ∅) =
    mkOutcome (Ok (SObj [("Import", SObj [])])) None ∅
      [EvWsdl (wsdl_url acme);
       EvCall (ImportCall "Import1" "ws-1" (Some "code") [("User-Agent", "my-agent")]
                 "pyrelatics_webservice.xml"
                 (b64encode (utf8_encode (document_str (build_rows sample_rows)))))].
Proof. apply run_import_rows; [discriminate|discriminate|reflexivity|reflexivity]. Defined.

Definition renewed : ClientCredential :=
  mkCredential "id" "secret"
    (<[host := mkEntry (JStr "new") (day0 + 3600 * us_per_second)]>
       (tokens (cached (day0 + 200 * us_per_second)))).

Lemma get_result_bearer_witness :
  get_result acme "Export1" None (AuthCredential (cached (day0 + 200 * us_per_second))) (world ∅) =
    mkOutcome (Ok (SObj [("Import", SObj [])])) (Some renewed) ∅
      ([EvWsdl (wsdl_url acme)] ++
       [EvToken (token_request (cached (day0 + 200 * us_per_second)) "acme.relaticsonline.com" USER_AGENT)] ++
       [EvCall (GetResultCall "Export1" "ws-1" None
                  [("User-Agent", "my-agent"); ("Authorization", "Bearer new")] None)]).
Proof.
  rewrite (get_result_bearer acme "Export1" None (cached (day0 + 200 * us_per_second)) (world ∅)
             renewed (JStr "new")) by (vm_compute; reflexivity).
  vm_compute. reflexivity.
Defined.

Lemma get_result_plain_witness :
  get_result acme "Export1" (Some [("Year", "2024")]) AuthNone (world ∅) =
    mkOutcome (Ok (SObj [("Import", SObj [])])) None ∅
      [EvWsdl (wsdl_url acme);
       EvCall (GetResultCall "Export1" "ws-1" None [("User-Agent", "my-agent")] (Some [("Year", "2024")]))].
Proof. apply get_result_plain; reflexivity. Defined.

Definition sample_envelope (op_children : list element) : element :=
  mkElement (Some "SOAP-ENV") "Envelope" [("ns0", RELATICS_NS)] [] None
    [mkElement (Some "SOAP-ENV") "Header" [] [] None [];
     mkElement (Some "ns1") "Body" [] [] None
       [mkElement (Some "ns0") "GetResult" [] [] None op_children]].

Lemma marshalled_adds_parameters_witness :
  marshalled (Some [("Year", "2024")]) (sample_envelope [new_element "Operation"]) =
    Ok (modify_child "Body"
          (modify_index 0
             (el_append (el_append (add_parameters (Some "ns0") [("Year", "2024")]
                                      (el_setPrefix (Some "ns0") (new_element "Parameters")))
                                   (el_setPrefix (Some "ns0") (new_element "Parameters")))))
          (sample_envelope [new_element "Operation"])).
Proof.
  rewrite (marshalled_adds_parameters [("Year", "2024")] (sample_envelope [new_element "Operation"])
           (mkElement (Some "ns1") "Body" [] [] None
              [mkElement (Some "ns0") "GetResult" [] [] None [new_element "Operation"]])
           (mkElement (Some "ns0") "GetResult" [] [] None [new_element "Operation"]))
    by reflexivity.
  vm_compute. reflexivity.
Defined.

Lemma marshalled_empty_parameters_witness :
  marshalled (Some [("Year", "2024")]) (sample_envelope [new_element "Parameters"]) =
    raise (AttributeError "findPrefix").
Proof.
  apply (marshalled_empty_parameters _ _
           (mkElement (Some "ns1") "Body" [] [] None
              [mkElement (Some "ns0") "GetResult" [] [] None [new_element "Parameters"]])
           (mkElement (Some "ns0") "GetResult" [] [] None [new_element "Parameters"])
           (new_element "Parameters")); reflexivity.
Defined.

End Dispatcher.
