(* ===== verification/Session.v ===== *)
(** * Sessions: calls sharing one [ClientCredential]

    A program holds one [ClientCredential] object and passes it as the
    [authentication] of several [get_result] and [run_import] calls,
    possibly on [RelaticsWebservices] of several companies: the
    specification says one instance may be reused across many requests
    and hosts.  [get_token] mutates that object in place
    ([self.tokens[hostname] = ...], line 131 of
    [src/pyrelatics_webservices/client.py]), so each call sees the cache
    the previous calls left.  [run_session] threads the credential, the
    file system and the trace of requests through the calls, in order,
    and stops at the first exception, which ends the program.

    The state is the credential, the file system, a log of the host and
    the requests of each call, and the responses.

    The theorems: whatever the replies and exceptions, the credential a
    session leaves holds for every host the token the last SOAP call to
    that host carried ([run_session_last_call]); and the cache keeps one
    token per host: when the calls to a host fall in a window
    shorter than its token's lifetime, at most one token request goes to
    that host and every SOAP call to it carries that token, whatever the
    calls to other hosts do. *)

From S2P Require Import Prelude PyObj PyTime Base64 Zip Json Credential Xml PosixPath Payload Dispatcher.

Module Session.

Import Credential Payload Dispatcher.

(** A call of the program, with its arguments other than
    [authentication]. *)
Inductive ws_call :=
  | CallGetResult (ws : RelaticsWebservices) (operation_name : string)
      (parameters : option (list (string * string)))
  | CallRunImport (ws : RelaticsWebservices) (operation_name : string) (data : data_arg)
      (file_name : option string) (documents : option (list string)) (keep_zip_file : bool).

Definition call_ws (k : ws_call) : RelaticsWebservices :=
  match k with
  | CallGetResult ws _ _ | CallRunImport ws _ _ _ _ _ => ws
  end.

Definition call_headers (call : soap_call) : list (string * string) :=
  match call with
  | GetResultCall _ _ _ hs _ | ImportCall _ _ _ hs _ _ => hs
  end.

(** A token request to the host [h]. *)
Definition token_for (h : string) (ev : event) : bool :=
  match ev with EvToken r => String.eqb (req_host r) h | _ => false end.

Definition is_wsdl (ev : event) : bool :=
  match ev with EvWsdl _ => true | _ => false end.

(** The number of token requests to [h] in a trace. *)
Definition token_requests (h : string) (tr : list event) : nat := length (List.filter (token_for h) tr).

(** A SOAP call carries [Authorization: Bearer <t>]. *)
Definition bearer_ok (t : json) (ev : event) : Prop :=
  match ev with
  | EvCall call => ("Authorization", "Bearer " +:+ json_str t) ∈ call_headers call
  | _ => True
  end.

(** The state of the program between calls: the credential, the file
    system, the host of each call made with the requests it made, and
    the responses. *)
Record session := mkSession {
  cred : ClientCredential;
  fs : gmap string (list byte);
  log : list (string * list event);
  responses : list sobj
}.

(** All the requests of a session, in order. *)
Definition session_trace (s : session) : list event := List.concat (map snd (log s)).

(** The SOAP calls of a trace, in order. *)
Fixpoint soap_calls (tr : list event) : list soap_call :=
  match tr with
  | [] => []
  | EvCall call :: tr' => call :: soap_calls tr'
  | _ :: tr' => soap_calls tr'
  end.

(** The SOAP calls the calls to the host [h] made, in order. *)
Definition host_calls (h : string) (lg : list (string * list event)) : list soap_call :=
  List.concat (map (fun he => if String.eqb he.1 h then soap_calls he.2 else []) lg).

(** The cache entry of every host holds the token the last SOAP call
    to that host carried. *)
Definition cache_consistent (s : session) : Prop :=
  forall h call, last (host_calls h (log s)) = Some call ->
  exists en, tokens (cred s) !! h = Some en /\
             ("Authorization", "Bearer " +:+ json_str (token en)) ∈ call_headers call.

Section Run.
Context `{ZipArchive}.

Definition run_call (k : ws_call) (a : auth_arg) (e : env) : outcome :=
  match k with
  | CallGetResult ws op ps => get_result ws op ps a e
  | CallRunImport ws op data file_name docs keep => run_import ws op data a file_name docs keep e
  end.

(** The environment of a call, on the file system the previous calls left. *)
Definition with_files (e : env) (files : gmap string (list byte)) : env :=
  mkEnv (now e) (requested_on e) (token_server e) (wsdl_client e) (service e) (tempdir e) files.

(** One call with [authentication=cc]. *)
Definition session_step (s : session) (k : ws_call) (e : env) : res sobj * session :=
  let o := run_call k (AuthCredential (cred s)) (with_files e (fs s)) in
  let c' := match out_cred o with Some c' => c' | None => cred s end in
  let lg := log s ++ [(hostname (call_ws k), out_trace o)] in
  match out_result o with
  | Ok r => (Ok r, mkSession c' (out_files o) lg (responses s ++ [r]))
  | Raise ex => (Raise ex, mkSession c' (out_files o) lg (responses s))
  end.

Fixpoint run_session (s : session) (calls : list (ws_call * env)) : res unit * session :=
  match calls with
  | [] => (Ok tt, s)
  | (k, e) :: calls' =>
      match session_step s k e with
      | (Ok _, s') => run_session s' calls'
      | (Raise ex, s') => (Raise ex, s')
      end
  end.

(** ** The credential after a call *)

Ltac run_call_cases :=
  match goal with
  | |- context [run_call ?k _ _] =>
      destruct k as [ws op ps|ws op data file_name docs keep]; simpl;
      [unfold get_result; destruct (wsdl_client _ (wsdl_url ws)); simpl
      |unfold run_import; destruct (check_args op data); simpl;
        [destruct (wsdl_client _ (wsdl_url ws)); simpl;
         [match goal with
          | |- context [payload ?f ?t ?d ?n ?ds] =>
              destruct (payload f t d n ds) as [[[filename data_str]|ex] fs']; simpl
          end|]|]]
  end.

(** A call either stops before asking for a token, with only the WSDL
    request made, or reaches [get_token]: it then makes its token
    request, if any, and, when [get_token] returns, the SOAP call with
    the token. *)
Lemma run_call_auth k c e :
  let o := run_call k (AuthCredential c) e in
  let ws := call_ws k in
  (out_cred o = Some c /\ Forall (fun ev => is_wsdl ev = true) (out_trace o)) \/
  (exists pre, Forall (fun ev => is_wsdl ev = true) pre /\
   match get_token c (hostname ws) false USER_AGENT (now e) (requested_on e) (token_server e) with
   | Ok (c', t) =>
       out_cred o = Some c' /\
       exists call, out_trace o = pre ++ token_events ws (AuthCredential c) e ++ [EvCall call] /\
                    ("Authorization", "Bearer " +:+ json_str t) ∈ call_headers call
   | Raise _ => out_cred o = Some c /\ out_trace o = pre ++ token_events ws (AuthCredential c) e
   end).
Proof.
  run_call_cases; unfold get_result, auth_headers; simpl;
    try (left; split; [done|by repeat constructor]).
  all: right; exists [EvWsdl (wsdl_url ws)]; split; [by repeat constructor|].
  all: destruct (get_token _ _ _ _ _ _ _) as [[c' t]|ex]; simpl; split; try done.
  all: eexists; split; [reflexivity|]; simpl; set_solver.
Qed.

Lemma run_call_cred k c e :
  exists c', out_cred (run_call k (AuthCredential c) e) = Some c' /\
  (c' = c \/ exists t, get_token c (hostname (call_ws k)) false USER_AGENT (now e) (requested_on e)
                          (token_server e) = Ok (c', t)).
Proof.
  destruct (run_call_auth k c e) as [[Hc _]|(pre & _ & Hg)]; [by eauto|].
  destruct (get_token _ _ _ _ _ _ _) as [[c' t]|ex] eqn:E; destruct Hg as [Hc _]; eauto.
Qed.

Lemma session_step_cred s k e :
  exists c', cred (snd (session_step s k e)) = c' /\
  (c' = cred s \/ exists t, get_token (cred s) (hostname (call_ws k)) false USER_AGENT (now e)
                              (requested_on e) (token_server e) = Ok (c', t)).
Proof.
  unfold session_step. destruct (run_call_cred k (cred s) (with_files e (fs s))) as (c' & Hc & Hor).
  rewrite Hc. exists c'. by destruct (out_result _).
Qed.

(** Any property kept by every call holds after the session. *)
Lemma run_session_preserves (Q : ws_call -> env -> Prop) (P : session -> Prop) s calls :
  (forall s k e, P s -> Q k e -> P (snd (session_step s k e))) ->
  P s -> Forall (fun ke => Q ke.1 ke.2) calls -> P (snd (run_session s calls)).
Proof.
  intros Hstep. revert s. induction calls as [|[k e] calls IH]; intros s Hs Hq; simpl; [done|].
  apply Forall_cons in Hq as [Hke Hq]. pose proof (Hstep s k e Hs Hke) as Hs'.
  destruct (session_step s k e) as [[r|ex] s']; simpl in *; auto.
Qed.

Lemma session_step_reach id secret s k e :
  cred_reach id secret (cred s) -> cred_reach id secret (cred (snd (session_step s k e))).
Proof.
  intros Hs. destruct (session_step_cred s k e) as (c' & -> & [->|[t Ht]]); [done|].
  by eapply reach_get.
Qed.

Lemma session_step_parts s k e :
  let o := run_call k (AuthCredential (cred s)) (with_files e (fs s)) in
  cred (snd (session_step s k e)) = match out_cred o with Some c' => c' | None => cred s end /\
  log (snd (session_step s k e)) = log s ++ [(hostname (call_ws k), out_trace o)].
Proof. unfold session_step. by destruct (out_result _). Qed.

Lemma token_requests_app h tr1 tr2 :
  token_requests h (tr1 ++ tr2) = token_requests h tr1 + token_requests h tr2.
Proof. unfold token_requests. by rewrite List.filter_app, length_app. Qed.

Lemma token_requests_log h (lg : list (string * list event)) x :
  token_requests h (List.concat (map snd (lg ++ [x]))) =
    token_requests h (List.concat (map snd lg)) + token_requests h x.2.
Proof. by rewrite map_app, List.concat_app, token_requests_app; simpl; rewrite app_nil_r. Qed.

Lemma token_requests_wsdl h tr : Forall (fun ev => is_wsdl ev = true) tr -> token_requests h tr = 0.
Proof. induction 1 as [|[] tr Hx _ IH]; simpl in *; done. Qed.

(** The token request of a call to another host is not one to [h]. *)
Lemma token_requests_other h ws a e :
  hostname ws <> h -> token_requests h (token_events ws a e) = 0.
Proof.
  intros Hne. destruct a as [| |c]; [done|done|]. unfold token_events.
  destruct (needs_refresh c (hostname ws) false (now e)); [|done].
  unfold token_requests. cbn [List.filter token_for token_request req_host].
  by rewrite (proj2 (String.eqb_neq _ _) Hne).
Qed.

Lemma token_requests_call h call : token_requests h [EvCall call] = 0.
Proof. done. Qed.

(** A call to another host leaves the entry of [h] as it was and asks
    no token of [h]. *)
Lemma run_call_other_host h k c e :
  hostname (call_ws k) <> h ->
  let o := run_call k (AuthCredential c) e in
  (exists c', out_cred o = Some c' /\ tokens c' !! h = tokens c !! h) /\
  token_requests h (out_trace o) = 0.
Proof.
  intros Hne o. destruct (run_call_auth k c e) as [[Hc Hws]|(pre & Hpre & Hg)].
  - split; [by eauto|]. by apply token_requests_wsdl.
  - destruct (get_token _ _ _ _ _ _ _) as [[c' t]|ex] eqn:Eg.
    + destruct Hg as [Hc (call & Ht & _)]. split.
      * exists c'. split; [done|]. apply get_token_frame in Eg as (_ & _ & Hf & _). by apply Hf.
      * fold o in Ht. rewrite Ht, !token_requests_app, token_requests_wsdl, token_requests_other by done.
        done.
    + destruct Hg as [Hc Ht]. split; [by eauto|].
      fold o in Ht. by rewrite Ht, token_requests_app, token_requests_wsdl, token_requests_other.
Qed.

Lemma bearer_ok_wsdl t tr :
  Forall (fun ev => is_wsdl ev = true) tr -> Forall (bearer_ok t) tr.
Proof. intros Hw. eapply Forall_impl; [done|]. by intros []. Qed.

(** Whatever the calls, the clock readings and the replies, the
    credential a session leaves (also when a call raises) is reachable
    from the credential it started with by [get_token] calls that
    return. *)
Lemma run_session_reach id secret s calls :
  cred_reach id secret (cred s) -> cred_reach id secret (cred (snd (run_session s calls))).
Proof.
  intros Hs. apply (run_session_preserves (fun _ _ => True) (fun s => cred_reach id secret (cred s)));
    [intros; by apply session_step_reach|done|by apply Forall_true].
Qed.

Lemma soap_calls_app tr1 tr2 : soap_calls (tr1 ++ tr2) = soap_calls tr1 ++ soap_calls tr2.
Proof. induction tr1 as [|[] tr1 IH]; simpl; by rewrite ?IH. Qed.

Lemma soap_calls_wsdl tr : Forall (fun ev => is_wsdl ev = true) tr -> soap_calls tr = [].
Proof. induction 1 as [|[] tr Hx _ IH]; simpl in *; done. Qed.

Lemma soap_calls_token_events ws a e : soap_calls (token_events ws a e) = [].
Proof. destruct a; unfold token_events; [done|done|]. by destruct (needs_refresh _ _ _ _). Qed.

Lemma host_calls_snoc h lg h0 tr :
  host_calls h (lg ++ [(h0, tr)]) = host_calls h lg ++ (if String.eqb h0 h then soap_calls tr else []).
Proof. unfold host_calls. by rewrite map_app, List.concat_app; simpl; rewrite app_nil_r. Qed.

(** A call that makes no SOAP call and leaves the cache entry of its
    host as it was keeps the cache consistent. *)
Lemma cache_consistent_frame s s' h0 tr :
  cache_consistent s -> log s' = log s ++ [(h0, tr)] ->
  (soap_calls tr = [] \/ exists call, soap_calls tr = [call] /\
     exists en, tokens (cred s') !! h0 = Some en /\
                ("Authorization", "Bearer " +:+ json_str (token en)) ∈ call_headers call) ->
  (forall h, h <> h0 -> tokens (cred s') !! h = tokens (cred s) !! h) ->
  (soap_calls tr = [] -> tokens (cred s') !! h0 = tokens (cred s) !! h0) ->
  cache_consistent s'.
Proof.
  intros Hs Hlog Htr Hother Hsame h call. rewrite Hlog, host_calls_snoc.
  destruct (String.eqb_spec h0 h) as [<-|Hne].
  - destruct Htr as [Hn|(call' & Hc & Hen)].
    + rewrite Hn, app_nil_r, Hsame by done. apply Hs.
    + rewrite Hc, last_snoc. by intros [= <-].
  - rewrite app_nil_r, Hother by congruence. apply Hs.
Qed.

(** Every call keeps the cache consistent, whatever it meets. *)
Lemma session_step_cache s k e :
  cache_consistent s -> cache_consistent (snd (session_step s k e)).
Proof.
  intros Hs. destruct (session_step_parts s k e) as [Hc Hl].
  destruct (run_call_auth k (cred s) (with_files e (fs s))) as [[Hcr Hws]|(pre & Hpre & Hg)].
  { eapply cache_consistent_frame; [done|exact Hl|left; by apply soap_calls_wsdl|..];
      intros; by rewrite Hc, Hcr. }
  cbv zeta in Hg. destruct (get_token _ _ _ _ _ _ _) as [[c' t]|ex] eqn:Eg.
  - destruct Hg as [Hcr (call & Htr & Hcall)].
    apply get_token_frame in Eg as (_ & _ & Hf & en & Hen & Ht).
    rewrite Htr in Hl. eapply cache_consistent_frame; [done|exact Hl|..];
      rewrite ?soap_calls_app, ?soap_calls_wsdl, ?soap_calls_token_events by done; simpl.
    + right. exists call. split; [done|]. exists en. rewrite Hc, Hcr, Hen, Ht. by split.
    + intros h Hh. rewrite Hc, Hcr. by apply Hf.
    + done.
  - destruct Hg as [Hcr Htr]. rewrite Htr in Hl.
    eapply cache_consistent_frame; [done|exact Hl|left|..].
    + by rewrite soap_calls_app, soap_calls_wsdl, soap_calls_token_events.
    + intros; by rewrite Hc, Hcr.
    + intros; by rewrite Hc, Hcr.
Qed.

(** C17 *)
(** Whatever the calls, the clock readings and the replies, and also
    when a call raises, the credential a session leaves holds for every
    host the token the last SOAP call to that host carried: each such
    call sent [Authorization: Bearer <token>] with the token its host's
    cache entry still holds. *)
Theorem run_session_last_call c files calls h call :
  let s := snd (run_session (mkSession c files [] []) calls) in
  last (host_calls h (log s)) = Some call ->
  exists en, tokens (cred s) !! h = Some en /\
             ("Authorization", "Bearer " +:+ json_str (token en)) ∈ call_headers call.
Proof.
  intros s. revert h call.
  apply (run_session_preserves (fun _ _ => True) cache_consistent);
    [intros; by apply session_step_cache|by intros ??|by apply Forall_true].
Qed.

(** ** One token per host *)

Section OneHost.

(** The host, the token endpoint's reply (a token [tok] valid [n]
    seconds), and a window of [D] seconds from [T] in which the calls
    to the host read the clock. *)
Variables (h : string) (tok : json) (n T D : Z) (reply : list (string * json)).
Hypothesis Hno_error : "error" ∉ map fst reply.
Hypothesis Haccess : json_lookup "access_token" reply = Some tok.
Hypothesis Hexpires : json_lookup "expires_in" reply = Some (JInt n).
Hypothesis Hlife : (0 <= D /\ D + 301 <= n /\ n + D < 86400)%Z.
Hypothesis Hrange : (0 <= T /\ T + (n + D) * us_per_second <= datetime_max)%Z.

Definition in_window (e : env) : Prop :=
  (forall r, token_server e r = JObj reply) /\
  (T <= now e <= requested_on e /\ requested_on e <= T + D * us_per_second)%Z.

Definition expiry_ok (exp : datetime) : Prop :=
  (T + n * us_per_second <= exp <= T + (n + D) * us_per_second)%Z.

Definition host_inv (c : ClientCredential) (lg : list (string * list event)) : Prop :=
  Forall (fun he => he.1 = h -> Forall (bearer_ok tok) he.2) lg /\
  match tokens c !! h with
  | None => token_requests h (List.concat (map snd lg)) = 0
  | Some en => token en = tok /\ expiry_ok (expires_on en) /\ token_requests h (List.concat (map snd lg)) = 1
  end.

Lemma needs_refresh_window c en e :
  tokens c !! h = Some en -> expiry_ok (expires_on en) ->
  (T <= now e <= T + D * us_per_second)%Z -> needs_refresh c h false (now e) = false.
Proof using Hlife.
  intros He Hx Hw. rewrite (needs_refresh_cached _ _ _ _ He). unfold expiry_ok, dt_sub in *.
  rewrite td_seconds_le_300 by (unfold us_per_day, us_per_second in *; lia).
  apply Z.ltb_ge. unfold us_per_second in *. lia.
Qed.

Lemma get_token_window c e :
  in_window e ->
  match tokens c !! h with
  | None => True
  | Some en => token en = tok /\ expiry_ok (expires_on en)
  end ->
  exists c', get_token c h false USER_AGENT (now e) (requested_on e) (token_server e) = Ok (c', tok) /\
    (exists en, tokens c' !! h = Some en /\ token en = tok /\ expiry_ok (expires_on en)) /\
    needs_refresh c h false (now e) = bool_decide (tokens c !! h = None).
Proof using Hno_error Haccess Hexpires Hlife Hrange.
  intros [Hs Hw] Hc. destruct (tokens c !! h) as [en|] eqn:He.
  - destruct Hc as [Ht Hx]. exists c.
    rewrite (needs_refresh_window c en e) by (done || lia).
    rewrite get_token_cached with (e := en) by (done || by eapply needs_refresh_window; [..|lia]).
    rewrite Ht. split; [done|]. split; [by exists en|]. by rewrite bool_decide_false.
  - assert (Hn : needs_refresh c h false (now e) = true) by (unfold needs_refresh; by rewrite He).
    unfold get_token. rewrite Hn.
    rewrite (retrieve_token_reply c h USER_AGENT (requested_on e) (token_server e) reply tok n)
      by (done || (unfold us_per_second in *; lia)).
    simpl. rewrite lookup_insert_eq. eexists. split; [reflexivity|].
    split; [|by rewrite ?bool_decide_true].
    eexists. simpl. rewrite lookup_insert_eq. split; [done|]. split; [done|].
    unfold expiry_ok. simpl. unfold us_per_second in *. lia.
Qed.

(** A call to [h] in the window. *)
Lemma session_step_host s k e :
  host_inv (cred s) (log s) -> hostname (call_ws k) = h -> in_window e ->
  host_inv (cred (snd (session_step s k e))) (log (snd (session_step s k e))).
Proof using Hno_error Haccess Hexpires Hlife Hrange.
  intros [Hb Hc] Hh Hw. destruct (session_step_parts s k e) as [-> ->].
  split; [apply Forall_app; split; [done|]; apply Forall_singleton; intros _; cbn [snd]|].
  all: destruct (run_call_auth k (cred s) (with_files e (fs s))) as [[Hcr Hws]|(pre & Hpre & Hg)];
    [|cbv zeta in Hg; rewrite Hh in Hg;
      change (now (with_files e (fs s))) with (now e) in Hg;
      change (requested_on (with_files e (fs s))) with (requested_on e) in Hg;
      change (token_server (with_files e (fs s))) with (token_server e) in Hg;
      destruct (get_token_window (cred s) e Hw) as (c' & Hget & (en & Hen & Ht & Hx) & Hnr);
      [by destruct (tokens (cred s) !! h) as [en|]; [destruct Hc as (? & ? & _)|]|];
      rewrite Hget in Hg; destruct Hg as [Hcr (call & Htr & Hcall)];
      unfold token_events in Htr; rewrite Hh in Htr; cbv beta iota in Htr;
      change (now (with_files e (fs s))) with (now e) in Htr; rewrite Hnr in Htr].
  - by apply bearer_ok_wsdl.
  - rewrite Htr, !Forall_app. split_and!; [by apply bearer_ok_wsdl| |by repeat constructor].
    by case_bool_decide; repeat constructor.
  - rewrite Hcr, token_requests_log. simpl. by rewrite (token_requests_wsdl _ _ Hws), Nat.add_0_r.
  - rewrite Hcr, Hen, token_requests_log, Htr. simpl. split_and!; [done|done|].
    rewrite !token_requests_app, (token_requests_wsdl _ _ Hpre).
    destruct (tokens (cred s) !! h); [destruct Hc as (_ & _ & ->)|rewrite Hc];
      case_bool_decide; unfold token_requests; simpl; rewrite ?String.eqb_refl; simpl; try done; lia.
Qed.

(** A call to another host, in any environment. *)
Lemma session_step_other s k e :
  host_inv (cred s) (log s) -> hostname (call_ws k) <> h ->
  host_inv (cred (snd (session_step s k e))) (log (snd (session_step s k e))).
Proof.
  intros [Hb Hc] Hh. destruct (session_step_parts s k e) as [-> ->].
  destruct (run_call_other_host h k (cred s) (with_files e (fs s)) Hh) as [(c' & -> & Hf) Hn].
  split; [apply Forall_app; split; [done|]; apply Forall_singleton; cbn [fst]; by intros ?%Hh|].
  rewrite Hf, token_requests_log. cbn [snd]. by rewrite Hn, Nat.add_0_r.
Qed.

(** C20 *)
(** A credential serving several hosts keeps one token per host: in a
    session that starts with no token for [h], whose calls to [h] read
    the clock within [D] seconds while the token endpoint of [h] answers
    with a token valid [n] seconds, [D + 301 <= n < 86400 - D], and
    whose calls to other hosts are arbitrary, at most one token request
    goes to [h], and every SOAP call to [h] carries
    [Authorization: Bearer <that token>], whether or not calls raise. *)
Theorem run_session_one_token c files calls :
  tokens c !! h = None ->
  Forall (fun ke => hostname (call_ws ke.1) = h -> in_window ke.2) calls ->
  let s := snd (run_session (mkSession c files [] []) calls) in
  token_requests h (session_trace s) <= 1 /\
  Forall (fun he => he.1 = h -> Forall (bearer_ok tok) he.2) (log s).
Proof using Hno_error Haccess Hexpires Hlife Hrange.
  intros Hc Hw s.
  assert (Hinv : host_inv (cred s) (log s)).
  { apply (run_session_preserves (fun k e => hostname (call_ws k) = h -> in_window e)
             (fun s => host_inv (cred s) (log s))); [|split; [done|]; simpl; by rewrite Hc|done].
    intros s0 k e Hs0 Hke. destruct (decide (hostname (call_ws k) = h)) as [Hh|Hh].
    - by apply session_step_host; [..|apply Hke].
    - by apply session_step_other. }
  destruct Hinv as [Hb Hn]. split; [|done]. unfold session_trace.
  destruct (tokens (cred s) !! h) as [en|]; [destruct Hn as (_ & _ & ->)|rewrite Hn]; lia.
Qed.

End OneHost.

End Run.

(** ** Witnesses *)

Definition acme_ws : RelaticsWebservices := RelaticsWebservices_new "Acme" "ws-1" "my-agent".
Definition day1 : datetime := (737800 * us_per_day)%Z.
Definition token_reply : list (string * json) :=
  [("access_token", JStr "abc"); ("token_type", JStr "bearer"); ("expires_in", JInt 3600)].
Definition at_time (t : datetime) : env :=
  mkEnv t t (fun _ => JObj token_reply) (fun _ => Ok tt) (fun _ => Ok (SObj [])) "/tmp" ∅.
Definition beta_ws : RelaticsWebservices := RelaticsWebservices_new "Beta" "ws-2" "my-agent".
Definition other_reply (_ : request) : json :=
  JObj [("access_token", JStr "xyz"); ("expires_in", JInt 60)].

(** Two calls to [acme] five minutes apart, with a call to [beta] in
    between whose endpoint issues one-minute tokens. *)
Definition three_calls : list (ws_call * env) :=
  [(CallGetResult acme_ws "getA" None, at_time day1);
   (CallGetResult beta_ws "getC" None,
    mkEnv (day1 + 100 * us_per_second) (day1 + 100 * us_per_second) other_reply (fun _ => Ok tt)
      (fun _ => Ok SNone) "/tmp" ∅);
   (CallGetResult acme_ws "getB" (Some [("Year", "2024")]), at_time (day1 + 300 * us_per_second))].

Lemma run_session_reach_witness :
  cred_reach "id" "secret"
    (cred (snd (run_session (mkSession (ClientCredential_new "id" "secret") ∅ [] []) three_calls))).
Proof. apply run_session_reach. constructor. Defined.

(** The second call to [acme], made with the cached token. *)
Definition acme_getB : soap_call :=
  GetResultCall "getB" "ws-1" None [("User-Agent", "my-agent"); ("Authorization", "Bearer abc")]
    (Some [("Year", "2024")]).

Lemma run_session_last_call_witness :
  let s := snd (run_session (mkSession (ClientCredential_new "id" "secret") ∅ [] []) three_calls) in
  exists en, tokens (cred s) !! "acme.relaticsonline.com" = Some en /\
             ("Authorization", "Bearer " +:+ json_str (token en)) ∈ call_headers acme_getB.
Proof.
  apply (run_session_last_call (ClientCredential_new "id" "secret") ∅ three_calls
           "acme.relaticsonline.com" acme_getB).
  vm_compute. reflexivity.
Defined.

Lemma run_session_one_token_witness :
  let s := snd (run_session (mkSession (ClientCredential_new "id" "secret") ∅ [] []) three_calls) in
  token_requests "acme.relaticsonline.com" (session_trace s) <= 1 /\
  Forall (fun he => he.1 = "acme.relaticsonline.com" -> Forall (bearer_ok (JStr "abc")) he.2) (log s).
Proof.
  apply (run_session_one_token "acme.relaticsonline.com" (JStr "abc") 3600 day1 600 token_reply);
    [apply (bool_decide_unpack _); vm_compute; exact I|reflexivity|reflexivity|lia|unfold datetime_max, day1, us_per_day, us_per_second; lia
    |reflexivity|].
  repeat constructor; simpl; try (intros Hne; vm_compute in Hne; discriminate);
    unfold us_per_second, day1, us_per_day; simpl; lia.
Defined.

End Session.
