(* ===== verification/Flow.v ===== *)
(** * The caller's flow: request, transport, normaliser

    The control flow of the library: the caller invokes
    [RelaticsWebservices.run_import] (or [get_result]), which validates
    its arguments, downloads the WSDL, builds the payload and makes the
    SOAP call; the caller hands the raw response to
    [ImportResult.from_suds] (or [ExportResult.from_suds]).  The two
    stages are composed by [let!]: an exception of either ends the
    flow.  The caller's code is not part of the repository; the flow is
    the one the specification describes.

    The theorem is the error contract of the specification: a
    validation error and a transport error are raised, while an error
    the remote service reports comes back inside a result whose
    [has_error] is set, which is falsy. *)

From S2P Require Import Prelude PyObj PyTime BaseResult ImportResult Base64 Zip Json Credential Xml PosixPath Payload ExportResult Dispatcher.

Module Flow.

Import Payload Dispatcher.

Section Flow.
Context `{ZA : ZipArchive}.
Variable fromisoformat : string -> option time_of_day.

(** [ImportResult.from_suds(ws.run_import(...))]. *)
Definition import_flow (ws : RelaticsWebservices) (op : string) (data : data_arg) (a : auth_arg)
    (file_name : option string) (docs : option (list string)) (keep : bool) (e : env)
    : res ImportResult.ImportResult :=
  let! resp := out_result (run_import ws op data a file_name docs keep e) in
  ImportResult.from_suds fromisoformat resp.

(** [ExportResult.from_suds(ws.get_result(...))]: the result and the
    response after the deletion of its documents. *)
Definition export_flow (ws : RelaticsWebservices) (op : string)
    (ps : option (list (string * string))) (a : auth_arg) (e : env)
    : res (ExportResult.ExportResult * sobj) :=
  let! resp := out_result (get_result ws op ps a e) in
  ExportResult.from_suds resp.

(** ** Lemmas *)

Lemma import_flow_invalid ws op data a file_name docs keep e :
  op = "" \/ data_truthy data = false ->
  exists msg, import_flow ws op data a file_name docs keep e = raise (ValueError msg).
Proof using ZA fromisoformat.
  intros Hv. unfold import_flow, run_import, check_args.
  destruct (String.eqb_spec op "") as [->|Hop]; [by eexists|].
  destruct Hv as [Hop'|Hd]; [done|]. rewrite Hd. by eexists.
Qed.

Lemma import_flow_rows ws op rows a file_name keep e :
  op <> "" -> rows <> [] -> cred_of a = None ->
  let call := ImportCall op (workspace_id ws) (auth_entrycode a) [("User-Agent", user_agent ws)]
                (file_basename file_name +:+ ".xml")
                (b64encode (utf8_encode (document_str (build_rows rows)))) in
  import_flow ws op (DataRows rows) a file_name None keep e =
    let! _ := wsdl_client e (wsdl_url ws) in
    let! resp := service e call in
    ImportResult.from_suds fromisoformat resp.
Proof using ZA fromisoformat.
  intros Hop Hr Ha call. unfold import_flow. rewrite run_import_rows_outcome by done.
  by destruct (wsdl_client e (wsdl_url ws)).
Qed.

(** A failing WSDL download or SOAP call of [get_result] ends the export
    flow with its exception; otherwise the normaliser gets the reply. *)
Lemma export_flow_plain ws op ps a e :
  cred_of a = None ->
  let call := GetResultCall op (workspace_id ws) (auth_entrycode a) [("User-Agent", user_agent ws)] ps in
  export_flow ws op ps a e =
    let! _ := wsdl_client e (wsdl_url ws) in
    let! resp := service e call in
    ExportResult.from_suds resp.
Proof using ZA.
  intros Ha call. unfold export_flow, get_result.
  destruct (wsdl_client e (wsdl_url ws)); [|done]. simpl.
  by rewrite auth_headers_plain.
Qed.

(** ** The error contract *)

(** C25 *)
(** The error contract of an import of rows with an entry code or no
    authentication: an empty operation name or no rows raise
    [ValueError]; an exception of the WSDL download or of the SOAP call
    is raised unchanged; a reply whose [Export] node carries an
    [_Error] (and which has no [Import] node) is not raised but returned
    as a result with [has_error] set and [error_msg] the error text,
    which is falsy. *)
Theorem import_flow_error_contract ws op rows a file_name keep e :
  cred_of a = None ->
  let call := ImportCall op (workspace_id ws) (auth_entrycode a) [("User-Agent", user_agent ws)]
                (file_basename file_name +:+ ".xml")
                (b64encode (utf8_encode (document_str (build_rows rows)))) in
  let flow := import_flow ws op (DataRows rows) a file_name None keep e in
  ((op = "" \/ rows = []) -> exists msg, flow = raise (ValueError msg)) /\
  (op <> "" -> rows <> [] -> forall ex,
     wsdl_client e (wsdl_url ws) = Raise ex \/
     (wsdl_client e (wsdl_url ws) = Ok tt /\ service e call = Raise ex) ->
     flow = Raise ex) /\
  (op <> "" -> rows <> [] -> wsdl_client e (wsdl_url ws) = Ok tt ->
   forall fs exp err,
     service e call = Ok (SObj fs) -> attr_lookup "Export" fs = Some exp ->
     getattr exp "_Error" = Ok err -> hasattr (SObj fs) "Import" = false ->
     exists r, flow = Ok r /\ ImportResult.ir_error_msg r = SetTo (py_str err) /\
               ImportResult.ImportResult_bool r = false).
Proof using ZA fromisoformat.
  intros Ha call flow. split_and!.
  - intros Hv. apply import_flow_invalid.
    destruct Hv as [Ho|Hr]; [by left|right; by rewrite Hr].
  - intros Hop Hr ex Hex. unfold flow. rewrite import_flow_rows by done.
    destruct Hex as [Hw|[Hw Hs]]; rewrite Hw; [done|]. simpl. fold call. by rewrite Hs.
  - intros Hop Hr Hw fs exp err Hs Hx He Hi. unfold flow. rewrite import_flow_rows by done.
    rewrite Hw. simpl. fold call. rewrite Hs. simpl.
    rewrite (ImportResult.from_suds_export_error fromisoformat fs exp err) by done.
    by eexists.
Qed.

End Flow.

(** ** Witness *)

Definition acme : RelaticsWebservices := RelaticsWebservices_new "Acme" "ws-1" "my-agent".

(** A reply reporting an error of the import file. *)
Definition error_reply : sobj :=
  SObj [("Export", SObj [("_Error", SText "Error while reading file")])].

Definition error_world : env :=
  mkEnv 0 0 (fun _ => JObj []) (fun _ => Ok tt) (fun _ => Ok error_reply) "/tmp" ∅.

Lemma import_flow_error_contract_witness :
  exists r, import_flow (fun _ => None) acme "Import1" (DataRows [[("name", "a")]])
              (AuthEntrycode "code") None None false error_world = Ok r /\
            ImportResult.ir_error_msg r = SetTo (py_str (SText "Error while reading file")) /\
            ImportResult.ImportResult_bool r = false.
Proof.
  destruct (import_flow_error_contract (fun _ => None) acme "Import1" [[("name", "a")]]
              (AuthEntrycode "code") None false error_world) as (_ & _ & H3); [reflexivity|].
  apply (H3 ltac:(discriminate) ltac:(discriminate) eq_refl
           [("Export", SObj [("_Error", SText "Error while reading file")])]
           (SObj [("_Error", SText "Error while reading file")]) (SText "Error while reading file"));
    reflexivity.
Defined.

End Flow.
