(* ===== verification/Example.v ===== *)
(** * The usage script

    Models the statements of [src/example.py] that run (lines 20-33):
    the construction of a [ClientCredential] and of a
    [RelaticsWebservices], the call of [get_result] with an entry code
    and one parameter, and the two [print] calls on its result.  The
    rest of the file is commented out; the logging set-up (lines 12-17)
    only configures output.

    The four names the script imports from [config] are not part of the
    repository: they are the section variables [SAMPLE_CLIENT_ID],
    [SAMPLE_CLIENT_SECRET], [SAMPLE_COMPANY] and [SAMPLE_WORKSPACE_ID].
    [get_result] returns the raw suds node; [print(aaa)] writes what
    suds prints for it, the section variable [obj_str], and [bool(aaa)]
    is [Object.__len__] ([Render.sobj_truthy]).  Standard output is a
    string, each [print] appending its text and a newline. *)

From S2P Require Import Prelude PyObj Credential Dispatcher Render.

Module Example.

Import Credential Dispatcher.

Section Script.

Variables SAMPLE_CLIENT_ID SAMPLE_CLIENT_SECRET SAMPLE_COMPANY SAMPLE_WORKSPACE_ID : string.
Variable obj_str : sobj -> string.

(** [str] of a Python [bool]. *)
Definition py_bool_str (b : bool) : string := if b then "True" else "False".

(** [print(s)]. *)
Definition print (s : string) (stdout : string) : string := stdout +:+ s +:+ Render.nl.

(** Lines 20-23. *)
Definition cc : ClientCredential := ClientCredential_new SAMPLE_CLIENT_ID SAMPLE_CLIENT_SECRET.

(** Line 25: [user_agent] takes its default [USER_AGENT]. *)
Definition relatics_webservice : RelaticsWebservices :=
  RelaticsWebservices_new SAMPLE_COMPANY SAMPLE_WORKSPACE_ID USER_AGENT.

Definition example_parameters : list (string * string) := [("param1", "Hallo123_EntryCode")].
Definition example_entrycode : string := "B7CAA7A9F27BCA0B6586A607DEDE31F0".

(** The state the script leaves: what it printed, the requests made in
    order, and the credential [cc]. *)
Record script_state := mkScript {
  stdout : string;
  requests : list event;
  credential : ClientCredential
}.

(** Lines 20-33, from an empty standard output.  An exception of
    [get_result] ends the script with what has been printed so far. *)
Definition example_main (e : env) : res unit * script_state :=
  let cc := cc in
  let ws := relatics_webservice in
  let o := get_result ws "getActiesEntrycode" (Some example_parameters)
             (AuthEntrycode example_entrycode) e in
  match out_result o with
  | Raise ex => (Raise ex, mkScript "" (out_trace o) cc)
  | Ok aaa =>
      let out := print ("Bool evaluation: " +:+ py_bool_str (Render.sobj_truthy aaa)) "" in
      let out := print (obj_str aaa) out in
      (Ok tt, mkScript out (out_trace o) cc)
  end.

(** ** Lemmas *)

(** An entry code adds no header and makes no token request. *)
Lemma get_result_entrycode ws op ps code e :
  get_result ws op ps (AuthEntrycode code) e =
    let call := GetResultCall op (workspace_id ws) (Some code) [("User-Agent", user_agent ws)] ps in
    match wsdl_client e (wsdl_url ws) with
    | Raise ex => mkOutcome (Raise ex) None (files e) [EvWsdl (wsdl_url ws)]
    | Ok _ => mkOutcome (service e call) None (files e) [EvWsdl (wsdl_url ws); EvCall call]
    end.
Proof. unfold get_result. by destruct (wsdl_client e (wsdl_url ws)). Qed.

(** ** The script's run *)

(** The WSDL the script downloads and the call it makes. *)
Definition example_url : string :=
  "https://" +:+ (py_lower SAMPLE_COMPANY +:+ ".relaticsonline.com") +:+ "/DataExchange.asmx?wsdl".

Definition example_call : soap_call :=
  GetResultCall "getActiesEntrycode" SAMPLE_WORKSPACE_ID (Some example_entrycode)
    [("User-Agent", USER_AGENT)] (Some example_parameters).

(** C37 *)
(** The script's run in any environment: it downloads the WSDL of
    [https://<company in lower case>.relaticsonline.com] and, when that
    succeeds, makes one [GetResult] call with the entry code, the
    default user agent and the plugin's parameter; it never asks for a
    token.  When the call returns, it prints [Bool evaluation: True] or
    [False] after the truth value of the response and then the
    response; an exception of the download or of the call ends it with
    nothing printed.  The credential [cc] is left as constructed, with
    an empty token cache. *)
Theorem example_main_run e :
  let cc0 := mkCredential SAMPLE_CLIENT_ID SAMPLE_CLIENT_SECRET ∅ in
  example_main e =
    match wsdl_client e example_url with
    | Raise ex => (Raise ex, mkScript "" [EvWsdl example_url] cc0)
    | Ok _ =>
        match service e example_call with
        | Raise ex => (Raise ex, mkScript "" [EvWsdl example_url; EvCall example_call] cc0)
        | Ok aaa =>
            (Ok tt, mkScript ("Bool evaluation: " +:+ py_bool_str (Render.sobj_truthy aaa)
                                +:+ Render.nl +:+ obj_str aaa +:+ Render.nl)
                      [EvWsdl example_url; EvCall example_call] cc0)
        end
    end.
Proof.
  intros cc0. unfold example_main. rewrite get_result_entrycode.
  change (wsdl_url relatics_webservice) with example_url.
  destruct (wsdl_client e example_url); [|done]. cbn -[String.append].
  change (GetResultCall _ _ _ _ _) with example_call.
  destruct (service e example_call); [|done]. unfold print. str_assoc. reflexivity.
Qed.

End Script.

End Example.
